(** * Family wealth catalogue: record store, filter, migration, persistence

    A shallow embedding of the data layer of the two application variants
    [app.py] (module [Basic]) and [investment_catalogue_app.py] (module
    [Catalogue]).

    The store is the Python object tree the applications keep in
    [self.data_store]: dictionaries, lists, strings and scalars, exactly what
    [json.load] builds.  Dictionaries are insertion-ordered association
    lists, because key order is observable (CSV header, [json.dump] output).
    Operations run in a state-and-exception monad in which the state changes
    made before a [raise] persist, as in Python.

    Modelling limits, stated once:
    - a Python [str] is a sequence of code points below 256 (Rocq [string]);
    - JSON numbers are integers ([Z]); floating point values are outside the
      embedding;
    - the Tk widgets are not modelled: a tree-view rebuild is a parameter
      that either completes or raises, the user's answers to dialogs and the
      current selection are inputs of the operations. *)

From Stdlib Require Import List String Ascii ZArith Bool Lia DecimalString.
From Stdlib Require DecimalPos DecimalZ.
Import ListNotations.
Local Open Scope string_scope.
Set Warnings "-register-all".

(* ================================================================== *)
(** ** Python values *)

Inductive json : Type :=
| JNull
| JBool (b : bool)
| JNum (n : Z)
| JStr (s : string)
| JList (l : list json)
| JDict (d : list (string * json)).

(** Exceptions raised by the modelled code, by class.  [ValueError] carries
    its message, the only one the applications construct themselves.
    [Unrepresentable] is not a Python exception: it marks a value the
    embedding cannot hold. *)
Inductive exn : Type :=
| TypeError
| KeyError (key : string)
| AttributeError
| ValueError (msg : string)
| JSONDecodeError
| OSError
| TclError
| RecursionError
| Unrepresentable.

Inductive result (A : Type) : Type :=
| Ok (a : A)
| Raise (e : exn).
Arguments Ok {A} a.
Arguments Raise {A} e.

Definition rbind {A B} (m : result A) (k : A -> result B) : result B :=
  match m with
  | Ok a => k a
  | Raise e => Raise e
  end.

Notation "'let?' x := m 'in' k" := (rbind m (fun x => k))
  (at level 10, x name, m at level 100, k at level 200).

(* ------------------------------------------------------------------ *)
(** *** Dictionaries: insertion-ordered, keys are strings *)

Definition dict := list (string * json).

Fixpoint dict_get (k : string) (d : dict) : option json :=
  match d with
  | [] => None
  | (k', v) :: d' => if String.eqb k k' then Some v else dict_get k d'
  end.

Definition dict_has (k : string) (d : dict) : bool :=
  match dict_get k d with Some _ => true | None => false end.

(** [d[k] = v]: an existing key keeps its position, a new key goes last. *)
Fixpoint dict_set (k : string) (v : json) (d : dict) : dict :=
  match d with
  | [] => [(k, v)]
  | (k', v') :: d' =>
      if String.eqb k k' then (k, v) :: d' else (k', v') :: dict_set k v d'
  end.

(** [d.pop(k, default)]: the entry is removed, the order of the rest kept. *)
Fixpoint dict_pop (k : string) (d : dict) : dict :=
  match d with
  | [] => []
  | (k', v') :: d' =>
      if String.eqb k k' then d' else (k', v') :: dict_pop k d'
  end.

(** [d.update(other)] *)
Definition dict_update (d other : dict) : dict :=
  fold_left (fun acc kv => dict_set (fst kv) (snd kv) acc) other d.

Definition dict_keys (d : dict) : list string := map fst d.
Definition dict_values (d : dict) : list json := map snd d.

(* ------------------------------------------------------------------ *)
(** *** Strings *)

(** [t in s] for two strings: [t] occurs in [s] as a substring. *)
Fixpoint str_contains (t s : string) : bool :=
  String.prefix t s ||
  match s with
  | EmptyString => false
  | String _ s' => str_contains t s'
  end.

(** [str.lower()] on code points below 256: A-Z and the Latin-1 capitals
    (U+00C0 to U+00DE, the multiplication sign U+00D7 apart). *)
Definition lower_char (c : ascii) : ascii :=
  let n := nat_of_ascii c in
  if (((65 <=? n) && (n <=? 90)) ||
      ((192 <=? n) && (n <=? 222) && negb (n =? 215)))%nat
  then ascii_of_nat (n + 32) else c.

Fixpoint lower (s : string) : string :=
  match s with
  | EmptyString => EmptyString
  | String c s' => String (lower_char c) (lower s')
  end.

Fixpoint str_join (sep : string) (l : list string) : string :=
  match l with
  | [] => ""
  | [x] => x
  | x :: xs => x ++ sep ++ str_join sep xs
  end.

Definition hex_digit (n : nat) : ascii :=
  ascii_of_nat (if (n <? 10)%nat then 48 + n else 87 + n).

Definition hex2 (n : nat) : string :=
  String (hex_digit (n / 16)) (String (hex_digit (n mod 16)) "").

Fixpoint str_has_char (c : ascii) (s : string) : bool :=
  match s with
  | EmptyString => false
  | String c' s' => Ascii.eqb c c' || str_has_char c s'
  end.

Definition squote : ascii := ascii_of_nat 39.
Definition dquote : ascii := ascii_of_nat 34.
Definition backslash : ascii := ascii_of_nat 92.

(** One character of [repr(s)], [q] being the quote [repr] chose. *)
Definition repr_char (q c : ascii) : string :=
  let n := nat_of_ascii c in
  if Ascii.eqb c q || Ascii.eqb c backslash then String backslash (String c "")
  else if (n =? 9)%nat then String backslash "t"
  else if (n =? 10)%nat then String backslash "n"
  else if (n =? 13)%nat then String backslash "r"
  else if ((n <? 32) || (n =? 127) || ((128 <=? n) && (n <=? 160)) || (n =? 173))%nat
       then String backslash ("x" ++ hex2 n)
  else String c "".

Fixpoint repr_chars (q : ascii) (s : string) : string :=
  match s with
  | EmptyString => ""
  | String c s' => repr_char q c ++ repr_chars q s'
  end.

(** [repr(s)] of a string: single quotes unless the string has a single
    quote and no double quote. *)
Definition repr_str (s : string) : string :=
  let q := if str_has_char squote s && negb (str_has_char dquote s)
           then dquote else squote in
  String q (repr_chars q s ++ String q "").

Definition str_of_Z (n : Z) : string := NilZero.string_of_int (Z.to_int n).

(** [repr(v)]; for everything but strings it is also [str(v)]. *)
Fixpoint py_repr (v : json) : string :=
  match v with
  | JNull => "None"
  | JBool true => "True"
  | JBool false => "False"
  | JNum n => str_of_Z n
  | JStr s => repr_str s
  | JList l => "[" ++ str_join ", " (map py_repr l) ++ "]"
  | JDict d =>
      "{" ++ str_join ", "
               (map (fun kv => repr_str (fst kv) ++ ": " ++ py_repr (snd kv)) d)
          ++ "}"
  end.

(** [str(v)] *)
Definition py_str (v : json) : string :=
  match v with
  | JStr s => s
  | _ => py_repr v
  end.

(* ------------------------------------------------------------------ *)
(** *** Operators and methods the applications use *)

(** [a == b].  [True == 1] holds (a bool is an int), lists compare item by
    item, dictionaries by their entries whatever the order. *)
Fixpoint py_eq (a b : json) : bool :=
  match a, b with
  | JNull, JNull => true
  | JBool x, JBool y => Bool.eqb x y
  | JBool x, JNum n => Z.eqb (if x then 1 else 0) n
  | JNum n, JBool x => Z.eqb n (if x then 1 else 0)
  | JNum x, JNum y => Z.eqb x y
  | JStr x, JStr y => String.eqb x y
  | JList l, JList m =>
      (fix items (l m : list json) : bool :=
         match l, m with
         | [], [] => true
         | x :: l', y :: m' => py_eq x y && items l' m'
         | _, _ => false
         end) l m
  | JDict d, JDict e =>
      Nat.eqb (List.length d) (List.length e) &&
      forallb (fun kv => match dict_get (fst kv) e with
                         | Some w => py_eq (snd kv) w
                         | None => false
                         end) d
  | _, _ => false
  end.

Fixpoint chars (s : string) : list string :=
  match s with
  | EmptyString => []
  | String c s' => String c "" :: chars s'
  end.

(** [x in c]: key of a dict ([x] has to be hashable), element of a list,
    substring of a string ([x] has to be a string); anything else is not a
    container. *)
Definition py_in (x c : json) : result bool :=
  match c with
  | JDict d =>
      match x with
      | JStr s => Ok (dict_has s d)
      | JList _ | JDict _ => Raise TypeError
      | _ => Ok false
      end
  | JList l => Ok (existsb (fun v => py_eq v x) l)
  | JStr t =>
      match x with
      | JStr s => Ok (str_contains s t)
      | _ => Raise TypeError
      end
  | _ => Raise TypeError
  end.

(** [c[k]] for a string [k] *)
Definition py_getitem (c : json) (k : string) : result json :=
  match c with
  | JDict d =>
      match dict_get k d with
      | Some v => Ok v
      | None => Raise (KeyError k)
      end
  | _ => Raise TypeError
  end.

(** [c.get(k, default)]; [c.get(k)] is [py_get c k JNull]. *)
Definition py_get (c : json) (k : string) (default : json) : result json :=
  match c with
  | JDict d =>
      match dict_get k d with
      | Some v => Ok v
      | None => Ok default
      end
  | _ => Raise AttributeError
  end.

(** [c[k] = v] *)
Definition py_setitem (c : json) (k : string) (v : json) : result json :=
  match c with
  | JDict d => Ok (JDict (dict_set k v d))
  | _ => Raise TypeError
  end.

(** [c.values()] *)
Definition py_values (c : json) : result (list json) :=
  match c with
  | JDict d => Ok (dict_values d)
  | _ => Raise AttributeError
  end.

(** Truth value of [v] in a condition. *)
Definition py_truthy (v : json) : bool :=
  match v with
  | JNull => false
  | JBool b => b
  | JNum n => negb (Z.eqb n 0)
  | JStr s => negb (String.eqb s "")
  | JList l => match l with [] => false | _ => true end
  | JDict d => match d with [] => false | _ => true end
  end.

(** The items a [for] loop (or a comprehension) draws from [v]. *)
Definition py_iter (v : json) : result (list json) :=
  match v with
  | JList l => Ok l
  | JDict d => Ok (map JStr (dict_keys d))
  | JStr s => Ok (map JStr (chars s))
  | _ => Raise TypeError
  end.

Definition isinstance_list (v : json) : bool :=
  match v with JList _ => true | _ => false end.

Definition isinstance_dict (v : json) : bool :=
  match v with JDict _ => true | _ => false end.

(** [l.remove(x)]: the first element equal to [x] goes; [ValueError] when
    there is none. *)
Fixpoint list_remove (x : json) (l : list json) : option (list json) :=
  match l with
  | [] => None
  | y :: ys =>
      if py_eq y x then Some ys
      else match list_remove x ys with
           | Some ys' => Some (y :: ys')
           | None => None
           end
  end.

Definition py_remove (c x : json) : result json :=
  match c with
  | JList l =>
      match list_remove x l with
      | Some l' => Ok (JList l')
      | None => Raise (ValueError "list.remove(x): x not in list")
      end
  | _ => Raise AttributeError
  end.

(** [sep.join(items)]: every item has to be a string. *)
Fixpoint strs_of (l : list json) : option (list string) :=
  match l with
  | [] => Some []
  | JStr s :: xs =>
      match strs_of xs with
      | Some ss => Some (s :: ss)
      | None => None
      end
  | _ :: _ => None
  end.

Definition py_join (sep : string) (items : list json) : result string :=
  match strs_of items with
  | Some ss => Ok (str_join sep ss)
  | None => Raise TypeError
  end.

(** Monadic map over a list, left to right, stopping at the first raise. *)
Fixpoint rmap {A B} (f : A -> result B) (l : list A) : result (list B) :=
  match l with
  | [] => Ok []
  | x :: xs =>
      let? y := f x in
      let? ys := rmap f xs in
      Ok (y :: ys)
  end.

(** A comprehension [[x for x in l if p(x)]] whose test may raise. *)
Fixpoint rfilter {A} (p : A -> result bool) (l : list A) : result (list A) :=
  match l with
  | [] => Ok []
  | x :: xs =>
      let? b := p x in
      let? ys := rfilter p xs in
      Ok (if b then x :: ys else ys)
  end.

(** [any(p(x) for x in l)]: stops at the first true. *)
Fixpoint rany {A} (p : A -> result bool) (l : list A) : result bool :=
  match l with
  | [] => Ok false
  | x :: xs =>
      let? b := p x in
      if b then Ok true else rany p xs
  end.

(** [next((x for x in l if p(x)), None)] together with the position. *)
Fixpoint rfind {A} (p : A -> result bool) (l : list A) : result (option (nat * A)) :=
  match l with
  | [] => Ok None
  | x :: xs =>
      let? b := p x in
      if b then Ok (Some (0, x))
      else let? r := rfind p xs in
           Ok (match r with
               | Some (i, y) => Some (S i, y)
               | None => None
               end)
  end.

(** A loop that mutates the items of a list in place: the items before a
    raising one keep their changes, the raising one keeps what its body
    did before raising. *)
Fixpoint for_each_mut {A} (body : A -> A * option exn) (l : list A)
  : list A * option exn :=
  match l with
  | [] => ([], None)
  | x :: xs =>
      match body x with
      | (x', Some e) => (x' :: xs, Some e)
      | (x', None) =>
          let (xs', r) := for_each_mut body xs in (x' :: xs', r)
      end
  end.

(** The same loop over whatever [v] is: only the items of a list are
    objects the body can change; the keys of a dict and the characters of
    a string are immutable strings. *)
Definition for_each_item (body : json -> json * option exn) (v : json)
  : json * option exn :=
  match v with
  | JList l => let (l', r) := for_each_mut body l in (JList l', r)
  | _ =>
      match py_iter v with
      | Ok items => (v, snd (for_each_mut body items))
      | Raise e => (v, Some e)
      end
  end.

(** Run a fallible step on an object that stays as it was when the step
    raises. *)
Definition or_unchanged (x : json) (r : result json) : json * option exn :=
  match r with
  | Ok x' => (x', None)
  | Raise e => (x, Some e)
  end.

(* ================================================================== *)
(** ** [json.dump(obj, f, indent=4)] and [json.load(f)]

    The text is a list of characters.  Both follow the [json] module of the
    Python standard library: the encoder with its defaults for [indent=4]
    ([ensure_ascii], separators [","] and [": "]), the decoder in strict
    mode.  Where Python yields a value the embedding has no room for (a
    float, a code point from 256 on) the decoder raises [Unrepresentable]. *)

Local Open Scope char_scope.
Local Open Scope list_scope.

Definition text := list ascii.

Definition nl (level : nat) : text :=
  ascii_of_nat 10 :: repeat " " (4 * level).

Definition hex4 (n : nat) : text :=
  [ "0"; "0"; hex_digit (n / 16); hex_digit (n mod 16) ].

(** One character of a string, [ensure_ascii=True]. *)
Definition encode_char (c : ascii) : text :=
  let n := nat_of_ascii c in
  if (n =? 34)%nat then [backslash; dquote]
  else if (n =? 92)%nat then [backslash; backslash]
  else if (n =? 10)%nat then [backslash; "n"]
  else if (n =? 13)%nat then [backslash; "r"]
  else if (n =? 9)%nat then [backslash; "t"]
  else if (n =? 8)%nat then [backslash; "b"]
  else if (n =? 12)%nat then [backslash; "f"]
  else if ((32 <=? n) && (n <=? 126))%nat then [c]
  else backslash :: "u" :: hex4 n.

Fixpoint encode_chars (s : string) : text :=
  match s with
  | EmptyString => []
  | String c s' => encode_char c ++ encode_chars s'
  end.

Definition encode_str (s : string) : text :=
  dquote :: encode_chars s ++ [dquote].

Fixpoint join_text (sep : text) (l : list text) : text :=
  match l with
  | [] => []
  | [x] => x
  | x :: xs => x ++ sep ++ join_text sep xs
  end.

Fixpoint dump (level : nat) (v : json) : text :=
  match v with
  | JNull => list_ascii_of_string "null"
  | JBool true => list_ascii_of_string "true"
  | JBool false => list_ascii_of_string "false"
  | JNum n => list_ascii_of_string (str_of_Z n)
  | JStr s => encode_str s
  | JList [] => ["["; "]"]
  | JList l =>
      "[" :: nl (S level)
        ++ join_text ("," :: nl (S level)) (map (dump (S level)) l)
        ++ nl level ++ ["]"]
  | JDict [] => ["{"; "}"]
  | JDict d =>
      "{" :: nl (S level)
        ++ join_text ("," :: nl (S level))
             (map (fun kv => encode_str (fst kv) ++ ":" :: " " :: dump (S level) (snd kv)) d)
        ++ nl level ++ ["}"]
  end.

Definition json_dumps (v : json) : string := string_of_list_ascii (dump 0 v).

(* ------------------------------------------------------------------ *)
(** *** The decoder *)

Definition is_ws (c : ascii) : bool :=
  let n := nat_of_ascii c in
  ((n =? 32) || (n =? 9) || (n =? 10) || (n =? 13))%nat.

Fixpoint skip_ws (s : text) : text :=
  match s with
  | c :: s' => if is_ws c then skip_ws s' else s
  | [] => []
  end.

Definition hex_value (c : ascii) : option nat :=
  let n := nat_of_ascii c in
  if ((48 <=? n) && (n <=? 57))%nat then Some (n - 48)
  else if ((97 <=? n) && (n <=? 102))%nat then Some (n - 87)
  else if ((65 <=? n) && (n <=? 70))%nat then Some (n - 55)
  else None.

Definition decode_u (a b c d : ascii) : option nat :=
  match hex_value a, hex_value b, hex_value c, hex_value d with
  | Some x, Some y, Some z, Some w => Some (((x * 16 + y) * 16 + z) * 16 + w)
  | _, _, _, _ => None
  end.

(** The character a backslash escape other than [\u] stands for. *)
Definition unescape (e : ascii) : option ascii :=
  let n := nat_of_ascii e in
  if (n =? 34)%nat then Some dquote
  else if (n =? 92)%nat then Some backslash
  else if (n =? 47)%nat then Some "/"
  else if (n =? 98)%nat then Some (ascii_of_nat 8)
  else if (n =? 102)%nat then Some (ascii_of_nat 12)
  else if (n =? 110)%nat then Some (ascii_of_nat 10)
  else if (n =? 114)%nat then Some (ascii_of_nat 13)
  else if (n =? 116)%nat then Some (ascii_of_nat 9)
  else None.

(** [scanstring], from the character after the opening quote. *)
Fixpoint scanstring (s : text) : result (string * text) :=
  match s with
  | [] => Raise JSONDecodeError
  | c :: rest =>
      if Ascii.eqb c dquote then Ok (EmptyString, rest)
      else if Ascii.eqb c backslash then
        match rest with
        | [] => Raise JSONDecodeError
        | e :: rest1 =>
            if Ascii.eqb e "u" then
              match rest1 with
              | h1 :: h2 :: h3 :: h4 :: rest2 =>
                  match decode_u h1 h2 h3 h4 with
                  | Some code =>
                      if (code <? 256)%nat then
                        let? r := scanstring rest2 in
                        Ok (String (ascii_of_nat code) (fst r), snd r)
                      else Raise Unrepresentable
                  | None => Raise JSONDecodeError
                  end
              | _ => Raise JSONDecodeError
              end
            else
              match unescape e with
              | Some ch =>
                  let? r := scanstring rest1 in
                  Ok (String ch (fst r), snd r)
              | None => Raise JSONDecodeError
              end
        end
      else if (nat_of_ascii c <? 32)%nat then Raise JSONDecodeError
      else
        let? r := scanstring rest in
        Ok (String c (fst r), snd r)
  end.

Definition is_digit (c : ascii) : bool :=
  let n := nat_of_ascii c in ((48 <=? n) && (n <=? 57))%nat.

Fixpoint take_digits (s : text) : text * text :=
  match s with
  | c :: s' =>
      if is_digit c then let (ds, r) := take_digits s' in (c :: ds, r)
      else ([], s)
  | [] => ([], [])
  end.

Definition digit_of (c : ascii) (u : Decimal.uint) : Decimal.uint :=
  match (nat_of_ascii c - 48)%nat with
  | 0 => Decimal.D0 u | 1 => Decimal.D1 u | 2 => Decimal.D2 u
  | 3 => Decimal.D3 u | 4 => Decimal.D4 u | 5 => Decimal.D5 u
  | 6 => Decimal.D6 u | 7 => Decimal.D7 u | 8 => Decimal.D8 u
  | _ => Decimal.D9 u
  end%nat.

Definition uint_of_digits (ds : text) : Decimal.uint :=
  fold_right digit_of Decimal.Nil ds.

(** A fraction or an exponent follows: Python reads a float. *)
Definition float_follows (s : text) : bool :=
  match s with
  | c :: d :: s' =>
      (Ascii.eqb c "." && is_digit d) ||
      ((Ascii.eqb c "e" || Ascii.eqb c "E") &&
       (is_digit d ||
        ((Ascii.eqb d "+" || Ascii.eqb d "-") &&
         match s' with x :: _ => is_digit x | [] => false end)))
  | _ => false
  end.

Fixpoint starts_with (p s : text) : bool :=
  match p, s with
  | [], _ => true
  | a :: p', b :: s' => Ascii.eqb a b && starts_with p' s'
  | _ :: _, [] => false
  end.

(** The integer part, [0] or a digit from 1 to 9 followed by digits. *)
Definition int_digits (s : text) : option (text * text) :=
  match s with
  | c :: s' =>
      if Ascii.eqb c "0" then Some ([c], s')
      else if is_digit c then let (ds, r) := take_digits s' in Some (c :: ds, r)
      else None
  | [] => None
  end.

Definition scan_number (s : text) : result (json * text) :=
  let (negative, s1) :=
    match s with
    | c :: s' => if Ascii.eqb c "-" then (true, s') else (false, s)
    | [] => (false, s)
    end in
  match int_digits s1 with
  | Some (ds, r) =>
      if float_follows r then Raise Unrepresentable
      else
        let u := uint_of_digits ds in
        Ok (JNum (Z.of_int (if negative then Decimal.Neg u else Decimal.Pos u)), r)
  | None =>
      if starts_with (list_ascii_of_string "NaN") s
         || starts_with (list_ascii_of_string "Infinity") s
         || starts_with (list_ascii_of_string "-Infinity") s
      then Raise Unrepresentable
      else Raise JSONDecodeError
  end.

(** The items of an array after the first [skip_ws], [scan] reading one
    value; [n] bounds the number of items. *)
Fixpoint scan_items (scan : text -> result (json * text)) (n : nat) (s : text)
  : result (list json * text) :=
  match n with
  | O => Raise RecursionError
  | S n' =>
      let? vr := scan s in
      match skip_ws (snd vr) with
      | c :: r =>
          if Ascii.eqb c "]" then Ok ([fst vr], r)
          else if Ascii.eqb c "," then
            let? more := scan_items scan n' (skip_ws r) in
            Ok (fst vr :: fst more, snd more)
          else Raise JSONDecodeError
      | [] => Raise JSONDecodeError
      end
  end.

(** The pairs of an object, from the opening quote of a key. *)
Fixpoint scan_pairs (scan : text -> result (json * text)) (n : nat) (s : text)
  : result (list (string * json) * text) :=
  match n with
  | O => Raise RecursionError
  | S n' =>
      match s with
      | q :: s0 =>
          if Ascii.eqb q dquote then
            let? kr := scanstring s0 in
            match skip_ws (snd kr) with
            | colon :: s1 =>
                if Ascii.eqb colon ":" then
                  let? vr := scan (skip_ws s1) in
                  match skip_ws (snd vr) with
                  | c :: r =>
                      if Ascii.eqb c "}" then Ok ([(fst kr, fst vr)], r)
                      else if Ascii.eqb c "," then
                        let? more := scan_pairs scan n' (skip_ws r) in
                        Ok ((fst kr, fst vr) :: fst more, snd more)
                      else Raise JSONDecodeError
                  | [] => Raise JSONDecodeError
                  end
                else Raise JSONDecodeError
            | [] => Raise JSONDecodeError
            end
          else Raise JSONDecodeError
      | [] => Raise JSONDecodeError
      end
  end.

(** [dict(pairs)]: a repeated key keeps its first place and its last value. *)
Definition dict_of_pairs (pairs : list (string * json)) : dict :=
  fold_left (fun acc kv => dict_set (fst kv) (snd kv) acc) pairs [].

(** [scan_once]: one value at the head of [s].  [fuel] bounds the nesting
    and the length of arrays and objects; the length of the text is
    enough. *)
Fixpoint scan_once (fuel : nat) (s : text) : result (json * text) :=
  match fuel with
  | O => Raise RecursionError
  | S fuel' =>
      match s with
      | [] => Raise JSONDecodeError
      | c :: rest =>
          if Ascii.eqb c dquote then
            let? r := scanstring rest in Ok (JStr (fst r), snd r)
          else if Ascii.eqb c "{" then
            match skip_ws rest with
            | c' :: r' =>
                if Ascii.eqb c' "}" then Ok (JDict [], r')
                else
                  let? pr := scan_pairs (scan_once fuel') fuel' (c' :: r') in
                  Ok (JDict (dict_of_pairs (fst pr)), snd pr)
            | [] => Raise JSONDecodeError
            end
          else if Ascii.eqb c "[" then
            match skip_ws rest with
            | c' :: r' =>
                if Ascii.eqb c' "]" then Ok (JList [], r')
                else
                  let? ir := scan_items (scan_once fuel') fuel' (c' :: r') in
                  Ok (JList (fst ir), snd ir)
            | [] => Raise JSONDecodeError
            end
          else if starts_with (list_ascii_of_string "null") s then
            Ok (JNull, skipn 4 s)
          else if starts_with (list_ascii_of_string "true") s then
            Ok (JBool true, skipn 4 s)
          else if starts_with (list_ascii_of_string "false") s then
            Ok (JBool false, skipn 5 s)
          else scan_number s
      end
  end.

(** [json.loads]: one value, white space around it, nothing else. *)
Definition json_loads (s : string) : result json :=
  let t := list_ascii_of_string s in
  let? vr := scan_once (S (List.length t)) (skip_ws t) in
  match skip_ws (snd vr) with
  | [] => Ok (fst vr)
  | _ :: _ => Raise JSONDecodeError
  end.

Local Close Scope char_scope.
Local Open Scope string_scope.

(* ================================================================== *)
(** ** Application state and the monad of the operations *)

(** Calls to [tkinter.messagebox], by title.  [showerror] keeps the
    exception it reports, [askyesno] the user's answer. *)
Inductive dialog : Type :=
| showinfo (title : string)
| showwarning (title : string)
| showerror (title : string) (cause : option exn)
| askyesno (title : string) (answer : bool).

(** What a written file holds: the text of [json.dump], or the header and
    rows handed to [csv.DictWriter]. *)
Inductive file_body : Type :=
| Text (s : string)
| Csv (fieldnames : list string) (rows : list (list json)).

Record app : Type := mkApp {
  data_store : json;
  current_file_path : option string;
  search_vars : string -> string;
  uuid_calls : nat;
  dialogs : list dialog;
  disk : list (string * file_body)
}.

Definition M (A : Type) : Type := app -> result A * app.

Definition ret {A} (a : A) : M A := fun st => (Ok a, st).

Definition bind {A B} (m : M A) (k : A -> M B) : M B :=
  fun st =>
    match m st with
    | (Ok a, st') => k a st'
    | (Raise e, st') => (Raise e, st')
    end.

Notation "x <- m ;; k" := (bind m (fun x => k))
  (at level 61, m at next level, right associativity).
Notation "m ;;; k" := (bind m (fun _ => k))
  (at level 61, right associativity).

Definition raise {A} (e : exn) : M A := fun st => (Raise e, st).

Definition lift {A} (r : result A) : M A := fun st => (r, st).

(** [try: body except Exception as e: handler(e)] *)
Definition try_except (body : M unit) (handler : exn -> M unit) : M unit :=
  fun st =>
    match body st with
    | (Ok u, st') => (Ok u, st')
    | (Raise e, st') => handler e st'
    end.

Definition get_store : M json := fun st => (Ok (data_store st), st).

Definition put_store (s : json) : M unit :=
  fun st => (Ok tt, mkApp s (current_file_path st) (search_vars st)
                          (uuid_calls st) (dialogs st) (disk st)).

Definition set_path (p : option string) : M unit :=
  fun st => (Ok tt, mkApp (data_store st) p (search_vars st)
                          (uuid_calls st) (dialogs st) (disk st)).

Definition show (d : dialog) : M unit :=
  fun st => (Ok tt, mkApp (data_store st) (current_file_path st) (search_vars st)
                          (uuid_calls st) (dialogs st ++ [d]) (disk st)).

Definition write_file (path : string) (body : file_body) : M unit :=
  fun st => (Ok tt, mkApp (data_store st) (current_file_path st) (search_vars st)
                          (uuid_calls st) (dialogs st)
                          ((path, body) :: filter (fun f => negb (String.eqb (fst f) path)) (disk st))).

(** The body of the file at [path], if there is one. *)
Definition read_file (st : app) (path : string) : option file_body :=
  option_map snd (find (fun f => String.eqb (fst f) path) (disk st)).

(** A step that leaves a changed store behind even when it raises. *)
Definition mutate_store (f : json -> json * option exn) : M unit :=
  fun st =>
    let (s', r) := f (data_store st) in
    let st' := mkApp s' (current_file_path st) (search_vars st)
                     (uuid_calls st) (dialogs st) (disk st) in
    match r with
    | None => (Ok tt, st')
    | Some e => (Raise e, st')
    end.

(** [for x in l: body(x)] *)
Fixpoint for_each {A} (body : A -> M unit) (l : list A) : M unit :=
  match l with
  | [] => ret tt
  | x :: xs => body x ;;; for_each body xs
  end.

Definition columns (names : list string) : json := JList (map JStr names).

Definition section_of (names : list string) : json :=
  JDict [("columns", columns names); ("data", JList [])].

(** [initialize_data_structures], the same table in both variants. *)
Definition initialize_data_structures : dict :=
  [ ("family_info", section_of ["Name"; "Aadhar No."; "PAN no"; "Voter id no"]);
    ("bank_accounts", section_of ["Holders"; "Account Type"; "BANK NAME"; "ACCOUNT NO"]);
    ("fixed_deposits",
       section_of ["Holders"; "Bank Name"; "Rate (%)"; "Number of Days";
                   "Start Date"; "End Date"; "Amount"]);
    ("demat_accounts", section_of ["Holders"; "Provider"; "Account Number"]);
    ("mutual_funds", section_of ["Holders"; "Provider"; "Fund Name"; "Folio Number"]);
    ("investments", section_of ["Holders"; "BANK NAME"; "ACCOUNT NO"; "Details"]);
    ("insurance", section_of ["Holders"; "COMPANY"; "POLICY NO"; "SUM ASSURED"]);
    ("locker", section_of ["Holders"; "BANK NAME"; "LOCKER NO"]);
    ("vehicle_details", section_of ["Owners"; "VEHICLE MAKE"; "REGISTRATION NO"]);
    ("property", section_of ["Owners"; "PROPERTY DETAILS"; "LOCATION"]) ].

(** The sections that have a tree view: the members tab and the asset
    tabs [populate_tabs] creates at start-up. *)
Definition treeviews : list string := dict_keys initialize_data_structures.

Definition has_treeview (section : string) : bool :=
  existsb (String.eqb section) treeviews.

Definition initial_app : app :=
  mkApp (JDict initialize_data_structures) None (fun _ => "") 0 [] [].

(* ================================================================== *)
(** ** Helpers shared by the two variants *)

Fixpoint list_set {A} (i : nat) (x : A) (l : list A) : list A :=
  match l, i with
  | [], _ => []
  | _ :: l', O => x :: l'
  | y :: l', S i' => y :: list_set i' x l'
  end.

(** [store[section]['data'] = data] *)
Definition set_data (store : json) (section : string) (data : json) : result json :=
  let? sec := py_getitem store section in
  let? sec' := py_setitem sec "data" data in
  py_setitem store section sec'.

(** The record at position [i] of [store[section]['data']] after it was
    changed in place. *)
Definition set_record (store : json) (section : string) (i : nat) (rec : json)
  : result json :=
  let? sec := py_getitem store section in
  let? data := py_getitem sec "data" in
  match data with
  | JList l => set_data store section (JList (list_set i rec l))
  | _ => Ok store
  end.

(** [next((r for r in data if r.get('id') == id), None)], with the position
    of the record found: the caller holds a reference to it. *)
Definition find_by_id (data id : json) : result (option (nat * json)) :=
  let? items := py_iter data in
  rfind (fun r => let? i := py_get r "id" JNull in Ok (py_eq i id)) items.

Definition get_member_by_id (store member_id : json) : result (option (nat * json)) :=
  let? fi := py_getitem store "family_info" in
  let? data := py_getitem fi "data" in
  find_by_id data member_id.

(** [if member_id:] for the [record_id] of the editor, [None] or a string. *)
Definition id_given (record_id : option string) : bool :=
  match record_id with
  | Some s => negb (String.eqb s "")
  | None => false
  end.

(** [data.append(rec)] on [store[section]['data']] *)
Definition append_record (store : json) (section : string) (rec : json) : result json :=
  let? sec := py_getitem store section in
  let? data := py_getitem sec "data" in
  match data with
  | JList l => set_data store section (JList (l ++ [rec]))
  | _ => Raise AttributeError
  end.

(** [[r for r in data if r.get('id') != id]] *)
Definition without_id (data id : json) : result (list json) :=
  let? items := py_iter data in
  rfilter (fun r => let? i := py_get r "id" JNull in Ok (negb (py_eq i id))) items.

(** [os.path.join(directory, name)] on a POSIX system. *)
Fixpoint ends_with_slash (s : string) : bool :=
  match s with
  | EmptyString => false
  | String c EmptyString => Ascii.eqb c (ascii_of_nat 47)
  | String _ s' => ends_with_slash s'
  end.

Definition starts_with_slash (s : string) : bool :=
  match s with
  | String c _ => Ascii.eqb c (ascii_of_nat 47)
  | EmptyString => false
  end.

(** [posixpath.join]: a name that starts with the separator replaces the
    directory; otherwise it is appended, after a separator unless the
    directory is empty or ends with one. *)
Definition path_join (directory name : string) : string :=
  if starts_with_slash name then name
  else if String.eqb directory "" then name
  else if ends_with_slash directory then directory ++ name
  else directory ++ "/" ++ name.

(** [seq[:8]] *)
Definition slice8 (v : json) : result json :=
  match v with
  | JStr s => Ok (JStr (String.substring 0 8 s))
  | JList l => Ok (JList (firstn 8 l))
  | _ => Raise TypeError
  end.


(** [c.get(key, default)] for a key that is any value: only a string can
    be a key of a decoded dictionary, a list or a dictionary cannot be
    looked up at all. *)
Definition py_get_any (c key default : json) : result json :=
  match c with
  | JDict d =>
      match key with
      | JStr k => Ok (match dict_get k d with Some v => v | None => default end)
      | JList _ | JDict _ => Raise TypeError
      | _ => Ok default
      end
  | _ => Raise AttributeError
  end.

(** [[m.get('Name', default) for m in (get_member_by_id(hid) for hid in
    holder_ids) if m]]: the names of the holders that are members. *)
Fixpoint shown_names (default : string) (store : json) (holder_ids : list json)
  : result (list json) :=
  match holder_ids with
  | [] => Ok []
  | hid :: rest =>
      let? m := get_member_by_id store hid in
      let? here :=
        match m with
        | Some (_, member) =>
            if py_truthy member
            then let? name := py_get member "Name" (JStr default) in Ok [name]
            else Ok []
        | None => Ok []
        end in
      let? others := shown_names default store rest in
      Ok (here ++ others)%list
  end.

(** [col in ['Holders', 'Owners']] *)
Definition is_holder_column (col : json) : result bool :=
  py_in col (JList [JStr "Holders"; JStr "Owners"]).
(* ================================================================== *)
(** ** The basic variant, [app.py] *)

Module Basic.
Section App.

(** [str(uuid.uuid4())]: the [n]-th identifier the generator hands out. *)
Variable uuid4 : nat -> string.

(** [refresh_treeview(section_title, data_to_display)]: the Tk tree of the
    section is emptied and refilled from the rows; what Tk does with them
    is not modelled, only that the call completes or raises. *)
Variable refresh_treeview : json -> string -> json -> result unit.

(** Whether [open(path, 'w')] succeeds. *)
Variable can_write : string -> bool.

(** Lines 242-248 up to the call of [refresh_treeview]: the rows handed to
    the tree.  [search] is the content of the section's search box. *)
Definition filtered_records (store : json) (section search : string) : result json :=
  let search_term := lower search in
  let? sec := py_getitem store section in
  let? all_records := py_getitem sec "data" in
  if String.eqb search_term "" then Ok all_records
  else
    let? items := py_iter all_records in
    let? filtered :=
      rfilter (fun rec =>
                 let? vals := py_values rec in
                 Ok (existsb (fun val => str_contains search_term (lower (py_str val))) vals))
              items in
    Ok (JList filtered).

Definition filter_treeview (section : string) : M unit :=
  fun st =>
    (let? rows := filtered_records (data_store st) section (search_vars st section) in
     refresh_treeview (data_store st) section rows, st).

(** The title line of an asset in the member's asset list. *)
Definition asset_title (asset : json) : result string :=
  let? a := py_get asset "Fund Name" JNull in
  if py_truthy a then Ok (py_str a) else
  let? b := py_get asset "PROPERTY DETAILS" JNull in
  if py_truthy b then Ok (py_str b) else
  let? c := py_get asset "POLICY NO" JNull in
  if py_truthy c then Ok (py_str c) else
  let? i := py_get asset "id" JNull in
  let? i8 := slice8 i in
  Ok ("ID: " ++ py_str i8).

(** [[asset for asset in content['data'] if member_id in asset.get('holders', [])]] *)
Definition member_assets (content member_id : json) : result (list json) :=
  let? data := py_getitem content "data" in
  let? items := py_iter data in
  rfilter (fun asset =>
             let? h := py_get asset "holders" (JList []) in
             py_in member_id h)
          items.

(** [display_member_assets]: the sections and assets written to the text
    pane for the member selected in the members tree ([selected] is the
    tree's selection, [None] when empty). *)
Definition display_member_assets (store : json) (selected : option string)
  : result (list (string * list json)) :=
  match selected with
  | None => Ok []
  | Some sel =>
      let? r := get_member_by_id store (JStr sel) in
      match r with
      | None => Ok []
      | Some (_, member) =>
          if negb (py_truthy member) then Ok [] else
          let? member_id := py_get member "id" JNull in
          match store with
          | JDict sections =>
              let? groups :=
                rmap (fun sc =>
                        if String.eqb (fst sc) "family_info" then Ok []
                        else
                          let? assets := member_assets (snd sc) member_id in
                          match assets with
                          | [] => Ok []
                          | _ =>
                              let? _ := rmap asset_title assets in
                              Ok [(fst sc, assets)]
                          end)
                     sections in
              Ok (List.concat groups)
          | _ => Raise AttributeError
          end
      end
  end.

Definition show_member_assets (selected : option string) : M unit :=
  fun st =>
    (let? _ := display_member_assets (data_store st) selected in Ok tt, st).

Definition refresh_all_views (selected : option string) : M unit :=
  store <- get_store ;;
  match store with
  | JDict sections =>
      for_each (fun section =>
                  if has_treeview section then filter_treeview section else ret tt)
               (dict_keys sections) ;;;
      show_member_assets selected
  | _ => raise AttributeError
  end.

(** [save_member(_, new_data, member_id)] *)
Definition save_member (new_data : dict) (member_id : option string) : M unit :=
  (if id_given member_id then
     store <- get_store ;;
     r <- lift (get_member_by_id store
                  (match member_id with Some s => JStr s | None => JNull end)) ;;
     match r with
     | Some (i, JDict member) =>
         if py_truthy (JDict member) then
           s' <- lift (set_record store "family_info" i
                         (JDict (dict_update member new_data))) ;;
           put_store s'
         else ret tt
     | _ => ret tt
     end
   else
     fun st =>
       let new_data' := dict_set "id" (JStr (uuid4 (uuid_calls st))) new_data in
       let st' := mkApp (data_store st) (current_file_path st) (search_vars st)
                        (S (uuid_calls st)) (dialogs st) (disk st) in
       (s' <- lift (append_record (data_store st') "family_info" (JDict new_data')) ;;
        put_store s') st') ;;;
  filter_treeview "family_info".

(** The cascade of [delete_member_from_button] on one asset. *)
Definition drop_holder (member_id asset : json) : json * option exn :=
  or_unchanged asset
    (let? has := py_in (JStr "holders") asset in
     if has then
       let? holders := py_getitem asset "holders" in
       let? held := py_in member_id holders in
       if held then
         let? holders' := py_remove holders member_id in
         py_setitem asset "holders" holders'
       else Ok asset
     else Ok asset).

(** ... and on one value of [self.data_store.values()]. *)
Definition drop_holder_in_section (member_id section : json) : json * option exn :=
  match section with
  | JDict c =>
      match dict_get "data" c with
      | Some data =>
          let (data', r) := for_each_item (drop_holder member_id) data in
          (JDict (dict_set "data" data' c), r)
      | None => (section, None)
      end
  | _ => (section, None)
  end.

Definition drop_holder_everywhere (member_id store : json) : json * option exn :=
  match store with
  | JDict sections =>
      let (sections', r) :=
        for_each_mut (fun sc =>
                        let (v', e) := drop_holder_in_section member_id (snd sc) in
                        ((fst sc, v'), e))
                     sections in
      (JDict sections', r)
  | _ => (store, Some AttributeError)
  end.

(** [delete_member_from_button]: [selected] is the selection of the members
    tree, [confirm] the answer to the "Confirm Delete" question, [reselected]
    the tree's selection once the views have been rebuilt. *)
Definition delete_member_from_button (selected : option string) (confirm : bool)
                                     (reselected : option string) : M unit :=
  match selected with
  | None => show (showwarning "Selection Error")
  | Some sel =>
      store <- get_store ;;
      r <- lift (get_member_by_id store (JStr sel)) ;;
      match r with
      | None => ret tt
      | Some (_, member) =>
          if negb (py_truthy member) then ret tt else
          show (askyesno "Confirm Delete" confirm) ;;;
          if confirm then
            member_id <- lift (py_get member "id" JNull) ;;
            fi <- lift (py_getitem store "family_info") ;;
            data <- lift (py_getitem fi "data") ;;
            kept <- lift (without_id data member_id) ;;
            s' <- lift (set_data store "family_info" (JList kept)) ;;
            put_store s' ;;;
            mutate_store (drop_holder_everywhere member_id) ;;;
            refresh_all_views reselected
          else ret tt
      end
  end.

(** [save_asset(section_title, new_data, asset_id)]; [selected] is the
    selection of the members tree when [display_member_assets] runs. *)
Definition save_asset (section_title : string) (new_data : dict)
                      (asset_id : option string) (selected : option string) : M unit :=
  (if id_given asset_id then
     store <- get_store ;;
     sec <- lift (py_getitem store section_title) ;;
     data <- lift (py_getitem sec "data") ;;
     r <- lift (find_by_id data
                  (match asset_id with Some s => JStr s | None => JNull end)) ;;
     match r with
     | Some (i, JDict asset) =>
         if py_truthy (JDict asset) then
           s' <- lift (set_record store section_title i
                         (JDict (dict_update asset new_data))) ;;
           put_store s'
         else ret tt
     | _ => ret tt
     end
   else
     fun st =>
       let new_data' := dict_set "id" (JStr (uuid4 (uuid_calls st))) new_data in
       let st' := mkApp (data_store st) (current_file_path st) (search_vars st)
                        (S (uuid_calls st)) (dialogs st) (disk st) in
       (s' <- lift (append_record (data_store st') section_title (JDict new_data')) ;;
        put_store s') st') ;;;
  filter_treeview section_title ;;;
  show_member_assets selected.

(** [delete_asset] *)
Definition delete_asset (section_title : string) (selected : option string)
                        (confirm : bool) (member_selected : option string) : M unit :=
  match selected with
  | None => show (showwarning "Selection Error")
  | Some sel =>
      show (askyesno "Confirm Delete" confirm) ;;;
      if confirm then
        store <- get_store ;;
        sec <- lift (py_getitem store section_title) ;;
        data <- lift (py_getitem sec "data") ;;
        kept <- lift (without_id data (JStr sel)) ;;
        s' <- lift (set_data store section_title (JList kept)) ;;
        put_store s' ;;;
        filter_treeview section_title ;;;
        show_member_assets member_selected
      else ret tt
  end.

(** [new_file]: [confirm] is the answer to "Are you sure? Any unsaved
    changes will be lost." *)
Definition new_file (confirm : bool) (reselected : option string) : M unit :=
  show (askyesno "Confirm New" confirm) ;;;
  if confirm then
    put_store (JDict initialize_data_structures) ;;;
    refresh_all_views reselected ;;;
    set_path None
  else ret tt.

(** [_write_to_file] *)
Definition _write_to_file (file_path : string) : M unit :=
  try_except
    (store <- get_store ;;
     (if can_write file_path
      then write_file file_path (Text (json_dumps store))
      else raise OSError) ;;;
     show (showinfo "Success"))
    (fun e => show (showerror "Save Error" (Some e))).

(** The body of [load_data_from_file] once a file was chosen: [loaded] is
    what [open] and [json.load] gave, [confirm] the answer to the question
    [new_file] asks when the load failed. *)
Definition load_document (file_path : string) (loaded : result json)
                         (confirm : bool) (selected : option string) : M unit :=
  try_except
    (loaded_data <- lift loaded ;;
     has_family <- lift (py_in (JStr "family_info") loaded_data) ;;
     unrecognized <-
       (if negb has_family then ret true
        else
          fi <- lift (py_getitem loaded_data "family_info") ;;
          has_columns <- lift (py_in (JStr "columns") fi) ;;
          ret (negb has_columns)) ;;
     if unrecognized then raise (ValueError "Unrecognized data format.")
     else
       put_store (JDict initialize_data_structures) ;;;
       match loaded_data with
       | JDict d => put_store (JDict (dict_update initialize_data_structures d))
       | _ => raise TypeError
       end ;;;
       refresh_all_views selected ;;;
       set_path (Some file_path) ;;;
       show (showinfo "Success"))
    (fun e =>
       show (showerror "Load Error" (Some e)) ;;;
       new_file confirm selected).

(** [load_data_from_file]: [file_path] is the answer of the file dialog
    (empty when cancelled), [file] what reading the file gives. *)
Definition load_data_from_file (file_path : string) (file : result string)
                               (confirm : bool) (selected : option string) : M unit :=
  if String.eqb file_path "" then ret tt
  else load_document file_path (let? t := file in json_loads t) confirm selected.

(** [dict(r)] for a record.  Python also makes a dict of a sequence of
    pairs (an empty list, an empty string, a list of two-element lists),
    which the embedding does not follow; a number, a boolean or [None] is
    not iterable. *)
Definition dict_copy (r : json) : result dict :=
  match r with
  | JDict d => Ok d
  | JList _ | JStr _ => Raise Unrepresentable
  | _ => Raise TypeError
  end.

(** The name put in the holder column for one holder id. *)
Definition holder_name (store hid : json) : result json :=
  let? m := get_member_by_id store hid in
  match m with
  | Some (_, member) =>
      if py_truthy member then py_get member "Name" (JStr "?") else Ok (JStr "?")
  | None => Ok (JStr "?")
  end.

(** Lines 441-447: one copied record made ready for the CSV writer. *)
Definition export_record (store content : json) (record : dict) : result dict :=
  let? record1 :=
    match dict_get "holders" record with
    | Some holder_ids =>
        let popped := dict_pop "holders" record in
        let? ids := py_iter holder_ids in
        let? holder_names := rmap (holder_name store) ids in
        let? joined := py_join ", " holder_names in
        let? cols := py_getitem content "columns" in
        let? owners := py_in (JStr "Owners") cols in
        Ok (dict_set (if owners then "Owners" else "Holders") (JStr joined) popped)
    | None => Ok record
    end in
  Ok (dict_pop "id" record1).

(** [DictWriter._dict_to_list]: a key outside the field names is an error,
    a missing field is written empty. *)
Definition dict_to_list (fieldnames : list string) (row : dict) : result (list json) :=
  if forallb (fun k => existsb (String.eqb k) fieldnames) (dict_keys row)
  then Ok (map (fun k => match dict_get k row with
                         | Some v => v
                         | None => JStr ""
                         end) fieldnames)
  else Raise (ValueError "dict contains fields not in fieldnames").

(** [writerows]: the rows written before the first bad one stay written. *)
Fixpoint writerows (fieldnames : list string) (rows : list dict)
  : list (list json) * option exn :=
  match rows with
  | [] => ([], None)
  | r :: rs =>
      match dict_to_list fieldnames r with
      | Ok cells =>
          let (written, e) := writerows fieldnames rs in (cells :: written, e)
      | Raise e => ([], Some e)
      end
  end.

(** The body of the loop of [export_to_csv] for one section. *)
Definition export_section (directory : string) (sc : string * json) : M unit :=
  let (section_title, content) := sc in
  store <- get_store ;;
  data <- lift (py_getitem content "data") ;;
  if negb (py_truthy data) then ret tt else
  items <- lift (py_iter data) ;;
  original_records <- lift (rmap dict_copy items) ;;
  records_to_write <- lift (rmap (export_record store content) original_records) ;;
  match records_to_write with
  | [] => ret tt
  | first :: _ =>
      let fieldnames := dict_keys first in
      let file_path := path_join directory (section_title ++ ".csv") in
      if can_write file_path then
        let (written, e) := writerows fieldnames records_to_write in
        write_file file_path (Csv fieldnames written) ;;;
        match e with
        | Some e => raise e
        | None => ret tt
        end
      else raise OSError
  end.

(** [export_to_csv]: [directory] is the answer of the folder dialog (empty
    when cancelled). *)
Definition export_to_csv (directory : string) : M unit :=
  store <- get_store ;;
  sections <- lift (match store with
                    | JDict d => Ok d
                    | _ => Raise AttributeError
                    end) ;;
  any_data <- lift (rany (fun sc => let? d := py_getitem (snd sc) "data" in
                                    Ok (py_truthy d)) sections) ;;
  if negb any_data then show (showwarning "Export Empty")
  else if String.eqb directory "" then ret tt
  else
    try_except
      (for_each (export_section directory) sections ;;;
       show (showinfo "Export Successful"))
      (fun e => show (showerror "Export Error" (Some e))).

(** Lines 262-269 of [refresh_treeview]: the cells of one record, one for
    each column of the section. *)
Definition row_values (store columns record : json) : result (list json) :=
  let? cols := py_iter columns in
  rmap (fun col =>
          let? holder := is_holder_column col in
          if holder then
            let? holder_ids := py_get record "holders" (JList []) in
            let? ids := py_iter holder_ids in
            let? holder_names := shown_names "?" store ids in
            let? joined := py_join ", " holder_names in
            Ok (JStr joined)
          else py_get_any record col (JStr ""))
       cols.

(** Lines 258-270 of [refresh_treeview]: the rows handed to [tree.insert],
    each with its [iid].  What Tk does with them (it refuses an [iid] that
    is already in the tree) is not part of this. *)
Definition tree_rows (store : json) (section_title : string) (data_rows : json)
  : result (list (json * list json)) :=
  let? sec := py_getitem store section_title in
  let? columns := py_getitem sec "columns" in
  let? records := py_iter data_rows in
  rmap (fun record =>
          let? values := row_values store columns record in
          let? iid := py_get record "id" JNull in
          Ok (iid, values))
       records.

(** [save_data_as]: [file_path] is the answer of the "Save Wealth Data"
    dialog, empty when it was cancelled. *)
Definition save_data_as (file_path : string) : M unit :=
  if String.eqb file_path "" then ret tt
  else _write_to_file file_path ;;; set_path (Some file_path).

(** [save_data_to_file]: [file_path] is what the dialog of [save_data_as]
    answers, should it come to be asked. *)
Definition save_data_to_file (file_path : string) : M unit :=
  fun st =>
    match current_file_path st with
    | Some p => if String.eqb p "" then save_data_as file_path st
                else _write_to_file p st
    | None => save_data_as file_path st
    end.

End App.

(** *** The editor window, [RecordEditorWindow] *)

Module RecordEditorWindow.

(** What the constructor leaves in the window: the entry boxes by column,
    each with the text it starts with, and, when the section has a holder
    column, the map from member names to identifiers, the names listed
    and the positions selected at the start. *)
Record window : Type := mkWindow {
  entries : list (string * string);
  holder_listbox : option (dict * list string * list nat)
}.

(** The text an entry box starts with.  Only a string is taken over as it
    is; what Tk makes of another value is outside the embedding. *)
Definition entry_text (v : json) : result string :=
  match v with
  | JStr s => Ok s
  | _ => Raise Unrepresentable
  end.

(** [entries[key] = text]: an existing key keeps its place. *)
Fixpoint set_entry (key text : string) (es : list (string * string))
  : list (string * string) :=
  match es with
  | [] => [(key, text)]
  | (k, t) :: es' =>
      if String.eqb key k then (key, text) :: es' else (k, t) :: set_entry key text es'
  end.

(** Lines 492-493: [{m.get('Name', ''): m.get('id', '') for m in
    data_store['family_info']['data']}]. *)
Definition member_map (store : json) : result dict :=
  let? fi := py_getitem store "family_info" in
  let? data := py_getitem fi "data" in
  let? members := py_iter data in
  fold_left (fun acc m =>
               let? d := acc in
               let? name := py_get m "Name" (JStr "") in
               let? id := py_get m "id" (JStr "") in
               match name with
               | JStr n => Ok (dict_set n id d)
               | JList _ | JDict _ => Raise TypeError
               | _ => Raise Unrepresentable
               end)
            members (Ok []).

(** Lines 496-499: the positions of the names whose identifier is among
    the holders of the record being edited. *)
Fixpoint selection_set (map : dict) (current_holder_ids : json) (idx : nat)
                       (names : list string) : result (list nat) :=
  match names with
  | [] => Ok []
  | name :: rest =>
      let? id := py_get (JDict map) name JNull in
      let? held := py_in id current_holder_ids in
      let? others := selection_set map current_holder_ids (S idx) rest in
      Ok (if held then idx :: others else others)
  end.

(** Lines 486-505 of [__init__]: the loop over the columns of the
    section.  [initial_data] is the record being edited, or [None]. *)
Definition init_column (store initial_data : json) (w : result window) (col_name : json)
  : result window :=
  let? w := w in
  let? holder := is_holder_column col_name in
  if holder then
    let? map := member_map store in
    let names := dict_keys map in
    let? current_holder_ids := py_get initial_data "holders" (JList []) in
    let? selected := selection_set map current_holder_ids 0 names in
    Ok (mkWindow (entries w) (Some (map, names, selected)))
  else
    let? v := py_get_any initial_data col_name (JStr "") in
    let? text := entry_text v in
    match col_name with
    | JStr c => Ok (mkWindow (set_entry c text (entries w)) (holder_listbox w))
    | _ => Raise Unrepresentable
    end.

Definition __init__ (store : json) (section_title : string) (initial_data : json)
  : result window :=
  let initial_data := if py_truthy initial_data then initial_data else JDict [] in
  let? sec := py_getitem store section_title in
  let? columns := py_getitem sec "columns" in
  let? cols := py_iter columns in
  fold_left (init_column store initial_data) cols (Ok (mkWindow [] None)).

Section Save.

(** Whether [float(value)] and [datetime.strptime(value, '%Y-%m-%d')]
    accept the text. *)
Variable float_ok : string -> bool.
Variable date_ok : string -> bool.

(** [any(k in key.lower() for k in ['amount', 'rate', 'sum assured', 'days'])] *)
Definition numeric_key (key : string) : bool :=
  existsb (fun k => str_contains k (lower key))
          ["amount"; "rate"; "sum assured"; "days"].

Definition date_key (key : string) : bool := str_contains "date" (lower key).

(** [validate]: [texts] is what the entry boxes hold. *)
Fixpoint validate (texts : list (string * string)) : M bool :=
  match texts with
  | [] => ret true
  | (key, value) :: rest =>
      if String.eqb value "" then validate rest
      else if numeric_key key && negb (float_ok value)
      then show (showerror "Validation Error" None) ;;; ret false
      else
        (if date_key key && negb (date_ok value)
         then show (showwarning "Validation Warning")
         else ret tt) ;;;
        validate rest
  end.

(** [save]: [typed] is the text each entry box holds, by column, and
    [selected] the positions selected in the list of holders when "Save"
    is pressed ([Listbox.get] gives the empty string for a position the
    list does not have); [save_callback] is [save_member] or
    [save_asset]. *)
Definition save (save_callback : string -> dict -> option string -> M unit)
                (section_title : string) (record_id : option string)
                (w : window) (typed : string -> string) (selected : list nat)
  : M unit :=
  let texts := map (fun kt => (fst kt, typed (fst kt))) (entries w) in
  valid <- validate texts ;;
  if negb valid then ret tt else
  let new_data := map (fun kt => (fst kt, JStr (snd kt))) texts in
  new_data' <- lift
    (match holder_listbox w with
     | Some (map, names, _) =>
         let selected_names := List.map (fun i => nth i names "") selected in
         let? ids := rmap (fun name => py_getitem (JDict map) name) selected_names in
         Ok (dict_set "holders" (JList ids) new_data)
     | None => Ok new_data
     end) ;;
  save_callback section_title new_data' record_id.

End Save.
End RecordEditorWindow.
End Basic.

(* ================================================================== *)
(** ** The extended variant, [investment_catalogue_app.py] *)

(** [c.pop(k)] for a string [k]: the value and what is left of [c]. *)
Definition py_pop (c : json) (k : string) : result (json * json) :=
  match c with
  | JDict d =>
      match dict_get k d with
      | Some v => Ok (v, JDict (dict_pop k d))
      | None => Raise (KeyError k)
      end
  | JList _ => Raise TypeError
  | _ => Raise AttributeError
  end.

(** What [transform_old_data_format] leaves behind: the document it was
    given, whose records it changes in place, the number of identifiers
    drawn so far, and the new store or the exception raised. *)
Record migration : Type := mkMigration {
  old_data_after : json;
  uuid_calls_after : nat;
  new_store : result json
}.

(** A loop over the records of one list of the old document: [step] works
    on one record in place and says whether it is appended to the new
    store.  Returns the counter, the list as the loop left it, the records
    appended, and the exception that stopped the loop. *)
Fixpoint migrate_records (step : nat -> json -> nat * json * option exn)
                         (n : nat) (records : list json)
  : nat * list json * list json * option exn :=
  match records with
  | [] => (n, [], [], None)
  | r :: rs =>
      match step n r with
      | (n1, r1, Some e) => (n1, r1 :: rs, [], Some e)
      | (n1, r1, None) =>
          match migrate_records step n1 rs with
          | (n2, rs', appended, e) => (n2, r1 :: rs', r1 :: appended, e)
          end
      end
  end.

Module Catalogue.
Section App.

Variable uuid4 : nat -> string.

(** [refresh_treeview(section_title)], the rebuild of one Tk tree. *)
Variable refresh_treeview : json -> string -> result unit.

Variable can_write : string -> bool.

(** [display_member_assets]: the sections and assets listed for the member
    selected in the members tree. *)
Definition display_member_assets (store : json) (selected : option string)
  : result (list (string * list json)) :=
  match selected with
  | None => Ok []
  | Some member_id =>
      let? r := get_member_by_id store (JStr member_id) in
      match r with
      | None => Ok []
      | Some (_, member) =>
          if negb (py_truthy member) then Ok [] else
          match store with
          | JDict sections =>
              let? groups :=
                rmap (fun sc =>
                        if String.eqb (fst sc) "family_info" then Ok []
                        else
                          let? data := py_getitem (snd sc) "data" in
                          let? items := py_iter data in
                          let? assets :=
                            rfilter (fun asset =>
                                       let? h := py_get asset "holders" (JList []) in
                                       py_in (JStr member_id) h)
                                    items in
                          match assets with
                          | [] => Ok []
                          | _ => Ok [(fst sc, assets)]
                          end)
                     sections in
              Ok (List.concat groups)
          | _ => Raise AttributeError
          end
      end
  end.

Definition show_member_assets (selected : option string) : M unit :=
  fun st =>
    (let? _ := display_member_assets (data_store st) selected in Ok tt, st).

Definition refresh_all_views (selected : option string) : M unit :=
  store <- get_store ;;
  match store with
  | JDict sections =>
      for_each (fun section =>
                  if has_treeview section
                  then fun st => (refresh_treeview (data_store st) section, st)
                  else ret tt)
               (dict_keys sections) ;;;
      show_member_assets selected
  | _ => raise AttributeError
  end.

(** [save_member(section_title, new_data, member_id)] *)
Definition save_member (new_data : dict) (member_id : option string) : M unit :=
  (if id_given member_id then
     store <- get_store ;;
     r <- lift (get_member_by_id store
                  (match member_id with Some s => JStr s | None => JNull end)) ;;
     match r with
     | Some (i, JDict member) =>
         if py_truthy (JDict member) then
           s' <- lift (set_record store "family_info" i
                         (JDict (dict_update member new_data))) ;;
           put_store s'
         else ret tt
     | _ => ret tt
     end
   else
     fun st =>
       let new_data' := dict_set "id" (JStr (uuid4 (uuid_calls st))) new_data in
       let st' := mkApp (data_store st) (current_file_path st) (search_vars st)
                        (S (uuid_calls st)) (dialogs st) (disk st) in
       (s' <- lift (append_record (data_store st') "family_info" (JDict new_data')) ;;
        put_store s') st') ;;;
  fun st => (refresh_treeview (data_store st) "family_info", st).

(** The cascade of [delete_member] on one asset. *)
Definition drop_holder (member_id : string) (asset : json) : json * option exn :=
  or_unchanged asset
    (let? holders := py_get asset "holders" (JList []) in
     let? held := py_in (JStr member_id) holders in
     if held then
       let? holders0 := py_getitem asset "holders" in
       let? holders' := py_remove holders0 (JStr member_id) in
       py_setitem asset "holders" holders'
     else Ok asset).

(** Lines 316-317: the section is an asset section with a holder column. *)
Definition has_holder_column (section_content : json) : result bool :=
  let? has_data := py_in (JStr "data") section_content in
  if negb has_data then Ok false else
  let? has_columns := py_in (JStr "columns") section_content in
  if negb has_columns then Ok false else
  let? cols := py_getitem section_content "columns" in
  let? holders := py_in (JStr "Holders") cols in
  if holders then Ok true else
  let? cols' := py_getitem section_content "columns" in
  py_in (JStr "Owners") cols'.

Definition drop_holder_in_section (member_id : string) (section_content : json)
  : json * option exn :=
  match has_holder_column section_content with
  | Raise e => (section_content, Some e)
  | Ok false => (section_content, None)
  | Ok true =>
      match section_content with
      | JDict c =>
          match dict_get "data" c with
          | Some data =>
              let (data', r) := for_each_item (drop_holder member_id) data in
              (JDict (dict_set "data" data' c), r)
          | None => (section_content, Some (KeyError "data"))
          end
      | _ => (section_content, Some TypeError)
      end
  end.

Definition drop_holder_everywhere (member_id : string) (store : json)
  : json * option exn :=
  match store with
  | JDict sections =>
      let (sections', r) :=
        for_each_mut (fun sc =>
                        let (v', e) := drop_holder_in_section member_id (snd sc) in
                        ((fst sc, v'), e))
                     sections in
      (JDict sections', r)
  | _ => (store, Some AttributeError)
  end.

(** [delete_member] *)
Definition delete_member (selected : option string) (confirm : bool)
                         (reselected : option string) : M unit :=
  match selected with
  | None => show (showwarning "Selection Error")
  | Some member_id =>
      store <- get_store ;;
      r <- lift (get_member_by_id store (JStr member_id)) ;;
      let found := match r with
                   | Some (_, member) => py_truthy member
                   | None => false
                   end in
      if negb found then show (showerror "Error" None) else
      show (askyesno "Confirm Delete" confirm) ;;;
      if confirm then
        fi <- lift (py_getitem store "family_info") ;;
        data <- lift (py_getitem fi "data") ;;
        kept <- lift (without_id data (JStr member_id)) ;;
        s' <- lift (set_data store "family_info" (JList kept)) ;;
        put_store s' ;;;
        mutate_store (drop_holder_everywhere member_id) ;;;
        refresh_all_views reselected
      else ret tt
  end.

(** [save_asset(section_title, new_data, asset_id)] *)
Definition save_asset (section_title : string) (new_data : dict)
                      (asset_id : option string) (selected : option string) : M unit :=
  (if id_given asset_id then
     store <- get_store ;;
     sec <- lift (py_getitem store section_title) ;;
     data <- lift (py_getitem sec "data") ;;
     r <- lift (find_by_id data
                  (match asset_id with Some s => JStr s | None => JNull end)) ;;
     match r with
     | Some (i, JDict asset) =>
         if py_truthy (JDict asset) then
           s' <- lift (set_record store section_title i
                         (JDict (dict_update asset new_data))) ;;
           put_store s'
         else ret tt
     | _ => ret tt
     end
   else
     fun st =>
       let new_data' := dict_set "id" (JStr (uuid4 (uuid_calls st))) new_data in
       let st' := mkApp (data_store st) (current_file_path st) (search_vars st)
                        (S (uuid_calls st)) (dialogs st) (disk st) in
       (s' <- lift (append_record (data_store st') section_title (JDict new_data')) ;;
        put_store s') st') ;;;
  (fun st => (refresh_treeview (data_store st) section_title, st)) ;;;
  show_member_assets selected.

(** [new_file] *)
Definition new_file (confirm : bool) (reselected : option string) : M unit :=
  show (askyesno "Confirm New" confirm) ;;;
  if confirm then
    put_store (JDict initialize_data_structures) ;;;
    refresh_all_views reselected ;;;
    set_path None
  else ret tt.

(** [_write_to_file] *)
Definition _write_to_file (file_path : string) : M unit :=
  try_except
    (store <- get_store ;;
     (if can_write file_path
      then write_file file_path (Text (json_dumps store))
      else raise OSError) ;;;
     show (showinfo "Success"))
    (fun e => show (showerror "Save Error" (Some e))).

(** Lines 401-406 on one member record, the [n]-th identifier being the
    next one: the record as the step left it, and the exception if the
    step raised (the record is then not appended). *)
Definition migrate_member (n : nat) (member_record : json) : nat * json * option exn :=
  match py_in (JStr "id") member_record with
  | Raise e => (n, member_record, Some e)
  | Ok has_id =>
      let n1 := if has_id then n else S n in
      match (if has_id then Ok member_record
             else py_setitem member_record "id" (JStr (uuid4 n))) with
      | Raise e => (n1, member_record, Some e)
      | Ok r1 =>
          match (let? has_name := py_in (JStr "name") r1 in
                 if has_name then
                   let? has_Name := py_in (JStr "Name") r1 in Ok (negb has_Name)
                 else Ok false) with
          | Raise e => (n1, r1, Some e)
          | Ok false => (n1, r1, None)
          | Ok true =>
              match py_pop r1 "name" with
              | Raise e => (n1, r1, Some e)
              | Ok (v, r2) =>
                  match py_setitem r2 "Name" v with
                  | Ok r3 => (n1, r3, None)
                  | Raise e => (n1, r2, Some e)
                  end
              end
          end
      end
  end.

(** Lines 414-416 on one asset record. *)
Definition migrate_asset (n : nat) (asset_record : json) : nat * json * option exn :=
  match py_in (JStr "id") asset_record with
  | Raise e => (n, asset_record, Some e)
  | Ok true => (n, asset_record, None)
  | Ok false =>
      match py_setitem asset_record "id" (JStr (uuid4 n)) with
      | Ok r1 => (S n, r1, None)
      | Raise e => (S n, asset_record, Some e)
      end
  end.

(** One list of the old document migrated into [new_store[section]['data']]:
    nothing happens unless [old_data[key]] exists and is a list. *)
Definition migrate_list (step : nat -> json -> nat * json * option exn)
                        (key section : string) (m : migration) : migration :=
  match new_store m with
  | Raise _ => m
  | Ok store =>
      match py_in (JStr key) (old_data_after m) with
      | Raise e => mkMigration (old_data_after m) (uuid_calls_after m) (Raise e)
      | Ok false => m
      | Ok true =>
          match py_getitem (old_data_after m) key with
          | Raise e => mkMigration (old_data_after m) (uuid_calls_after m) (Raise e)
          | Ok (JList records) =>
              match migrate_records step (uuid_calls_after m) records with
              | (n', records', appended, e) =>
                  let old' := match old_data_after m with
                              | JDict d => JDict (dict_set key (JList records') d)
                              | other => other
                              end in
                  let store' :=
                    let? sec := py_getitem store section in
                    let? data := py_getitem sec "data" in
                    match data with
                    | JList l => set_data store section (JList (l ++ appended))
                    | _ => Raise AttributeError
                    end in
                  mkMigration old' n'
                    (match e with
                     | Some e => Raise e
                     | None => store'
                     end)
              end
          | Ok _ => m
          end
      end
  end.

(** [transform_old_data_format(old_data)], [n] identifiers drawn so far. *)
Definition transform_old_data_format (n : nat) (old_data : json) : migration :=
  let start := mkMigration old_data n (Ok (JDict initialize_data_structures)) in
  match py_in (JStr "members") old_data with
  | Raise e => mkMigration old_data n (Raise e)
  | Ok has_members =>
      let old_member_key := if has_members then "members" else "family_info" in
      let after_members := migrate_list migrate_member old_member_key "family_info" start in
      fold_left (fun m section_title =>
                   if String.eqb section_title "family_info" then m
                   else migrate_list migrate_asset section_title section_title m)
                (dict_keys initialize_data_structures) after_members
  end.

(** Lines 429 and 432-433: the two format tests. *)
Definition is_new_format (loaded_data : json) : result bool :=
  let? has_family := py_in (JStr "family_info") loaded_data in
  if has_family then
    let? fi := py_getitem loaded_data "family_info" in
    py_in (JStr "columns") fi
  else Ok false.

Definition is_old_format (loaded_data : json) : result bool :=
  let? has_members := py_in (JStr "members") loaded_data in
  let? members_list :=
    if has_members then
      let? m := py_getitem loaded_data "members" in Ok (isinstance_list m)
    else Ok false in
  if members_list then Ok true else
  let? has_family := py_in (JStr "family_info") loaded_data in
  if has_family then
    let? fi := py_getitem loaded_data "family_info" in Ok (isinstance_list fi)
  else Ok false.

(** Lines 442-444: sections of the latest structure that are missing. *)
Definition fill_missing_sections (store : json) : result json :=
  fold_left (fun acc sc =>
               let? s := acc in
               let? present := py_in (JStr (fst sc)) s in
               if present then Ok s else py_setitem s (fst sc) (snd sc))
            initialize_data_structures (Ok store).

(** Line 437: the store becomes what [transform_old_data_format] returns. *)
Definition migrate_into_store (loaded_data : json) : M unit :=
  fun st =>
    let m := transform_old_data_format (uuid_calls st) loaded_data in
    let st' := mkApp (data_store st) (current_file_path st) (search_vars st)
                     (uuid_calls_after m) (dialogs st) (disk st) in
    (s <- lift (new_store m) ;; put_store s) st'.

(** Lines 441-449: what follows the adoption of a store in the [try]. *)
Definition finish_load (file_path : string) (selected : option string) : M unit :=
  store <- get_store ;;
  filled <- lift (fill_missing_sections store) ;;
  put_store filled ;;;
  refresh_all_views selected ;;;
  set_path (Some file_path) ;;;
  show (showinfo "Success").

(** Lines 450-452: the [except] clause. *)
Definition load_failed (e : exn) : M unit :=
  show (showerror "Load Error" (Some e)) ;;;
  put_store (JDict initialize_data_structures).

(** The body of [load_data_from_file] once a file was chosen. *)
Definition load_document (file_path : string) (loaded : result json)
                         (selected : option string) : M unit :=
  try_except
    (loaded_data <- lift loaded ;;
     new_format <- lift (is_new_format loaded_data) ;;
     (if new_format then put_store loaded_data
      else
        old_format <- lift (is_old_format loaded_data) ;;
        if old_format then
          show (showinfo "Data Migration") ;;;
          migrate_into_store loaded_data
        else raise (ValueError "Unrecognized or invalid data format in JSON file.")) ;;;
     finish_load file_path selected)
    load_failed.

Definition load_data_from_file (file_path : string) (file : result string)
                               (selected : option string) : M unit :=
  if String.eqb file_path "" then ret tt
  else load_document file_path (let? t := file in json_loads t) selected.

(** Lines 213-215 of [refresh_treeview]: the cells of one member. *)
Definition member_row (columns record : json) : result (list json) :=
  let? cols := py_iter columns in
  rmap (fun col => py_get_any record col (JStr "")) cols.

(** Lines 218-230 of [refresh_treeview]: the cells of one asset, the
    holders first, then the columns that are not the holder column. *)
Definition asset_row (store columns record : json) : result (list json) :=
  let? holder_ids := py_get record "holders" (JList []) in
  let? ids := py_iter holder_ids in
  let? holder_names := shown_names "Unknown" store ids in
  let? joined := py_join ", " holder_names in
  let? cols := py_iter columns in
  let? other_cols := rfilter (fun col => let? holder := is_holder_column col in
                                         Ok (negb holder)) cols in
  let? others := rmap (fun col => py_get_any record col (JStr "")) other_cols in
  Ok (JStr joined :: others).

(** Lines 211-232 of [refresh_treeview]: the rows handed to [tree.insert],
    each with its [iid]; what Tk does with them is not part of this. *)
Definition tree_rows (store : json) (section_title : string)
  : result (list (json * list json)) :=
  let? sec := py_getitem store section_title in
  let? columns := py_getitem sec "columns" in
  let? sec' := py_getitem store section_title in
  let? data_rows := py_getitem sec' "data" in
  let? records := py_iter data_rows in
  rmap (fun record =>
          let? values := (if String.eqb section_title "family_info"
                          then member_row columns record
                          else asset_row store columns record) in
          let? iid := py_get record "id" JNull in
          Ok (iid, values))
       records.

(** [save_data_as]: [file_path] is the answer of the "Save Wealth Data"
    dialog, empty when it was cancelled. *)
Definition save_data_as (file_path : string) : M unit :=
  if String.eqb file_path "" then ret tt
  else _write_to_file file_path ;;; set_path (Some file_path).

(** [save_data_to_file]: [file_path] is what the dialog of [save_data_as]
    answers, should it come to be asked. *)
Definition save_data_to_file (file_path : string) : M unit :=
  fun st =>
    match current_file_path st with
    | Some p => if String.eqb p "" then save_data_as file_path st
                else _write_to_file p st
    | None => save_data_as file_path st
    end.

End App.
End Catalogue.

(* ================================================================== *)
(** ** Sample data for the examples *)

(** An identifier generator for the examples: [uuid-0], [uuid-1], ... *)
Definition sample_uuid4 (n : nat) : string :=
  "uuid-" ++ NilZero.string_of_uint (Nat.to_uint n).

(** Tree rebuilds that always complete. *)
Definition tk_rows_ok (_ : json) (_ : string) (_ : json) : result unit := Ok tt.
Definition tk_ok (_ : json) (_ : string) : result unit := Ok tt.

Definition member (id name : string) : json :=
  JDict [("Name", JStr name); ("Aadhar No.", JStr ""); ("PAN no", JStr "");
         ("Voter id no", JStr ""); ("id", JStr id)].

(** A bank account as the editor saves it: the schema fields that have an
    entry box, then [holders], then [id]. *)
Definition account (id number : string) (holders : list string) : dict :=
  [("Account Type", JStr "Savings"); ("BANK NAME", JStr "SBI");
   ("ACCOUNT NO", JStr number); ("holders", JList (map JStr holders));
   ("id", JStr id)].

Definition store_with (members accounts : list json) : json :=
  JDict (dict_update initialize_data_structures
           [("family_info",
             JDict [("columns", columns ["Name"; "Aadhar No."; "PAN no"; "Voter id no"]);
                    ("data", JList members)]);
            ("bank_accounts",
             JDict [("columns", columns ["Holders"; "Account Type"; "BANK NAME"; "ACCOUNT NO"]);
                    ("data", JList accounts)])]).

Definition app_with (store : json) : app :=
  mkApp store None (fun _ => "") 0 [] [].

Definition two_members : list json := [member "m1" "Asha"; member "m2" "Ravi"].

(** Two members, one joint account. *)
Definition sample_store : json :=
  store_with two_members [JDict (account "a1" "1001" ["m1"; "m2"])].

(** The fields the editor of the bank accounts tab hands to [save_asset]. *)
Definition edited_account : dict :=
  [("Account Type", JStr "Current"); ("BANK NAME", JStr "HDFC");
   ("ACCOUNT NO", JStr "2002"); ("holders", JList [JStr "m2"])].

(** An account that came from a file with an attribute of its own. *)
Definition nominee_account : dict :=
  (account "a1" "1001" ["m1"; "m2"] ++ [("Nominee", JStr "Ravi")])%list.

Definition store_with_nominee : json :=
  store_with two_members [JDict nominee_account].

(** An account whose file lists the same holder twice. *)
Definition store_with_repeated_holder : json :=
  store_with two_members [JDict (account "a1" "1001" ["m1"; "m1"; "m2"])].

Definition record_at (store : json) (section : string) (i : nat) : option json :=
  match store with
  | JDict d =>
      match dict_get section d with
      | Some (JDict c) =>
          match dict_get "data" c with
          | Some (JList l) => nth_error l i
          | _ => None
          end
      | _ => None
      end
  | _ => None
  end.

(** The legacy document of the specification's example. *)
Definition asha_doc : dict := [("members", JList [JDict [("name", JStr "Asha")]])].


(** A legacy document with two members and one account. *)
Definition legacy_members : list dict :=
  [ [("name", JStr "Asha")]; [("Name", JStr "Ravi"); ("id", JStr "m2")] ].

Definition legacy_assets (s : string) : list dict :=
  if String.eqb s "bank_accounts" then [ [("BANK NAME", JStr "SBI")] ] else [].

Definition legacy_doc : dict :=
  [("members", JList (map JDict legacy_members));
   ("bank_accounts", JList (map JDict (legacy_assets "bank_accounts")));
   ("note", JStr "exported 2019")].

(** A document of neither format, and one whose [family_info] carries
    [columns] but no [data]. *)
Definition foo_doc : json := JDict [("foo", JNum 1)].

Definition columns_only_doc : json :=
  JDict [("family_info", JDict [("columns", JList [])])].

(** A document whose [family_info] is a string in which "columns" occurs:
    it passes the [in] test of the loaders without being a mapping. *)
Definition text_family_doc : json :=
  JDict [("family_info", JStr "no columns here")].

(** The store of the specification's export example: the account is held
    by [m1] and [m2], and [m1] is no longer a member. *)
Definition store_after_delete : json :=
  store_with [member "m2" "Ravi"] [JDict (account "a1" "1001" ["m1"; "m2"])].

Definition account_columns : json :=
  columns ["Holders"; "Account Type"; "BANK NAME"; "ACCOUNT NO"].

Definition accounts_section (accounts : list json) : json :=
  JDict [("columns", account_columns); ("data", JList accounts)].

(** A store as a file may give it: the schema of [locker] names no holder
    column, and its record is held by [m1]. *)
Definition plain_locker : json :=
  JDict [("columns", columns ["BANK NAME"; "LOCKER NO"]);
         ("data", JList [JDict [("BANK NAME", JStr "SBI"); ("LOCKER NO", JStr "7");
                                ("holders", JList [JStr "m1"]); ("id", JStr "l1")]])].

Definition store_with_plain_locker : dict :=
  dict_update initialize_data_structures
    [("family_info",
      JDict [("columns", columns ["Name"; "Aadhar No."; "PAN no"; "Voter id no"]);
             ("data", JList two_members)]);
     ("bank_accounts", accounts_section [JDict (account "a1" "1001" ["m1"; "m2"])]);
     ("locker", plain_locker)].

(** The application started anew on the disk a session left: the default
    store, no current file, nothing shown yet. *)
Definition restarted (st : app) : app :=
  mkApp (JDict initialize_data_structures) None (fun _ => "") 0 [] (disk st).

(** What is typed into the editor of the fixed deposits tab: a start date
    that is no date, and an amount. *)
Definition deposit_typed (amount : string) (k : string) : string :=
  if String.eqb k "Bank Name" then "SBI"
  else if String.eqb k "Rate (%)" then "7.5"
  else if String.eqb k "Number of Days" then "90"
  else if String.eqb k "Start Date" then "tomorrow"
  else if String.eqb k "Amount" then amount else "".

(** The texts of the example that [float] accepts; [strptime] accepts
    none of them. *)
Definition deposit_float_ok (s : string) : bool :=
  String.eqb s "7.5" || String.eqb s "90" || String.eqb s "10000".

Definition deposit_date_ok (_ : string) : bool := false.

Definition deposit_callback (section : string) (new_data : dict) (id : option string)
  : M unit :=
  Basic.save_asset sample_uuid4 tk_rows_ok section new_data id None.

(* ================================================================== *)
(** ** The words of the specification for legacy migration

    These definitions follow the specification, not the code: they say
    what a migrated record looks like.  The theorems further down relate
    them to [Catalogue.transform_old_data_format]. *)

(** "For every record lacking an identifier, assign one." *)
Definition spec_assign_id (fresh : string) (r : dict) : dict :=
  if dict_has "id" r then r else (r ++ [("id", JStr fresh)])%list.

(** "Rename a [name] attribute to [Name] if [Name] is absent." *)
Definition spec_rename_name (r : dict) : dict :=
  match dict_get "name" r with
  | Some v =>
      if dict_has "Name" r then r
      else (dict_pop "name" r ++ [("Name", v)])%list
  | None => r
  end.

(** A list of records with identifiers assigned where missing, the [n]-th
    output of the generator being the next one to use. *)
Fixpoint spec_assign_ids (uuid4 : nat -> string) (n : nat) (records : list dict)
  : list dict :=
  match records with
  | [] => []
  | r :: rs =>
      if dict_has "id" r then r :: spec_assign_ids uuid4 n rs
      else spec_assign_id (uuid4 n) r :: spec_assign_ids uuid4 (S n) rs
  end.

(** How many records of a list lack an identifier. *)
Definition lacking_id (records : list dict) : nat :=
  List.length (filter (fun r => negb (dict_has "id" r)) records).

(** The key the legacy members are read from. *)
Definition member_key (d : dict) : string :=
  if dict_has "members" d then "members" else "family_info".

(** The bare sequence a legacy document has under a key, empty when the
    key is missing or holds something else. *)
Definition list_at (d : dict) (k : string) : list json :=
  match dict_get k d with
  | Some (JList l) => l
  | _ => []
  end.

(** The nine asset categories, in declaration order. *)
Definition asset_sections : list string := tl (dict_keys initialize_data_structures).

(** The number of identifiers drawn before the migration reaches
    [section], [k] of them before the first asset section. *)
Fixpoint ids_before (assets : string -> list dict) (sections : list string)
                    (section : string) (k : nat) : nat :=
  match sections with
  | [] => k
  | s :: rest =>
      if String.eqb s section then k
      else ids_before assets rest section (k + lacking_id (assets s))
  end.

(** A source list after the loop went over it: replaced when the entry
    is a list, untouched otherwise. *)
Definition put_list (key : string) (records : list json) (d : dict) : dict :=
  match dict_get key d with
  | Some (JList _) => dict_set key (JList records) d
  | _ => d
  end.

(** The member records and the records of an asset category as the
    specification has them after migration, [n] identifiers having been
    drawn before: members first, then the asset categories in declaration
    order. *)
Definition migrated_family (uuid4 : nat -> string) (n : nat) (members : list dict)
  : list dict :=
  map spec_rename_name (spec_assign_ids uuid4 n members).

Definition migrated_assets (uuid4 : nat -> string) (n : nat) (members : list dict)
                           (assets : string -> list dict) (s : string) : list dict :=
  spec_assign_ids uuid4 (ids_before assets asset_sections s (n + lacking_id members))
                  (assets s).

Definition drawn_after (n : nat) (members : list dict) (assets : string -> list dict) : nat :=
  fold_left (fun k s => k + lacking_id (assets s)) asset_sections (n + lacking_id members).

(** The declared store with the data of every category filled in. *)
Definition spec_filled_store (family : list dict) (data : string -> list dict) : dict :=
  map (fun sc =>
         (fst sc,
          match snd sc with
          | JDict c =>
              JDict (dict_set "data"
                       (JList (map JDict (if String.eqb (fst sc) "family_info"
                                          then family else data (fst sc)))) c)
          | v => v
          end))
      initialize_data_structures.

(** The source document once migration has gone over its lists. *)
Definition spec_old_data_after (d : dict) (family : list dict)
                               (data : string -> list dict) : dict :=
  fold_left (fun acc s => put_list s (map JDict (data s)) acc) asset_sections
            (put_list (member_key d) (map JDict family) d).

(** A value [json.load] can have produced: every dictionary has each key
    once. *)
Fixpoint unique (ks : list string) : bool :=
  match ks with
  | [] => true
  | k :: r => negb (existsb (String.eqb k) r) && unique r
  end.

Fixpoint well_formed (v : json) : bool :=
  match v with
  | JList l => forallb well_formed l
  | JDict d => unique (dict_keys d) && forallb (fun kv => well_formed (snd kv)) d
  | _ => true
  end.

(** The decimal digits of an unsigned number, as characters. *)
Fixpoint digits_of (u : Decimal.uint) : list ascii :=
  match u with
  | Decimal.Nil => []
  | Decimal.D0 u => "0"%char :: digits_of u
  | Decimal.D1 u => "1"%char :: digits_of u
  | Decimal.D2 u => "2"%char :: digits_of u
  | Decimal.D3 u => "3"%char :: digits_of u
  | Decimal.D4 u => "4"%char :: digits_of u
  | Decimal.D5 u => "5"%char :: digits_of u
  | Decimal.D6 u => "6"%char :: digits_of u
  | Decimal.D7 u => "7"%char :: digits_of u
  | Decimal.D8 u => "8"%char :: digits_of u
  | Decimal.D9 u => "9"%char :: digits_of u
  end.

(** A numeral as Python prints it: a single zero, or no leading zero. *)
Definition no_leading_zero (u : Decimal.uint) : Prop :=
  match u with
  | Decimal.Nil => False
  | Decimal.D0 Decimal.Nil => True
  | Decimal.D0 _ => False
  | _ => True
  end.

(** What may follow a value in the encoder's output: the end of the text,
    a comma, or a line break. *)
Definition delimited (rest : list ascii) : Prop :=
  match rest with
  | [] => True
  | c :: _ => c = ","%char \/ c = ascii_of_nat 10
  end.

(** A dictionary with the declared categories it lacks appended. *)
Definition with_missing_sections (d : dict) : dict :=
  fold_left (fun acc sc => if dict_has (fst sc) acc then acc
                           else dict_set (fst sc) (snd sc) acc)
            initialize_data_structures d.



(** *** Filtering *)

(** [t] occurs in [s]: the words of the specification for what
    [str_contains] computes. *)
Definition occurs_in (t s : string) : Prop :=
  exists pre post, s = pre ++ t ++ post.

(** The records a filter keeps, in their order: [kept P l r] says that [r]
    is [l] with exactly the items satisfying [P] left in. *)
Inductive kept {A} (P : A -> Prop) : list A -> list A -> Prop :=
| kept_nil : kept P [] []
| kept_take x l r : P x -> kept P l r -> kept P (x :: l) (x :: r)
| kept_skip x l r : ~ P x -> kept P l r -> kept P (x :: l) r.

(** [r] is a subsequence of [l]. *)
Inductive subsequence {A} : list A -> list A -> Prop :=
| sub_nil : subsequence [] []
| sub_take x l r : subsequence r l -> subsequence (x :: r) (x :: l)
| sub_skip x l r : subsequence r l -> subsequence r (x :: l).

(** The records of a section, when the section is there and well formed. *)
Definition records_of (store : json) (section : string) : option (list json) :=
  match store with
  | JDict d =>
      match dict_get section d with
      | Some (JDict c) =>
          match dict_get "data" c with
          | Some (JList l) => Some l
          | _ => None
          end
      | _ => None
      end
  | _ => None
  end.

(** A record matches a search term when the string form of one of its
    stored values contains the term, both in lower case. *)
Definition matches (search : string) (rec : json) : Prop :=
  exists fields k v,
    rec = JDict fields /\ In (k, v) fields /\
    occurs_in (lower search) (lower (py_str v)).

Definition is_dict (v : json) : Prop := exists d, v = JDict d.

(** *** Loading *)

(** The state in which the basic variant rebuilds its views during a load:
    the defaults updated with the document. *)
Definition adopting (st : app) (d : dict) : app :=
  mkApp (JDict (dict_update initialize_data_structures d)) (current_file_path st)
        (search_vars st) (uuid_calls st) (dialogs st) (disk st).

(** The state in which the extended variant rebuilds its views during a
    load of a current-format document. *)
Definition adopting_filled (st : app) (d : dict) : app :=
  mkApp (JDict (with_missing_sections d)) (current_file_path st)
        (search_vars st) (uuid_calls st) (dialogs st) (disk st).

(** *** Deleting a member *)

(** The record lists [id] among its holders at most once, or has no
    [holders] at all. *)
Definition holds_at_most_once (id rec : json) : bool :=
  match rec with
  | JDict r =>
      match dict_get "holders" r with
      | None => true
      | Some (JList hs) => Nat.leb (List.length (filter (fun h => py_eq h id) hs)) 1
      | Some _ => false
      end
  | _ => false
  end.

(** A section with a list of such records. *)
Definition tidy_section (id v : json) : bool :=
  match v with
  | JDict c =>
      match dict_get "data" c with
      | Some (JList recs) => forallb (holds_at_most_once id) recs
      | _ => false
      end
  | _ => false
  end.

Definition tidy_store (id : json) (sections : dict) : bool :=
  forallb (fun sc => tidy_section id (snd sc)) sections.

(** The record with [id] taken out of its holders. *)
Definition spec_drop_holder (id rec : json) : json :=
  match rec with
  | JDict r =>
      match dict_get "holders" r with
      | Some (JList hs) =>
          if existsb (fun h => py_eq h id) hs
          then JDict (dict_set "holders"
                        (JList (filter (fun h => negb (py_eq h id)) hs)) r)
          else rec
      | _ => rec
      end
  | _ => rec
  end.

Definition spec_drop_in_section (id v : json) : json :=
  match v with
  | JDict c =>
      match dict_get "data" c with
      | Some (JList recs) =>
          JDict (dict_set "data" (JList (map (spec_drop_holder id) recs)) c)
      | _ => v
      end
  | _ => v
  end.

Definition spec_drop_everywhere (id : json) (sections : dict) : dict :=
  map (fun sc => (fst sc, spec_drop_in_section id (snd sc))) sections.

(** The members other than [id]. *)
Definition spec_without_id (id : json) (members : list json) : list json :=
  filter (fun r => match r with
                   | JDict f =>
                       match dict_get "id" f with
                       | Some i => negb (py_eq i id)
                       | None => negb (py_eq JNull id)
                       end
                   | _ => false
                   end) members.

(** The record carries the identifier [id]. *)
Definition has_id (id : string) (r : json) : Prop :=
  exists f, r = JDict f /\ dict_get "id" f = Some (JStr id).

(** *** The exported files *)

(** The row holds no field outside the field names. *)
Definition fits (fieldnames : list string) (row : dict) : bool :=
  forallb (fun k => existsb (String.eqb k) fieldnames) (dict_keys row).

(** The cells of a row, a missing field being empty. *)
Definition cells (fieldnames : list string) (row : dict) : list json :=
  map (fun k => match dict_get k row with
                | Some v => v
                | None => JStr ""
                end) fieldnames.

Definition csv_path (directory title : string) : string :=
  path_join directory (title ++ ".csv").

(** What the export writes for one section: nothing when the section has
    no records, else the header and the rows. *)
Definition export_body (store content : json) : result (option file_body) :=
  let? data := py_getitem content "data" in
  if negb (py_truthy data) then Ok None else
  let? items := py_iter data in
  let? originals := rmap Basic.dict_copy items in
  let? records := rmap (Basic.export_record store content) originals in
  match records with
  | [] => Ok None
  | first :: _ =>
      match Basic.writerows (dict_keys first) records with
      | (rows, None) => Ok (Some (Csv (dict_keys first) rows))
      | (_, Some e) => Raise e
      end
  end.

(** *** The shape of a store *)

(** The store has the declared categories, in their order, each with its
    declared columns and a list of records. *)
Definition declared_shape (d : dict) : Prop :=
  Forall2 (fun kv kv0 : string * json =>
             fst kv = fst kv0 /\
             exists cols records,
               snd kv0 = JDict [("columns", cols); ("data", JList [])] /\
               snd kv = JDict [("columns", cols); ("data", JList records)])
          d initialize_data_structures.

(** *** The rows of the trees *)

(** The column is the holder column. *)
Definition names_holders (c : string) : bool :=
  String.eqb c "Holders" || String.eqb c "Owners".

(** The stored value of a field, empty when the record lacks it. *)
Definition stored (r : dict) (c : string) : json :=
  match dict_get c r with
  | Some v => v
  | None => JStr ""
  end.

(** The holders of a record: none when it has no [holders]. *)
Definition holders_of (r : dict) : json :=
  match dict_get "holders" r with
  | Some h => h
  | None => JList []
  end.

(** The test of the filter on one record, for a search term. *)
Definition matchesb (search : string) (rec : json) : bool :=
  match rec with
  | JDict fields =>
      existsb (fun val => str_contains (lower search) (lower (py_str val)))
              (dict_values fields)
  | _ => false
  end.

(** *** The assets of a member *)

(** The record is a dictionary whose [holders], if it has them, is a list. *)
Definition lists_holders (rec : json) : bool :=
  match rec with
  | JDict r =>
      match dict_get "holders" r with
      | None | Some (JList _) => true
      | Some _ => false
      end
  | _ => false
  end.

(** The records of a section whose data is a list of such records. *)
Definition assets_of (v : json) : option (list json) :=
  match v with
  | JDict c =>
      match dict_get "data" c with
      | Some (JList recs) => if forallb lists_holders recs then Some recs else None
      | _ => None
      end
  | _ => None
  end.

(** The record has [id] among its holders. *)
Definition held_by (id : string) (rec : json) : bool :=
  match rec with
  | JDict r =>
      match dict_get "holders" r with
      | Some (JList hs) => existsb (fun h => py_eq h (JStr id)) hs
      | _ => false
      end
  | _ => false
  end.

(** The sections other than the members', each with the assets [id]
    holds, the sections in which it holds none left out. *)
Definition assets_held (id : string) (sections : dict) : list (string * list json) :=
  List.concat
    (map (fun sc : string * json =>
            if String.eqb (fst sc) "family_info" then []
            else match assets_of (snd sc) with
                 | Some recs =>
                     match filter (held_by id) recs with
                     | [] => []
                     | held => [(fst sc, held)]
                     end
                 | None => []
                 end)
         sections).

(** The cascade of the extended variant on one section: only a section
    with a holder column is gone through. *)
Definition spec_drop_in_section_x (id v : json) : json :=
  match Catalogue.has_holder_column v with
  | Ok true => spec_drop_in_section id v
  | _ => v
  end.

(** *** The editor *)

(** The name under which a member is listed, when it is a string. *)
Definition listed_name (m : dict) : option string :=
  match dict_get "Name" m with
  | Some (JStr n) => Some n
  | None => Some ""
  | Some _ => None
  end.

Definition member_id (m : dict) : json :=
  match dict_get "id" m with
  | Some v => v
  | None => JStr ""
  end.

(** The identifier of the last member listed under [n]. *)
Fixpoint last_named (n : string) (ms : list dict) : option json :=
  match ms with
  | [] => None
  | m :: rest =>
      match last_named n rest with
      | Some id => Some id
      | None =>
          match listed_name m with
          | Some n' => if String.eqb n n' then Some (member_id m) else None
          | None => None
          end
      end
  end.

(** Every text that is not empty and stands under a numeric column is
    accepted as a number. *)
Definition numbers_parse (float_ok : string -> bool) (texts : list (string * string))
  : bool :=
  forallb (fun kt => String.eqb (snd kt) "" ||
                     negb (Basic.RecordEditorWindow.numeric_key (fst kt)) ||
                     float_ok (snd kt))
          texts.

(** The text is one that holds "Save" back: not empty, under a column
    that asks for a number, and no number. *)
Definition holds_back (float_ok : string -> bool) (kt : string * string) : bool :=
  negb (String.eqb (snd kt) "") &&
  Basic.RecordEditorWindow.numeric_key (fst kt) && negb (float_ok (snd kt)).

(** The texts gone through before "Save" is held back: all of them when
    nothing holds it back. *)
Fixpoint examined (float_ok : string -> bool) (texts : list (string * string))
  : list (string * string) :=
  match texts with
  | [] => []
  | kt :: rest => if holds_back float_ok kt then [] else kt :: examined float_ok rest
  end.

(** One warning for each text that is not empty, stands under a column
    that asks for a date, and is no date. *)
Definition date_warnings (date_ok : string -> bool) (texts : list (string * string))
  : list dialog :=
  map (fun _ => showwarning "Validation Warning")
      (filter (fun kt => negb (String.eqb (snd kt) "") &&
                         Basic.RecordEditorWindow.date_key (fst kt) &&
                         negb (date_ok (snd kt)))
              texts).

(** The texts of the entry boxes when "Save" is pressed, and the record
    made of them. *)
Definition typed_texts (w : Basic.RecordEditorWindow.window) (typed : string -> string)
  : list (string * string) :=
  map (fun kt => (fst kt, typed (fst kt))) (Basic.RecordEditorWindow.entries w).

Definition typed_record (w : Basic.RecordEditorWindow.window) (typed : string -> string)
  : dict :=
  map (fun kt => (fst kt, JStr (typed (fst kt)))) (Basic.RecordEditorWindow.entries w).

(** The state with some more dialogs shown. *)
Definition with_dialogs (st : app) (ds : list dialog) : app :=
  mkApp (data_store st) (current_file_path st) (search_vars st) (uuid_calls st)
        (dialogs st ++ ds) (disk st).

(** The identifier is among the holders. *)
Definition among (hs : list json) (id : json) : bool :=
  existsb (fun h => py_eq h id) hs.

(** What a name of the list of holders stands for. *)
Definition stands_for (mm : dict) (name : string) : json :=
  match dict_get name mm with
  | Some id => id
  | None => JNull
  end.

(** *** The encoded text *)

Local Open Scope char_scope.
Local Open Scope list_scope.

Definition text_of_Z (n : Z) : text := list_ascii_of_string (str_of_Z n).

(** The first character of an encoded value: never white space, never a
    closing bracket. *)
Definition opens_value (c : ascii) : Prop :=
  is_ws c = false /\ Ascii.eqb c "]" = false /\ Ascii.eqb c "}" = false.

Definition decodes (v : json) : Prop :=
  forall level rest fuel,
    delimited rest ->
    List.length (dump level v ++ rest) <= fuel ->
    scan_once fuel (dump level v ++ rest) = Ok (v, rest).

Definition items_text (level : nat) (l : list json) : text :=
  join_text ("," :: nl (S level)) (map (dump (S level)) l).

Definition pair_text (level : nat) (kv : string * json) : text :=
  encode_str (fst kv) ++ ":" :: " " :: dump (S level) (snd kv).

Definition pairs_text (level : nat) (d : dict) : text :=
  join_text ("," :: nl (S level)) (map (pair_text level) d).

Local Close Scope char_scope.
Local Open Scope string_scope.

(* ================================================================== *)
(** * Properties *)

(** ** Small facts about the Python layer *)

Lemma rbind_ok {A B} (m : result A) (k : A -> result B) (a : A) :
  m = Ok a -> rbind m k = k a.
Proof. intros ->. reflexivity. Qed.

Lemma py_eq_str_iff (v : json) (s : string) :
  py_eq v (JStr s) = true <-> v = JStr s.
Proof.
  destruct v; simpl; try (split; [discriminate | discriminate]).
  rewrite String.eqb_eq. split; congruence.
Qed.

Lemma dict_has_get (k : string) (d : dict) :
  dict_has k d = true <-> dict_get k d <> None.
Proof.
  unfold dict_has. destruct (dict_get k d); split; congruence.
Qed.

Lemma dict_get_In (k : string) (d : dict) (v : json) :
  dict_get k d = Some v -> In (k, v) d.
Proof.
  induction d as [|[k' v'] d IH]; simpl; [discriminate|].
  destruct (String.eqb_spec k k') as [->|Hne].
  - intros [= ->]. now left.
  - intros H. right. auto.
Qed.

Lemma dict_get_notin (k : string) (d : dict) :
  dict_get k d = None <-> ~ In k (dict_keys d).
Proof.
  induction d as [|[k' v'] d IH]; simpl.
  - split; auto.
  - destruct (String.eqb_spec k k') as [->|Hne].
    + split; [discriminate | intros H; exfalso; apply H; now left].
    + rewrite IH. split; intros H; [intros [E|I]; [congruence | auto] | auto].
Qed.

(** ** Substrings *)

Lemma prefix_iff (t s : string) :
  String.prefix t s = true <-> exists post, s = t ++ post.
Proof.
  revert s. induction t as [|a t IH]; intros s; simpl.
  - split; [intros _; now exists s | intros _; destruct s; reflexivity].
  - destruct s as [|b s]; simpl.
    + split; [discriminate | intros [post H]; discriminate].
    + destruct (Ascii.ascii_dec a b) as [->|Hne].
      * rewrite IH. split; intros [post H]; exists post; [now rewrite H | now injection H].
      * split; [discriminate | intros [post H]; injection H; intros; congruence].
Qed.

Lemma str_contains_iff (t s : string) :
  str_contains t s = true <-> occurs_in t s.
Proof.
  induction s as [|c s IH].
  - cbn [str_contains]. rewrite orb_false_r, prefix_iff. split.
    + intros [post H]. exists "", post. exact H.
    + intros [pre [post H]]. destruct pre; simpl in H.
      * now exists post.
      * discriminate.
  - cbn [str_contains]. rewrite orb_true_iff, prefix_iff, IH. split.
    + intros [[post H] | [pre [post H]]].
      * exists "", post. exact H.
      * exists (String c pre), post. simpl. now rewrite H.
    + intros [pre [post H]]. destruct pre as [|a pre]; simpl in H.
      * left. now exists post.
      * right. injection H as _ H. now exists pre, post.
Qed.

Lemma lower_empty (s : string) : lower s = "" <-> s = "".
Proof. destruct s; simpl; split; congruence. Qed.

(** ** Comprehensions whose test cannot raise *)

Lemma rfilter_total {A} (p : A -> result bool) (q : A -> bool) (l : list A) :
  Forall (fun x => p x = Ok (q x)) l ->
  rfilter p l = Ok (filter q l).
Proof.
  induction 1 as [|x l Hx _ IH]; simpl; [reflexivity|].
  rewrite Hx. simpl. rewrite IH. simpl. now destruct (q x).
Qed.

Lemma kept_filter {A} (P : A -> Prop) (q : A -> bool) (l : list A) :
  (forall x, In x l -> (q x = true <-> P x)) ->
  kept P l (filter q l).
Proof.
  induction l as [|x l IH]; intros H; simpl; [constructor|].
  assert (Hx := H x (or_introl eq_refl)).
  assert (Hl : forall y, In y l -> (q y = true <-> P y)) by (intros; apply H; now right).
  destruct (q x) eqn:E.
  - apply kept_take; [now apply Hx | auto].
  - apply kept_skip; [rewrite <- Hx; discriminate | auto].
Qed.

Lemma kept_subsequence {A} (P : A -> Prop) (l r : list A) :
  kept P l r -> subsequence r l.
Proof. induction 1; constructor; assumption. Qed.

Lemma kept_In {A} (P : A -> Prop) (l r : list A) :
  kept P l r -> forall x, In x r <-> In x l /\ P x.
Proof.
  induction 1 as [|x l r Hx _ IH|x l r Hx _ IH]; intros y; simpl.
  - tauto.
  - rewrite IH. split.
    + intros [<-|[H1 H2]]; auto.
    + intros [[<-|H1] H2]; auto.
  - rewrite IH. split.
    + intros [H1 H2]; auto.
    + intros [[<-|H1] H2]; [contradiction | auto].
Qed.

(** ** The filter of the basic variant *)

Lemma records_of_getitem (store : json) (section : string) (l : list json) :
  records_of store section = Some l ->
  exists sec, py_getitem store section = Ok sec /\ py_getitem sec "data" = Ok (JList l).
Proof.
  unfold records_of. destruct store; try discriminate.
  destruct (dict_get section d) as [[| | | | |c]|] eqn:E; try discriminate.
  destruct (dict_get "data" c) as [[| | | |l'|]|] eqn:E'; try discriminate.
  intros [= ->]. exists (JDict c). simpl. now rewrite E, E'.
Qed.

Lemma existsb_values (q : json -> bool) (fields : dict) :
  existsb q (dict_values fields) = true <->
  exists k v, In (k, v) fields /\ q v = true.
Proof.
  unfold dict_values. rewrite existsb_exists. split.
  - intros [v [Hin Hq]]. apply in_map_iff in Hin as [[k v'] [E Hin]].
    simpl in E. subst. now exists k, v.
  - intros [k [v [Hin Hq]]]. exists v. split; [|assumption].
    apply in_map_iff. now exists (k, v).
Qed.

(** C7. [filter(category, "")] is the category's record list as stored;
    for a non-empty term the result is the list with exactly the records
    left in whose string form of some stored value (any key, [id] and
    [holders] included) contains the term case-insensitively, in store
    order, hence a subsequence of the full list. *)
Theorem filter_keeps_matching_records_in_order :
  forall (store : json) (section search : string) (records : list json),
    records_of store section = Some records ->
    Forall is_dict records ->
    Basic.filtered_records store section "" = Ok (JList records) /\
    (search <> "" ->
     exists result,
       Basic.filtered_records store section search = Ok (JList result) /\
       kept (matches search) records result /\
       subsequence result records /\
       (forall rec, In rec result <-> In rec records /\ matches search rec)).
Proof.
  intros store section search records Hrec Hdict.
  destruct (records_of_getitem _ _ _ Hrec) as [sec [Hsec Hdata]].
  split.
  - unfold Basic.filtered_records. rewrite Hsec. simpl. rewrite Hdata. reflexivity.
  - intros Hne.
    set (q := fun rec =>
                match rec with
                | JDict fields =>
                    existsb (fun val => str_contains (lower search) (lower (py_str val)))
                            (dict_values fields)
                | _ => false
                end).
    assert (Hk : kept (matches search) records (filter q records)).
    { apply kept_filter. intros rec Hin.
      rewrite Forall_forall in Hdict. destruct (Hdict _ Hin) as [fields ->].
      unfold q, matches. rewrite existsb_values. split.
      - intros [k [v [Hi Hc]]]. exists fields, k, v.
        rewrite str_contains_iff in Hc. auto.
      - intros [fields' [k [v [E [Hi Hc]]]]]. injection E as <-.
        exists k, v. rewrite str_contains_iff. auto. }
    exists (filter q records). split; [|split; [exact Hk|split]].
    + unfold Basic.filtered_records. rewrite Hsec. simpl. rewrite Hdata. simpl.
      destruct (String.eqb_spec (lower search) "") as [E|_].
      { apply (proj1 (lower_empty _)) in E. congruence. }
      simpl. rewrite (rfilter_total _ q); [reflexivity|].
      rewrite Forall_forall in *. intros rec Hin.
      destruct (Hdict _ Hin) as [fields ->]. reflexivity.
    + exact (kept_subsequence _ _ _ Hk).
    + exact (kept_In _ _ _ Hk).
Qed.

Lemma filter_keeps_matching_records_witness :
  records_of sample_store "family_info" = Some two_members /\
  Basic.filtered_records sample_store "family_info" "" = Ok (JList two_members) /\
  ("ASH" <> "" ->
   exists result,
     Basic.filtered_records sample_store "family_info" "ASH" = Ok (JList result) /\
     kept (matches "ASH") two_members result /\
     subsequence result two_members /\
     (forall rec, In rec result <-> In rec two_members /\ matches "ASH" rec)).
Proof.
  split; [reflexivity|].
  apply (filter_keeps_matching_records_in_order sample_store "family_info" "ASH" two_members).
  - reflexivity.
  - repeat constructor; eexists; reflexivity.
Defined.

(** A search term found only in [holders], a value outside the schema. *)
Example filter_sees_holders :
  Basic.filtered_records sample_store "bank_accounts" "M2"
  = Ok (JList [JDict (account "a1" "1001" ["m1"; "m2"])]).
Proof. reflexivity. Qed.

(** ** Dictionaries *)

Lemma dict_get_set (k k' : string) (v : json) (d : dict) :
  dict_get k (dict_set k' v d) = if String.eqb k k' then Some v else dict_get k d.
Proof.
  induction d as [|[k1 v1] d IH]; simpl.
  - destruct (String.eqb k k'); reflexivity.
  - destruct (String.eqb_spec k' k1) as [->|Hne]; simpl.
    + destruct (String.eqb k k1); reflexivity.
    + rewrite IH. destruct (String.eqb_spec k k1) as [->|Hne'].
      * destruct (String.eqb_spec k1 k'); [congruence|reflexivity].
      * reflexivity.
Qed.

Lemma dict_update_get (k : string) (d other : dict) :
  NoDup (dict_keys other) ->
  dict_get k (dict_update d other) =
  match dict_get k other with
  | Some v => Some v
  | None => dict_get k d
  end.
Proof.
  unfold dict_update. revert d.
  induction other as [|[k1 v1] other IH]; intros d Hnd; simpl; [reflexivity|].
  inversion Hnd as [|? ? Hnotin Hnd']; subst.
  rewrite (IH _ Hnd'), dict_get_set.
  destruct (String.eqb_spec k k1) as [->|Hne].
  - apply dict_get_notin in Hnotin. now rewrite Hnotin.
  - reflexivity.
Qed.

(** ** Looking a record up by its identifier *)

Lemma rfind_some {A} (p : A -> result bool) (l : list A) (i : nat) (x : A) :
  rfind p l = Ok (Some (i, x)) ->
  nth_error l i = Some x /\ p x = Ok true.
Proof.
  revert i. induction l as [|y l IH]; intros i; simpl; [discriminate|].
  destruct (p y) as [[|]|e] eqn:E; simpl; try discriminate.
  - intros [= <- <-]. auto.
  - destruct (rfind p l) as [[[j z]|]|e] eqn:E'; simpl; try discriminate.
    intros [= <- <-]. simpl. now apply IH.
Qed.

Lemma find_by_id_some (records : list json) (id : string) (i : nat) (r : json) :
  find_by_id (JList records) (JStr id) = Ok (Some (i, r)) ->
  nth_error records i = Some r /\
  exists fields, r = JDict fields /\ dict_get "id" fields = Some (JStr id).
Proof.
  unfold find_by_id. simpl. intros H.
  apply rfind_some in H as [Hnth Hp]. split; [assumption|].
  destruct r; simpl in Hp; try discriminate.
  exists d. split; [reflexivity|].
  destruct (dict_get "id" d) as [v|]; simpl in Hp.
  - injection Hp as Hp. apply py_eq_str_iff in Hp. now subst.
  - discriminate.
Qed.

Lemma set_record_at (d sec : dict) (section : string) (records : list json)
      (i : nat) (rec : json) :
  dict_get section d = Some (JDict sec) ->
  dict_get "data" sec = Some (JList records) ->
  set_record (JDict d) section i rec =
  Ok (JDict (dict_set section
               (JDict (dict_set "data" (JList (list_set i rec records)) sec)) d)).
Proof.
  intros Hs Hd. unfold set_record, set_data. cbn [py_getitem rbind]. rewrite Hs.
  cbn [py_getitem rbind]. rewrite Hd. reflexivity.
Qed.

(** ** Steps that only look at the state *)

Lemma snd_bind_reader {A B} (m : M A) (k : A -> M B) (st : app) :
  (forall a st', snd (k a st') = st') ->
  snd (bind m k st) = snd (m st).
Proof.
  intros Hk. unfold bind. destruct (m st) as [[a|e] st']; simpl; auto.
Qed.

Lemma filter_treeview_reads (refresh : json -> string -> json -> result unit)
      (section : string) (st : app) :
  snd (Basic.filter_treeview refresh section st) = st.
Proof. reflexivity. Qed.

Lemma show_member_assets_reads (selected : option string) (st : app) :
  snd (Basic.show_member_assets selected st) = st.
Proof. reflexivity. Qed.

Lemma views_read (refresh : json -> string -> json -> result unit)
      (section : string) (selected : option string) (st : app) :
  snd ((Basic.filter_treeview refresh section ;;;
        Basic.show_member_assets selected) st) = st.
Proof.
  rewrite snd_bind_reader; [reflexivity|]. intros; reflexivity.
Qed.

(** ** Updates of a record that is not there *)

(** C2, as the code has it.  When no member has the identifier, the
    member update leaves the whole application state as it was - store,
    dialogs and all - and returns what the view refresh returns; the same
    holds for the update of an asset whose identifier is not in the
    category.  No error is raised or shown. *)
Theorem update_of_missing_record_is_silent :
  forall (uuid4 : nat -> string) (refresh : json -> string -> json -> result unit)
         (st : app) (new_data : dict) (id section : string) (selected : option string),
    id <> "" ->
    (get_member_by_id (data_store st) (JStr id) = Ok None ->
     Basic.save_member uuid4 refresh new_data (Some id) st =
     Basic.filter_treeview refresh "family_info" st /\
     snd (Basic.save_member uuid4 refresh new_data (Some id) st) = st) /\
    (forall records,
        records_of (data_store st) section = Some records ->
        find_by_id (JList records) (JStr id) = Ok None ->
        Basic.save_asset uuid4 refresh section new_data (Some id) selected st =
        (Basic.filter_treeview refresh section ;;; Basic.show_member_assets selected) st /\
        snd (Basic.save_asset uuid4 refresh section new_data (Some id) selected st) = st).
Proof.
  intros uuid4 refresh st new_data id section selected Hid.
  assert (Hgiven : id_given (Some id) = true).
  { simpl. destruct (String.eqb_spec id ""); [contradiction|reflexivity]. }
  split.
  - intros Hnone.
    assert (E : Basic.save_member uuid4 refresh new_data (Some id) st =
                Basic.filter_treeview refresh "family_info" st).
    { unfold Basic.save_member. rewrite Hgiven.
      unfold bind, get_store, lift. rewrite Hnone. reflexivity. }
    split; [exact E|]. rewrite E. reflexivity.
  - intros records Hrec Hnone.
    destruct (records_of_getitem _ _ _ Hrec) as [sec [Hsec Hdata]].
    assert (E : Basic.save_asset uuid4 refresh section new_data (Some id) selected st =
                (Basic.filter_treeview refresh section ;;;
                 Basic.show_member_assets selected) st).
    { unfold Basic.save_asset. rewrite Hgiven.
      unfold bind, get_store, lift. rewrite Hsec, Hdata, Hnone. reflexivity. }
    split; [exact E|]. rewrite E. apply views_read.
Qed.

(** ** Updates of an existing asset *)

(** C3, as the code has it.  Updating an existing asset merges the given
    fields into the stored record: a given field takes the given value,
    every other attribute of the old record survives with its old value,
    and so does the identifier as long as the given fields carry no [id].
    The other records of the category and the other categories are
    untouched. *)
Theorem update_of_asset_merges_fields :
  forall (uuid4 : nat -> string) (refresh : json -> string -> json -> result unit)
         (st : app) (d sec : dict) (section id : string) (records : list json)
         (i : nat) (asset new_data : dict) (selected : option string),
    id <> "" ->
    data_store st = JDict d ->
    dict_get section d = Some (JDict sec) ->
    dict_get "data" sec = Some (JList records) ->
    find_by_id (JList records) (JStr id) = Ok (Some (i, JDict asset)) ->
    NoDup (dict_keys new_data) ->
    exists merged,
      data_store (snd (Basic.save_asset uuid4 refresh section new_data
                         (Some id) selected st)) =
      JDict (dict_set section
               (JDict (dict_set "data" (JList (list_set i (JDict merged) records)) sec)) d) /\
      (forall k, dict_get k merged =
                 match dict_get k new_data with
                 | Some v => Some v
                 | None => dict_get k asset
                 end) /\
      (dict_get "id" new_data = None -> dict_get "id" merged = Some (JStr id)).
Proof.
  intros uuid4 refresh st d sec section id records i asset new_data selected
         Hid Hst Hs Hd Hfind Hnd.
  exists (dict_update asset new_data).
  destruct (find_by_id_some _ _ _ _ Hfind) as [_ [fields [Ef Hidf]]].
  injection Ef as <-.
  assert (Hgiven : id_given (Some id) = true).
  { simpl. destruct (String.eqb_spec id ""); [contradiction|reflexivity]. }
  assert (Htruthy : py_truthy (JDict asset) = true).
  { destruct asset; [discriminate|reflexivity]. }
  split; [|split].
  - unfold Basic.save_asset. rewrite Hgiven.
    rewrite snd_bind_reader by (intros; apply views_read).
    unfold bind, get_store, lift. rewrite Hst. cbn [py_getitem]. rewrite Hs.
    cbn [py_getitem]. rewrite Hd, Hfind, Htruthy.
    rewrite (set_record_at _ _ _ _ _ _ Hs Hd). reflexivity.
  - intros k. now apply dict_update_get.
  - intros Hno. rewrite (dict_update_get _ _ _ Hnd), Hno. exact Hidf.
Qed.

Lemma update_of_asset_merges_fields_witness :
  exists merged,
    data_store (snd (Basic.save_asset sample_uuid4 tk_rows_ok "bank_accounts"
                       edited_account (Some "a1") None (app_with store_with_nominee))) =
    store_with two_members [JDict merged] /\
    dict_get "BANK NAME" merged = Some (JStr "HDFC") /\
    dict_get "Nominee" merged = Some (JStr "Ravi") /\
    dict_get "id" merged = Some (JStr "a1").
Proof.
  destruct (update_of_asset_merges_fields sample_uuid4 tk_rows_ok
              (app_with store_with_nominee)
              (dict_update initialize_data_structures
                 [("family_info",
                   JDict [("columns", columns ["Name"; "Aadhar No."; "PAN no"; "Voter id no"]);
                          ("data", JList two_members)]);
                  ("bank_accounts",
                   JDict [("columns", columns ["Holders"; "Account Type"; "BANK NAME"; "ACCOUNT NO"]);
                          ("data", JList [JDict nominee_account])])])
              [("columns", columns ["Holders"; "Account Type"; "BANK NAME"; "ACCOUNT NO"]);
               ("data", JList [JDict nominee_account])]
              "bank_accounts" "a1"
              [JDict nominee_account] 0 nominee_account
              edited_account None)
    as [merged [Hstore [Hget Hid]]].
  - discriminate.
  - reflexivity.
  - reflexivity.
  - reflexivity.
  - reflexivity.
  - unfold edited_account, dict_keys. simpl.
    repeat (constructor; [simpl; intuition discriminate|]). constructor.
  - exists merged. split; [exact Hstore|].
    split; [rewrite Hget; reflexivity|].
    split; [rewrite Hget; reflexivity|].
    apply Hid. reflexivity.
Defined.

(** C3 as stated fails: an attribute of the old record that is not among
    the given fields is still there after the update. *)
Lemma update_keeps_attributes_not_given :
  dict_get "Nominee" edited_account = None /\
  exists fields,
    record_at (data_store (snd (Basic.save_asset sample_uuid4 tk_rows_ok "bank_accounts"
                                  edited_account (Some "a1") None
                                  (app_with store_with_nominee))))
              "bank_accounts" 0 = Some (JDict fields) /\
    dict_get "Nominee" fields = Some (JStr "Ravi").
Proof.
  split; [reflexivity|]. eexists. split; reflexivity.
Qed.

Lemma update_of_missing_record_witness :
  snd (Basic.save_member sample_uuid4 tk_rows_ok [("Name", JStr "Meera")] (Some "m9")
         (app_with sample_store)) = app_with sample_store /\
  snd (Basic.save_asset sample_uuid4 tk_rows_ok "bank_accounts" edited_account
         (Some "a9") None (app_with sample_store)) = app_with sample_store.
Proof.
  destruct (update_of_missing_record_is_silent sample_uuid4 tk_rows_ok
              (app_with sample_store) [("Name", JStr "Meera")] "m9" "bank_accounts" None)
    as [Hm _]; [discriminate|].
  destruct (update_of_missing_record_is_silent sample_uuid4 tk_rows_ok
              (app_with sample_store) edited_account "a9" "bank_accounts" None)
    as [_ Ha]; [discriminate|].
  split.
  - apply Hm. reflexivity.
  - apply (Ha [JDict (account "a1" "1001" ["m1"; "m2"])]); reflexivity.
Defined.

(** C2 as stated fails: updating a member, or an asset, whose identifier
    is not in the store returns normally, shows no dialog and changes
    nothing. *)
Lemma update_of_unknown_id_returns_normally :
  Basic.save_member sample_uuid4 tk_rows_ok [("Name", JStr "Meera")] (Some "m9")
    (app_with sample_store) = (Ok tt, app_with sample_store) /\
  Basic.save_asset sample_uuid4 tk_rows_ok "bank_accounts" edited_account
    (Some "a9") None (app_with sample_store) = (Ok tt, app_with sample_store).
Proof. split; reflexivity. Qed.

(** ** Deleting a member *)

(** C1 at a store whose account lists the holder [m1] twice: the member is
    gone, but [holders] still has [m1], in both variants ([list.remove]
    takes out the first occurrence only). *)
Theorem delete_member_leaves_repeated_holder :
  let st := app_with store_with_repeated_holder in
  let basic := snd (Basic.delete_member_from_button tk_rows_ok (Some "m1") true None st) in
  let extended := snd (Catalogue.delete_member tk_ok (Some "m1") true None st) in
  get_member_by_id (data_store basic) (JStr "m1") = Ok None /\
  records_of (data_store basic) "bank_accounts"
  = Some [JDict (account "a1" "1001" ["m1"; "m2"])] /\
  get_member_by_id (data_store extended) (JStr "m1") = Ok None /\
  records_of (data_store extended) "bank_accounts"
  = Some [JDict (account "a1" "1001" ["m1"; "m2"])].
Proof. repeat split; reflexivity. Qed.

(** ** Legacy migration *)

Lemma dict_set_absent (k : string) (v : json) (d : dict) :
  dict_get k d = None -> dict_set k v d = (d ++ [(k, v)])%list.
Proof.
  induction d as [|[k' v'] d IH]; simpl; [reflexivity|].
  destruct (String.eqb k k'); [discriminate|].
  intros H. now rewrite IH.
Qed.

Lemma dict_set_same (k : string) (v : json) (d : dict) :
  dict_get k d = Some v -> dict_set k v d = d.
Proof.
  induction d as [|[k' v'] d IH]; simpl; [discriminate|].
  destruct (String.eqb_spec k k') as [->|Hne].
  - now intros [= ->].
  - intros H. now rewrite IH.
Qed.

Lemma dict_get_pop_other (k k' : string) (d : dict) :
  k <> k' -> dict_get k (dict_pop k' d) = dict_get k d.
Proof.
  intros Hne. induction d as [|[k1 v1] d IH]; simpl; [reflexivity|].
  destruct (String.eqb_spec k' k1) as [->|Hne1]; simpl.
  - destruct (String.eqb_spec k k1); [contradiction|reflexivity].
  - now rewrite IH.
Qed.

Lemma dict_get_pop_same (k : string) (d : dict) :
  NoDup (dict_keys d) -> dict_get k (dict_pop k d) = None.
Proof.
  induction d as [|[k1 v1] d IH]; simpl; [reflexivity|].
  intros Hnd. inversion Hnd as [|? ? Hnotin Hnd']; subst.
  destruct (String.eqb_spec k k1) as [->|Hne]; simpl.
  - now apply dict_get_notin.
  - destruct (String.eqb_spec k k1); [contradiction|]. auto.
Qed.

Lemma dict_get_app (k : string) (d e : dict) :
  dict_get k (d ++ e)%list =
  match dict_get k d with
  | Some v => Some v
  | None => dict_get k e
  end.
Proof.
  induction d as [|[k1 v1] d IH]; simpl; [reflexivity|].
  destruct (String.eqb k k1); [reflexivity|exact IH].
Qed.

Lemma dict_keys_set (k : string) (v w : json) (d : dict) :
  dict_get k d = Some w -> dict_keys (dict_set k v d) = dict_keys d.
Proof.
  induction d as [|[k1 v1] d IH]; simpl; [discriminate|].
  destruct (String.eqb_spec k k1) as [->|Hne]; simpl.
  - reflexivity.
  - intros H. now rewrite IH.
Qed.

Section Migration.

Variable uuid4 : nat -> string.

Let migrate_member := Catalogue.migrate_member uuid4.
Let migrate_asset := Catalogue.migrate_asset uuid4.

Lemma assign_id_set (n : nat) (f : dict) :
  dict_has "id" f = false ->
  dict_set "id" (JStr (uuid4 n)) f = spec_assign_id (uuid4 n) f.
Proof.
  intros H. unfold spec_assign_id. rewrite H. apply dict_set_absent.
  unfold dict_has in H. now destruct (dict_get "id" f).
Qed.

Lemma migrate_asset_dict (n : nat) (f : dict) :
  migrate_asset n (JDict f) =
  (if dict_has "id" f then n else S n,
   JDict (if dict_has "id" f then f else spec_assign_id (uuid4 n) f), None).
Proof.
  unfold migrate_asset, Catalogue.migrate_asset. cbn [py_in py_setitem].
  destruct (dict_has "id" f) eqn:E; [reflexivity|].
  now rewrite assign_id_set.
Qed.

Lemma rename_name_set (f : dict) (v : json) :
  dict_get "name" f = Some v -> dict_get "Name" f = None ->
  dict_set "Name" v (dict_pop "name" f) = spec_rename_name f.
Proof.
  intros En EN. unfold spec_rename_name, dict_has. rewrite En, EN.
  apply dict_set_absent. rewrite dict_get_pop_other; [assumption|discriminate].
Qed.

Lemma rename_name_kept (f : dict) :
  dict_get "name" f = None \/ dict_get "Name" f <> None ->
  spec_rename_name f = f.
Proof.
  unfold spec_rename_name, dict_has. intros [H|H].
  - now rewrite H.
  - destruct (dict_get "name" f); [|reflexivity].
    destruct (dict_get "Name" f); [reflexivity|contradiction].
Qed.

Lemma migrate_member_with_id (n : nat) (f : dict) :
  dict_has "id" f = true ->
  migrate_member n (JDict f) = (n, JDict (spec_rename_name f), None).
Proof.
  intros E. unfold migrate_member, Catalogue.migrate_member.
  cbn [py_in py_setitem]. rewrite E. cbn [py_in rbind]. unfold dict_has.
  destruct (dict_get "name" f) as [v|] eqn:En.
  - destruct (dict_get "Name" f) as [w|] eqn:EN; cbn [rbind negb].
    + rewrite rename_name_kept; [reflexivity|]. right. congruence.
    + cbn [py_pop]. rewrite En. cbn [py_setitem].
      now rewrite (rename_name_set f v).
  - cbn [rbind]. rewrite rename_name_kept; [reflexivity|]. now left.
Qed.

Lemma migrate_member_without_id (n : nat) (f : dict) :
  dict_has "id" f = false ->
  migrate_member n (JDict f) =
  (S n, JDict (spec_rename_name (spec_assign_id (uuid4 n) f)), None).
Proof.
  intros E. unfold migrate_member, Catalogue.migrate_member.
  cbn [py_in py_setitem]. rewrite E. rewrite assign_id_set by assumption.
  set (g := spec_assign_id (uuid4 n) f).
  cbn [py_in rbind]. unfold dict_has.
  destruct (dict_get "name" g) as [v|] eqn:En.
  - destruct (dict_get "Name" g) as [w|] eqn:EN; cbn [rbind negb].
    + rewrite rename_name_kept; [reflexivity|]. right. congruence.
    + cbn [py_pop]. rewrite En. cbn [py_setitem].
      now rewrite (rename_name_set g v).
  - cbn [rbind]. rewrite rename_name_kept; [reflexivity|]. now left.
Qed.

Lemma migrate_member_dict (n : nat) (f : dict) :
  migrate_member n (JDict f) =
  (if dict_has "id" f then n else S n,
   JDict (spec_rename_name (if dict_has "id" f then f else spec_assign_id (uuid4 n) f)),
   None).
Proof.
  destruct (dict_has "id" f) eqn:E.
  - now apply migrate_member_with_id.
  - now apply migrate_member_without_id.
Qed.

Lemma migrate_assets (n : nat) (rs : list dict) :
  migrate_records migrate_asset n (map JDict rs) =
  (n + lacking_id rs, map JDict (spec_assign_ids uuid4 n rs),
   map JDict (spec_assign_ids uuid4 n rs), None).
Proof.
  revert n. induction rs as [|r rs IH]; intros n.
  - simpl. now rewrite Nat.add_0_r.
  - cbn [map migrate_records]. rewrite migrate_asset_dict.
    unfold lacking_id. cbn [filter spec_assign_ids].
    destruct (dict_has "id" r) eqn:E; cbn [negb].
    + rewrite IH. reflexivity.
    + rewrite IH. cbn [List.length]. unfold lacking_id.
      now rewrite Nat.add_succ_r.
Qed.

Lemma migrate_members (n : nat) (rs : list dict) :
  migrate_records migrate_member n (map JDict rs) =
  (n + lacking_id rs,
   map JDict (map spec_rename_name (spec_assign_ids uuid4 n rs)),
   map JDict (map spec_rename_name (spec_assign_ids uuid4 n rs)), None).
Proof.
  revert n. induction rs as [|r rs IH]; intros n.
  - simpl. now rewrite Nat.add_0_r.
  - cbn [map migrate_records]. rewrite migrate_member_dict.
    unfold lacking_id. cbn [filter spec_assign_ids].
    destruct (dict_has "id" r) eqn:E; cbn [negb map].
    + rewrite IH. reflexivity.
    + rewrite IH. cbn [List.length]. unfold lacking_id.
      now rewrite Nat.add_succ_r.
Qed.

(** One list of the document, migrated. *)
Lemma migrate_list_records
      (step : nat -> json -> nat * json * option exn)
      (out : nat -> list dict -> list dict)
      (key section : string) (d store sec : dict) (n : nat)
      (l0 : list json) (rs : list dict) :
  (forall k l, migrate_records step k (map JDict l) =
               (k + lacking_id l, map JDict (out k l), map JDict (out k l), None)) ->
  out n [] = [] ->
  dict_get section store = Some (JDict sec) ->
  dict_get "data" sec = Some (JList l0) ->
  list_at d key = map JDict rs ->
  Catalogue.migrate_list step key section (mkMigration (JDict d) n (Ok (JDict store))) =
  mkMigration (JDict (put_list key (map JDict (out n rs)) d))
              (n + lacking_id rs)
              (Ok (JDict (dict_set section
                            (JDict (dict_set "data" (JList (l0 ++ map JDict (out n rs))) sec))
                            store))).
Proof.
  intros Hstep Hnil Hsec Hdata Hlist.
  unfold Catalogue.migrate_list, put_list, list_at in *.
  cbn [new_store old_data_after uuid_calls_after py_in py_getitem]. unfold dict_has.
  destruct (dict_get key d) as [v|] eqn:Ek.
  - destruct v; try (destruct rs; [|discriminate];
      rewrite Hnil; cbn [map lacking_id filter List.length];
      rewrite Nat.add_0_r, app_nil_r, (dict_set_same "data" _ _ Hdata),
              (dict_set_same section _ _ Hsec); reflexivity).
    subst l. rewrite Hstep.
    cbn [py_getitem rbind]. rewrite Hsec. cbn [py_getitem rbind]. rewrite Hdata.
    unfold set_data. cbn [py_getitem rbind]. rewrite Hsec. reflexivity.
  - destruct rs; [|discriminate].
    rewrite Hnil. cbn [map lacking_id filter List.length].
    rewrite Nat.add_0_r, app_nil_r, (dict_set_same "data" _ _ Hdata),
            (dict_set_same section _ _ Hsec). reflexivity.
Qed.

Lemma list_at_put_list (key k : string) (l : list json) (d : dict) :
  k <> key -> list_at (put_list key l d) k = list_at d k.
Proof.
  intros Hne. unfold list_at, put_list.
  destruct (dict_get key d) as [[| | | | |]|]; try reflexivity.
  rewrite dict_get_set. destruct (String.eqb_spec k key); [contradiction|reflexivity].
Qed.

Ltac migrate_step H :=
  erewrite (migrate_list_records (Catalogue.migrate_asset uuid4) (spec_assign_ids uuid4));
  [ | exact migrate_assets | reflexivity | reflexivity | reflexivity
    | repeat (rewrite list_at_put_list by discriminate); apply H; cbn; tauto ].

(** What [transform_old_data_format] does to a dictionary whose lists hold
    dictionaries. *)
Lemma transform_legacy (n : nat) (d : dict) (members : list dict)
      (assets : string -> list dict) :
  list_at d (member_key d) = map JDict members ->
  (forall s, In s asset_sections -> list_at d s = map JDict (assets s)) ->
  Catalogue.transform_old_data_format uuid4 n (JDict d) =
  mkMigration
    (JDict (spec_old_data_after d (migrated_family uuid4 n members)
                                (migrated_assets uuid4 n members assets)))
    (drawn_after n members assets)
    (Ok (JDict (spec_filled_store (migrated_family uuid4 n members)
                                  (migrated_assets uuid4 n members assets)))).
Proof.
  intros Hm Ha.
  unfold Catalogue.transform_old_data_format. cbn [py_in].
  fold (member_key d).
  erewrite (migrate_list_records (Catalogue.migrate_member uuid4) (migrated_family uuid4));
    [ | exact migrate_members | reflexivity | reflexivity | reflexivity | exact Hm ].
  unfold spec_old_data_after, drawn_after, migrated_assets.
  assert (Hk : member_key d = "members" \/ member_key d = "family_info").
  { unfold member_key. destruct (dict_has "members" d); auto. }
  cbn [dict_keys map initialize_data_structures fst fold_left asset_sections tl
       String.eqb Ascii.eqb Bool.eqb].
  destruct Hk as [-> | ->];
    repeat (migrate_step Ha); reflexivity.
Qed.

End Migration.

Lemma spec_assign_id_kept (fresh : string) (r : dict) :
  dict_has "id" r = true -> spec_assign_id fresh r = r.
Proof. unfold spec_assign_id. now intros ->. Qed.

Lemma nth_error_assign_ids (uuid4 : nat -> string) (rs : list dict) :
  forall n i r,
    nth_error rs i = Some r ->
    nth_error (spec_assign_ids uuid4 n rs) i =
    Some (spec_assign_id (uuid4 (n + lacking_id (firstn i rs))) r).
Proof.
  induction rs as [|r0 rs IH]; intros n i r; [destruct i; discriminate|].
  destruct i as [|i]; cbn [nth_error firstn spec_assign_ids].
  - intros [= ->]. cbn [lacking_id filter List.length]. rewrite Nat.add_0_r.
    destruct (dict_has "id" r) eqn:E; cbn [nth_error]; [|reflexivity].
    now rewrite spec_assign_id_kept.
  - intros H. unfold lacking_id. cbn [filter].
    destruct (dict_has "id" r0) eqn:E; cbn [negb nth_error List.length].
    + now apply IH.
    + rewrite (IH (S n) i r H). unfold lacking_id. now rewrite Nat.add_succ_r.
Qed.

Lemma spec_assign_id_get (fresh k : string) (r : dict) :
  dict_get k (spec_assign_id fresh r) =
  if String.eqb k "id"
  then match dict_get "id" r with
       | Some v => Some v
       | None => Some (JStr fresh)
       end
  else dict_get k r.
Proof.
  unfold spec_assign_id, dict_has.
  destruct (String.eqb_spec k "id") as [->|Hne].
  - destruct (dict_get "id" r) eqn:E; [exact E|].
    rewrite dict_get_app, E. reflexivity.
  - destruct (dict_get "id" r) eqn:E; [reflexivity|].
    rewrite dict_get_app. destruct (dict_get k r); [reflexivity|].
    simpl. destruct (String.eqb_spec k "id"); [contradiction|reflexivity].
Qed.

Lemma spec_rename_name_get_other (k : string) (r : dict) :
  k <> "name" -> k <> "Name" ->
  dict_get k (spec_rename_name r) = dict_get k r.
Proof.
  intros H1 H2. unfold spec_rename_name, dict_has.
  destruct (dict_get "name" r) as [v|]; [|reflexivity].
  destruct (dict_get "Name" r); [reflexivity|].
  rewrite dict_get_app, dict_get_pop_other by assumption.
  destruct (dict_get k r); [reflexivity|].
  simpl. destruct (String.eqb_spec k "Name"); [contradiction|reflexivity].
Qed.

Lemma spec_rename_name_renames (r : dict) (v : json) :
  NoDup (dict_keys r) ->
  dict_get "name" r = Some v -> dict_get "Name" r = None ->
  dict_get "Name" (spec_rename_name r) = Some v /\
  dict_get "name" (spec_rename_name r) = None.
Proof.
  intros Hnd En EN. unfold spec_rename_name, dict_has. rewrite En, EN.
  rewrite !dict_get_app, dict_get_pop_same by assumption.
  rewrite dict_get_pop_other, EN by discriminate. split; reflexivity.
Qed.

Lemma dict_keys_app (d e : dict) :
  dict_keys (d ++ e)%list = (dict_keys d ++ dict_keys e)%list.
Proof. apply map_app. Qed.

Lemma NoDup_snoc {A} (l : list A) (x : A) :
  NoDup l -> ~ In x l -> NoDup (l ++ [x])%list.
Proof.
  induction 1 as [|y l Hy Hl IH]; intros Hx; simpl.
  - constructor; [intros []|constructor].
  - constructor.
    + rewrite in_app_iff. intros [H|[H|[]]]; [contradiction|].
      apply Hx. now left.
    + apply IH. intros H. apply Hx. now right.
Qed.

Lemma spec_assign_id_nodup (fresh : string) (r : dict) :
  NoDup (dict_keys r) -> NoDup (dict_keys (spec_assign_id fresh r)).
Proof.
  intros Hnd. unfold spec_assign_id, dict_has.
  destruct (dict_get "id" r) eqn:E; [exact Hnd|].
  rewrite dict_keys_app. apply NoDup_snoc; [exact Hnd|].
  now apply dict_get_notin.
Qed.

Lemma records_of_filled (family : list dict) (data : string -> list dict) :
  records_of (JDict (spec_filled_store family data)) "family_info"
  = Some (map JDict family) /\
  forall s, In s asset_sections ->
            records_of (JDict (spec_filled_store family data)) s
            = Some (map JDict (data s)).
Proof.
  split; [reflexivity|].
  intros s Hs. cbn in Hs.
  repeat (destruct Hs as [<-|Hs]; [reflexivity|]). contradiction.
Qed.


Lemma legacy_assets_lists :
  forall s, In s asset_sections -> list_at legacy_doc s = map JDict (legacy_assets s).
Proof.
  intros s Hs. cbn in Hs.
  repeat (destruct Hs as [<-|Hs]; [reflexivity|]). contradiction.
Qed.



(** ** What migration does to the document it is given *)

Lemma dict_keys_put_list (key : string) (l : list json) (d : dict) :
  dict_keys (put_list key l d) = dict_keys d.
Proof.
  unfold put_list. destruct (dict_get key d) as [[| | | |l'|]|] eqn:E; try reflexivity.
  now apply dict_keys_set with (w := JList l').
Qed.

Lemma dict_get_put_list_other (key k : string) (l : list json) (d : dict) :
  k <> key -> dict_get k (put_list key l d) = dict_get k d.
Proof.
  intros Hne. unfold put_list.
  destruct (dict_get key d) as [[| | | | |]|]; try reflexivity.
  rewrite dict_get_set. destruct (String.eqb_spec k key); [contradiction|reflexivity].
Qed.

Lemma list_at_put_list_same (key : string) (l : list json) (d : dict) :
  list_at (put_list key l d) key =
  match dict_get key d with
  | Some (JList _) => l
  | _ => []
  end.
Proof.
  unfold list_at, put_list.
  destruct (dict_get key d) as [[| | | |l'|]|] eqn:E; rewrite ?E; try reflexivity.
  rewrite dict_get_set, String.eqb_refl. reflexivity.
Qed.

Lemma list_at_replaced (key : string) (d : dict) (rs out : list dict) :
  list_at d key = map JDict rs ->
  (rs = [] -> out = []) ->
  match dict_get key d with
  | Some (JList _) => map JDict out
  | _ => []
  end = map JDict out.
Proof.
  unfold list_at. intros Hl Hnil.
  destruct (dict_get key d) as [[| | | | |]|]; try reflexivity;
    destruct rs; try discriminate; now rewrite Hnil.
Qed.

Lemma spec_old_data_after_unfold (d : dict) (family : list dict)
      (data : string -> list dict) :
  spec_old_data_after d family data =
  put_list "property" (map JDict (data "property"))
    (put_list "vehicle_details" (map JDict (data "vehicle_details"))
       (put_list "locker" (map JDict (data "locker"))
          (put_list "insurance" (map JDict (data "insurance"))
             (put_list "investments" (map JDict (data "investments"))
                (put_list "mutual_funds" (map JDict (data "mutual_funds"))
                   (put_list "demat_accounts" (map JDict (data "demat_accounts"))
                      (put_list "fixed_deposits" (map JDict (data "fixed_deposits"))
                         (put_list "bank_accounts" (map JDict (data "bank_accounts"))
                            (put_list (member_key d) (map JDict family) d))))))))).
Proof. reflexivity. Qed.

Lemma asset_sections_cases (P : string -> Prop) :
  P "bank_accounts" -> P "fixed_deposits" -> P "demat_accounts" ->
  P "mutual_funds" -> P "investments" -> P "insurance" -> P "locker" ->
  P "vehicle_details" -> P "property" ->
  forall s, In s asset_sections -> P s.
Proof.
  intros H1 H2 H3 H4 H5 H6 H7 H8 H9 s Hs.
  unfold asset_sections in Hs. simpl in Hs.
  repeat (destruct Hs as [<-|Hs]; [assumption|]). contradiction.
Qed.

Lemma member_key_cases (d : dict) :
  member_key d = "members" \/ member_key d = "family_info".
Proof. unfold member_key. destruct (dict_has "members" d); auto. Qed.

Ltac reach_list assets Ha Hdata :=
  repeat (rewrite list_at_put_list by discriminate);
  rewrite list_at_put_list_same;
  repeat (rewrite dict_get_put_list_other by discriminate);
  match goal with
  | |- match dict_get ?s _ with _ => _ end = _ =>
      apply list_at_replaced with (rs := assets s);
      [apply Ha; unfold asset_sections; simpl; tauto | apply Hdata]
  end.

Lemma old_data_after_lists (d : dict) (members family : list dict)
      (assets data : string -> list dict) :
  list_at d (member_key d) = map JDict members ->
  (members = [] -> family = []) ->
  (forall s, In s asset_sections -> list_at d s = map JDict (assets s)) ->
  (forall s, assets s = [] -> data s = []) ->
  dict_keys (spec_old_data_after d family data) = dict_keys d /\
  (forall k, k <> member_key d -> ~ In k asset_sections ->
             dict_get k (spec_old_data_after d family data) = dict_get k d) /\
  list_at (spec_old_data_after d family data) (member_key d) = map JDict family /\
  (forall s, In s asset_sections ->
             list_at (spec_old_data_after d family data) s = map JDict (data s)).
Proof.
  intros Hm Hfam Ha Hdata.
  rewrite spec_old_data_after_unfold.
  split; [|split; [|split]].
  - now rewrite !dict_keys_put_list.
  - intros k Hk1 Hk2.
    repeat (rewrite dict_get_put_list_other;
            [|first [exact Hk1
                    | intros ->; apply Hk2; unfold asset_sections; simpl; tauto]]).
    reflexivity.
  - destruct (member_key_cases d) as [E|E]; rewrite E in Hm |- *;
      repeat (rewrite list_at_put_list by discriminate);
      rewrite list_at_put_list_same;
      now apply list_at_replaced with (rs := members).
  - destruct (member_key_cases d) as [E|E]; rewrite E;
      apply asset_sections_cases; reach_list assets Ha Hdata.
Qed.

(** C5 (amended).  Migration builds a new store, but out of the records
    of the document it is given, which it changes in place: after it, the
    lists of the document hold the very records of the new store.  A
    source record that lacked an identifier has gained one, a source
    member record with [name] and no [Name] has had [name] renamed to
    [Name]; a record that already had an identifier and needed no
    renaming is unchanged, and so are the document's keys and its entries
    other than the member list and the asset lists. *)
Theorem migration_shares_records_with_source :
  forall (uuid4 : nat -> string) (n : nat) (d : dict) (members : list dict)
         (assets : string -> list dict),
    list_at d (member_key d) = map JDict members ->
    (forall s, In s asset_sections -> list_at d s = map JDict (assets s)) ->
    exists after store,
      old_data_after (Catalogue.transform_old_data_format uuid4 n (JDict d)) = JDict after /\
      new_store (Catalogue.transform_old_data_format uuid4 n (JDict d)) = Ok store /\
      dict_keys after = dict_keys d /\
      (forall k, k <> member_key d -> ~ In k asset_sections ->
                 dict_get k after = dict_get k d) /\
      records_of store "family_info" = Some (list_at after (member_key d)) /\
      (forall s, In s asset_sections -> records_of store s = Some (list_at after s)) /\
      (forall i r,
          nth_error members i = Some r ->
          dict_has "id" r = true ->
          dict_get "name" r = None \/ dict_get "Name" r <> None ->
          nth_error (list_at after (member_key d)) i = Some (JDict r)) /\
      (forall s i r,
          In s asset_sections ->
          nth_error (assets s) i = Some r ->
          dict_has "id" r = true ->
          nth_error (list_at after s) i = Some (JDict r)) /\
      list_at after (member_key d) = map JDict (migrated_family uuid4 n members) /\
      (forall s, In s asset_sections ->
                 list_at after s = map JDict (migrated_assets uuid4 n members assets s)) /\
      (forall i r,
          nth_error members i = Some r ->
          exists r',
            nth_error (list_at after (member_key d)) i = Some (JDict r') /\
            (dict_get "id" r = None ->
             dict_get "id" r'
             = Some (JStr (uuid4 (n + lacking_id (firstn i members)))) /\ r' <> r) /\
            (forall v, NoDup (dict_keys r) ->
                       dict_get "name" r = Some v -> dict_get "Name" r = None ->
                       dict_get "Name" r' = Some v /\ dict_get "name" r' = None /\
                       r' <> r)) /\
      (forall s i r,
          In s asset_sections ->
          nth_error (assets s) i = Some r ->
          dict_get "id" r = None ->
          exists r',
            nth_error (list_at after s) i = Some (JDict r') /\
            dict_get "id" r'
            = Some (JStr (uuid4 (ids_before assets asset_sections s (n + lacking_id members)
                                 + lacking_id (firstn i (assets s))))) /\
            (forall k, k <> "id" -> dict_get k r' = dict_get k r) /\
            r' <> r).
Proof.
  intros uuid4 n d members assets Hm Ha.
  rewrite (transform_legacy uuid4 n d members assets Hm Ha).
  cbn [old_data_after new_store].
  destruct (old_data_after_lists d members (migrated_family uuid4 n members)
              assets (migrated_assets uuid4 n members assets) Hm)
    as [Hkeys [Hother [Hfam Hassets]]].
  { now intros ->. }
  { exact Ha. }
  { intros s E. unfold migrated_assets. now rewrite E. }
  destruct (records_of_filled (migrated_family uuid4 n members)
                              (migrated_assets uuid4 n members assets)) as [Rf Rs].
  do 2 eexists. split; [reflexivity|]. split; [reflexivity|].
  split; [exact Hkeys|]. split; [exact Hother|].
  split; [now rewrite Hfam|].
  split; [intros s Hs; now rewrite Hassets, Rs|].
  split; [|split; [|split; [exact Hfam|split; [exact Hassets|split]]]].
  - intros i r Hnth Hid Hname. rewrite Hfam. unfold migrated_family.
    rewrite !nth_error_map, (nth_error_assign_ids uuid4 members n i r Hnth).
    cbn [option_map]. rewrite spec_assign_id_kept by assumption.
    now rewrite rename_name_kept.
  - intros s i r Hs Hnth Hid. rewrite Hassets by assumption.
    unfold migrated_assets.
    rewrite nth_error_map, (nth_error_assign_ids uuid4 _ _ i r Hnth).
    cbn [option_map]. now rewrite spec_assign_id_kept.
  - intros i r Hnth. eexists. split.
    + rewrite Hfam. unfold migrated_family.
      rewrite !nth_error_map, (nth_error_assign_ids uuid4 members n i r Hnth).
      cbn [option_map]. reflexivity.
    + split.
      * intros Hid.
        assert (Hg : dict_get "id"
                       (spec_rename_name
                          (spec_assign_id (uuid4 (n + lacking_id (firstn i members))) r))
                     = Some (JStr (uuid4 (n + lacking_id (firstn i members))))).
        { rewrite spec_rename_name_get_other by discriminate.
          rewrite spec_assign_id_get, Hid. reflexivity. }
        split; [exact Hg|]. intros E. rewrite E in Hg. congruence.
      * intros v Hnd En EN.
        destruct (spec_rename_name_renames
                    (spec_assign_id (uuid4 (n + lacking_id (firstn i members))) r) v)
          as [H1 H2].
        -- now apply spec_assign_id_nodup.
        -- rewrite spec_assign_id_get. exact En.
        -- rewrite spec_assign_id_get. exact EN.
        -- split; [exact H1|]. split; [exact H2|].
           intros E. rewrite E in H2. congruence.
  - intros s i r Hs Hnth Hid. eexists. split.
    + rewrite Hassets by assumption. unfold migrated_assets.
      rewrite nth_error_map, (nth_error_assign_ids uuid4 _ _ i r Hnth).
      cbn [option_map]. reflexivity.
    + assert (Hg : dict_get "id"
                     (spec_assign_id
                        (uuid4 (ids_before assets asset_sections s (n + lacking_id members)
                                + lacking_id (firstn i (assets s)))) r)
                   = Some (JStr (uuid4 (ids_before assets asset_sections s
                                          (n + lacking_id members)
                                        + lacking_id (firstn i (assets s)))))).
      { rewrite spec_assign_id_get, Hid. reflexivity. }
      split; [exact Hg|]. split.
      * intros k Hk. rewrite spec_assign_id_get.
        destruct (String.eqb_spec k "id"); [contradiction | reflexivity].
      * intros E. rewrite E in Hg. congruence.
Qed.

Lemma migration_shares_records_witness :
  exists after store,
    old_data_after (Catalogue.transform_old_data_format sample_uuid4 0 (JDict legacy_doc))
    = JDict after /\
    new_store (Catalogue.transform_old_data_format sample_uuid4 0 (JDict legacy_doc))
    = Ok store /\
    dict_get "note" after = Some (JStr "exported 2019") /\
    records_of store "family_info" = Some (list_at after "members") /\
    list_at legacy_doc "members"
    = [JDict [("name", JStr "Asha")]; JDict [("Name", JStr "Ravi"); ("id", JStr "m2")]] /\
    list_at after "members"
    = [JDict [("id", JStr "uuid-0"); ("Name", JStr "Asha")];
       JDict [("Name", JStr "Ravi"); ("id", JStr "m2")]] /\
    list_at legacy_doc "bank_accounts" = [JDict [("BANK NAME", JStr "SBI")]] /\
    list_at after "bank_accounts"
    = [JDict [("BANK NAME", JStr "SBI"); ("id", JStr "uuid-1")]].
Proof.
  destruct (migration_shares_records_with_source
              sample_uuid4 0 legacy_doc legacy_members legacy_assets
              eq_refl legacy_assets_lists)
    as [after [store [Hafter [Hstore [_ [Hother [Hfam [_ [_ [_ [Hmem [Hast _]]]]]]]]]]]].
  exists after, store.
  split; [exact Hafter|]. split; [exact Hstore|].
  split; [|split; [|split; [|split; [|split]]]].
  - rewrite Hother; [reflexivity | discriminate | cbn; intuition discriminate].
  - exact Hfam.
  - reflexivity.
  - exact Hmem.
  - reflexivity.
  - apply (Hast "bank_accounts"). cbn. tauto.
Defined.

(** C5 as stated fails: after migrating the document of the example, the
    member record of the document itself carries the new identifier and
    [Name] in place of [name]. *)
Lemma migration_mutates_source_record :
  old_data_after (Catalogue.transform_old_data_format sample_uuid4 0 (JDict asha_doc))
  = JDict [("members", JList [JDict [("id", JStr "uuid-0"); ("Name", JStr "Asha")]])] /\
  old_data_after (Catalogue.transform_old_data_format sample_uuid4 0 (JDict asha_doc))
  <> JDict asha_doc.
Proof. split; vm_compute; [reflexivity|discriminate]. Qed.

(** ** The JSON codec: decoding what the encoder wrote *)

Local Open Scope char_scope.
Local Open Scope list_scope.

Lemma scanstring_char (c : ascii) (rest : text) :
  scanstring (encode_char c ++ rest) =
  let? r := scanstring rest in Ok (String c (fst r), snd r).
Proof.
  destruct c as [[] [] [] [] [] [] [] []]; reflexivity.
Qed.

Lemma scanstring_encode (s : string) (rest : text) :
  scanstring (encode_chars s ++ dquote :: rest) = Ok (s, rest).
Proof.
  induction s as [|c s IH]; [reflexivity|].
  cbn [encode_chars]. rewrite <- app_assoc, scanstring_char, IH. reflexivity.
Qed.

Lemma skip_ws_spaces (k : nat) (t : text) :
  skip_ws (repeat " " k ++ t) = skip_ws t.
Proof. induction k as [|k IH]; [reflexivity|exact IH]. Qed.

Lemma skip_ws_nl (level : nat) (t : text) :
  skip_ws (nl level ++ t) = skip_ws t.
Proof. unfold nl. cbn [List.app skip_ws]. apply skip_ws_spaces. Qed.

Lemma skip_ws_head (c : ascii) (t : text) :
  is_ws c = false -> skip_ws (c :: t) = c :: t.
Proof. intros H. cbn [skip_ws]. now rewrite H. Qed.

(** Lengths of concatenations, for the fuel bounds. *)
Ltac lengths H :=
  repeat (rewrite ?length_app, ?length_cons in H);
  repeat (rewrite ?length_app, ?length_cons);
  lia.

(** *** Numbers *)

Lemma string_of_uint_digits (u : Decimal.uint) :
  list_ascii_of_string (NilEmpty.string_of_uint u) = digits_of u.
Proof. induction u; simpl; congruence. Qed.

Lemma digits_of_digits (u : Decimal.uint) :
  Forall (fun c => is_digit c = true) (digits_of u).
Proof. induction u; simpl; constructor; auto. Qed.

Lemma uint_of_digits_of (u : Decimal.uint) :
  uint_of_digits (digits_of u) = u.
Proof.
  unfold uint_of_digits.
  induction u; cbn [digits_of fold_right]; rewrite ?IHu; reflexivity.
Qed.

Lemma delimited_not_digit (rest : text) :
  delimited rest ->
  match rest with [] => True | c :: _ => is_digit c = false end.
Proof. destruct rest as [|c r]; [auto|]. intros [-> | ->]; reflexivity. Qed.

Lemma delimited_not_float (rest : text) :
  delimited rest -> float_follows rest = false.
Proof.
  destruct rest as [|c [|d r]]; try reflexivity.
  intros [-> | ->]; reflexivity.
Qed.

Lemma take_digits_app (ds rest : text) :
  Forall (fun c => is_digit c = true) ds ->
  match rest with [] => True | c :: _ => is_digit c = false end ->
  take_digits (ds ++ rest) = (ds, rest).
Proof.
  intros Hds Hrest. induction Hds as [|c ds Hc _ IH]; simpl.
  - destruct rest as [|c r]; [reflexivity|]. simpl. now rewrite Hrest.
  - now rewrite Hc, IH.
Qed.

Lemma int_digits_numeral (u : Decimal.uint) (rest : text) :
  no_leading_zero u ->
  match rest with [] => True | c :: _ => is_digit c = false end ->
  int_digits (digits_of u ++ rest) = Some (digits_of u, rest).
Proof.
  intros Hu Hrest.
  destruct u as [|u|u|u|u|u|u|u|u|u|u]; simpl in Hu; try contradiction;
    try (cbn [digits_of List.app int_digits]; cbn [Ascii.eqb Bool.eqb is_digit];
         simpl; rewrite (take_digits_app (digits_of u) rest (digits_of_digits u) Hrest);
         reflexivity).
  destruct u; try contradiction. reflexivity.
Qed.

Lemma nzhead_not_zero (d d' : Decimal.uint) : Decimal.nzhead d <> Decimal.D0 d'.
Proof. induction d; simpl; try discriminate. exact IHd. Qed.

Lemma to_uint_no_leading_zero (p : positive) : no_leading_zero (Pos.to_uint p).
Proof.
  assert (Hn : Decimal.unorm (Pos.to_uint p) = Pos.to_uint p).
  { rewrite <- (DecimalPos.Unsigned.to_of (Pos.to_uint p)).
    now rewrite DecimalPos.Unsigned.of_to. }
  assert (Hz := DecimalPos.Unsigned.to_uint_nonzero p).
  assert (Hnil := DecimalPos.Unsigned.to_uint_nonnil p).
  destruct (Pos.to_uint p) as [|u|u|u|u|u|u|u|u|u|u] eqn:E; simpl; auto.
  destruct u as [|u|u|u|u|u|u|u|u|u|u]; auto;
    unfold Decimal.unorm in Hn; cbn [Decimal.nzhead] in Hn; try discriminate.
  destruct (Decimal.nzhead u) eqn:E'; try discriminate.
  exact (nzhead_not_zero _ _ E').
Qed.

Lemma numeral_head (u : Decimal.uint) :
  no_leading_zero u ->
  exists c r, digits_of u = c :: r /\ is_digit c = true.
Proof.
  destruct u; simpl; try contradiction; intros _; eexists; eexists; split; reflexivity.
Qed.

Lemma text_of_Z_cases (n : Z) :
  exists u, no_leading_zero u /\
            ((text_of_Z n = digits_of u /\ Z.of_int (Decimal.Pos u) = n) \/
             (text_of_Z n = "-" :: digits_of u /\ Z.of_int (Decimal.Neg u) = n)).
Proof.
  unfold text_of_Z, str_of_Z.
  destruct n as [|p|p].
  - exists (Decimal.D0 Decimal.Nil). split; [exact I|]. left. split; reflexivity.
  - exists (Pos.to_uint p). split; [apply to_uint_no_leading_zero|]. left.
    split; [|exact (DecimalZ.of_to (Zpos p))].
    cbn [Z.to_int NilZero.string_of_int]. unfold NilZero.string_of_uint.
    assert (Hnil := DecimalPos.Unsigned.to_uint_nonnil p).
    destruct (Pos.to_uint p) eqn:E; try contradiction;
      rewrite <- E; apply string_of_uint_digits.
  - exists (Pos.to_uint p). split; [apply to_uint_no_leading_zero|]. right.
    split; [|exact (DecimalZ.of_to (Zneg p))].
    cbn [Z.to_int NilZero.string_of_int list_ascii_of_string].
    unfold NilZero.string_of_uint.
    assert (Hnil := DecimalPos.Unsigned.to_uint_nonnil p).
    destruct (Pos.to_uint p) eqn:E; try contradiction;
      rewrite <- E; f_equal; apply string_of_uint_digits.
Qed.

Lemma scan_number_numeral (n : Z) (rest : text) :
  delimited rest ->
  scan_number (text_of_Z n ++ rest) = Ok (JNum n, rest).
Proof.
  intros Hd.
  destruct (text_of_Z_cases n) as [u [Hu [[-> Hn] | [-> Hn]]]];
    destruct (numeral_head u Hu) as [c [r [Ec Hc]]].
  - unfold scan_number. rewrite Ec. cbn [List.app].
    assert (Hminus : Ascii.eqb c "-" = false).
    { destruct (Ascii.eqb_spec c "-") as [->|]; [discriminate|reflexivity]. }
    rewrite Hminus. cbv beta iota.
    change (c :: r ++ rest) with ((c :: r) ++ rest). rewrite <- Ec.
    rewrite (int_digits_numeral u rest Hu (delimited_not_digit rest Hd)).
    rewrite (delimited_not_float rest Hd), uint_of_digits_of, Hn. reflexivity.
  - unfold scan_number. cbn [List.app]. rewrite Ascii.eqb_refl. cbv beta iota.
    rewrite (int_digits_numeral u rest Hu (delimited_not_digit rest Hd)).
    rewrite (delimited_not_float rest Hd), uint_of_digits_of, Hn. reflexivity.
Qed.

(** *** Structure *)

Lemma json_rect' (P : json -> Prop) :
  P JNull -> (forall b, P (JBool b)) -> (forall n, P (JNum n)) ->
  (forall s, P (JStr s)) ->
  (forall l, Forall P l -> P (JList l)) ->
  (forall d, Forall (fun kv => P (snd kv)) d -> P (JDict d)) ->
  forall v, P v.
Proof.
  intros Hnull Hbool Hnum Hstr Hlist Hdict.
  fix IH 1. intros [| b | n | s | l | d].
  - exact Hnull.
  - apply Hbool.
  - apply Hnum.
  - apply Hstr.
  - apply Hlist. induction l as [|x l IHl]; constructor; [apply IH | exact IHl].
  - apply Hdict. induction d as [|[k x] d IHd]; constructor; [apply IH | exact IHd].
Qed.

Lemma dump_head (level : nat) (v : json) :
  exists c r, dump level v = c :: r /\ opens_value c.
Proof.
  destruct v as [| [] | n | s | [|x l] | [|kv d]];
    try (eexists; eexists; split; [reflexivity | repeat split; reflexivity]).
  change (dump level (JNum n)) with (text_of_Z n).
  destruct (text_of_Z_cases n) as [u [Hu [[-> _] | [-> _]]]].
  - destruct (numeral_head u Hu) as [c [r [-> Hc]]].
    exists c, r. split; [reflexivity|].
    destruct c as [[] [] [] [] [] [] [] []]; try discriminate; repeat split; reflexivity.
  - eexists; eexists; split; [reflexivity | repeat split; reflexivity].
Qed.

Lemma skip_ws_dump (level : nat) (v : json) (rest : text) :
  skip_ws (dump level v ++ rest) = dump level v ++ rest.
Proof.
  destruct (dump_head level v) as [c [r [-> [Hws _]]]].
  cbn [List.app]. now apply skip_ws_head.
Qed.

Lemma delimited_nl (level : nat) (t : text) : delimited (nl level ++ t).
Proof. right. reflexivity. Qed.

Lemma delimited_comma (t : text) : delimited ("," :: t).
Proof. left. reflexivity. Qed.

Lemma join_text_cons (sep x y : text) (l : list text) :
  join_text sep (x :: y :: l) = x ++ sep ++ join_text sep (y :: l).
Proof. reflexivity. Qed.

Lemma skip_ws_items (level : nat) (y : json) (l : list json) (t : text) :
  skip_ws (items_text level (y :: l) ++ t) = items_text level (y :: l) ++ t.
Proof.
  unfold items_text. destruct l as [|z l]; cbn [map].
  - apply skip_ws_dump.
  - rewrite join_text_cons, <- app_assoc. apply skip_ws_dump.
Qed.

Lemma items_text_nonempty (level : nat) (x : json) (l : list json) (t : text) :
  1 <= List.length (items_text level (x :: l) ++ t).
Proof.
  unfold items_text. destruct (dump_head (S level) x) as [c [r [E _]]].
  destruct l as [|y l]; cbn [map]; [|rewrite join_text_cons];
    cbn [join_text]; rewrite E; cbn; lia.
Qed.

Lemma scan_items_dump (f level : nat) (rest : text) (l : list json) :
  forall x n,
    Forall decodes (x :: l) ->
    List.length (items_text level (x :: l) ++ nl level ++ "]" :: rest) <= n ->
    n <= f ->
    scan_items (scan_once f) n (items_text level (x :: l) ++ nl level ++ "]" :: rest)
    = Ok (x :: l, rest).
Proof.
  induction l as [|y l IH]; intros x n Hall Hlen Hf.
  - inversion Hall as [|? ? Hx _]; subst.
    destruct n as [|n]; [pose proof (items_text_nonempty level x [] (nl level ++ "]" :: rest)); lia|].
    unfold items_text in *. cbn [map join_text] in *.
    cbn [scan_items].
    rewrite (Hx (S level) (nl level ++ "]" :: rest) f (delimited_nl _ _)) by lia.
    cbn [rbind fst snd]. rewrite skip_ws_nl.
    rewrite skip_ws_head by reflexivity. reflexivity.
  - inversion Hall as [|? ? Hx Hrest]; subst.
    destruct n as [|n]; [pose proof (items_text_nonempty level x (y :: l) (nl level ++ "]" :: rest)); lia|].
    assert (E : items_text level (x :: y :: l) ++ nl level ++ "]" :: rest
                = dump (S level) x ++ "," :: nl (S level)
                    ++ items_text level (y :: l) ++ nl level ++ "]" :: rest).
    { unfold items_text. cbn [map]. rewrite join_text_cons.
      rewrite <- !app_assoc. reflexivity. }
    rewrite E in *. clear E.
    cbn [scan_items].
    rewrite (Hx (S level) _ f (delimited_comma _)) by lia.
    cbn [rbind fst snd]. rewrite skip_ws_head by reflexivity.
    cbn [Ascii.eqb Bool.eqb]. cbv beta iota.
    rewrite skip_ws_nl, skip_ws_items.
    rewrite (IH y n Hrest).
    + reflexivity.
    + lengths Hlen.
    + lia.
Qed.

Lemma skip_ws_pairs (level : nat) (kv : string * json) (d : dict) (t : text) :
  pairs_text level (kv :: d) ++ t
  = dquote :: encode_chars (fst kv)
      ++ dquote :: ":" :: " " :: dump (S level) (snd kv)
      ++ match d with
         | [] => t
         | kv' :: d' => "," :: nl (S level) ++ pairs_text level (kv' :: d') ++ t
         end.
Proof.
  unfold pairs_text, pair_text, encode_str.
  destruct d as [|kv' d']; cbn [map]; [|rewrite join_text_cons];
    cbn [join_text List.app]; repeat (rewrite <- app_assoc; cbn [List.app]);
    reflexivity.
Qed.

Lemma scan_pairs_dump (f level : nat) (rest : text) (d : dict) :
  forall kv n,
    Forall (fun kv => decodes (snd kv)) (kv :: d) ->
    List.length (pairs_text level (kv :: d) ++ nl level ++ "}" :: rest) <= n ->
    n <= f ->
    scan_pairs (scan_once f) n (pairs_text level (kv :: d) ++ nl level ++ "}" :: rest)
    = Ok (kv :: d, rest).
Proof.
  induction d as [|kv' d IH]; intros [k v] n Hall Hlen Hf;
    inversion Hall as [|? ? Hv Hrest]; subst; cbn [snd] in Hv;
    rewrite skip_ws_pairs in *; cbn [fst snd] in *;
    (destruct n as [|n]; [lengths Hlen|]);
    cbn [scan_pairs]; rewrite Ascii.eqb_refl, scanstring_encode;
    cbn [rbind fst snd]; rewrite skip_ws_head by reflexivity;
    cbn [Ascii.eqb Bool.eqb]; cbv beta iota;
    change (skip_ws (" " :: ?t)) with (skip_ws t);
    rewrite skip_ws_dump.
  - rewrite (Hv (S level) (nl level ++ "}" :: rest) f (delimited_nl _ _))
      by lengths Hlen.
    cbn [rbind fst snd]. rewrite skip_ws_nl.
    rewrite skip_ws_head by reflexivity. reflexivity.
  - rewrite (Hv (S level) _ f (delimited_comma _)) by lengths Hlen.
    cbn [rbind fst snd]. rewrite skip_ws_head by reflexivity.
    cbn [Ascii.eqb Bool.eqb]. cbv beta iota. rewrite skip_ws_nl.
    assert (Hq : forall t, skip_ws (pairs_text level (kv' :: d) ++ t)
                           = pairs_text level (kv' :: d) ++ t).
    { intros t. rewrite skip_ws_pairs. apply skip_ws_head. reflexivity. }
    rewrite Hq, (IH kv' n Hrest); [reflexivity | lengths Hlen | lia].
Qed.

Lemma unique_cons (k : string) (ks : list string) :
  unique (k :: ks) = true -> ~ In k ks /\ unique ks = true.
Proof.
  cbn [unique]. rewrite andb_true_iff, negb_true_iff. intros [Hk Hu]. split; [|exact Hu].
  intros Hin. assert (existsb (String.eqb k) ks = true).
  { apply existsb_exists. exists k. split; [exact Hin|apply String.eqb_refl]. }
  congruence.
Qed.

Lemma unique_NoDup (ks : list string) : unique ks = true -> NoDup ks.
Proof.
  induction ks as [|k ks IH]; intros H; [constructor|].
  apply unique_cons in H as [Hk Hu]. constructor; auto.
Qed.

Lemma fold_dict_set_fresh (pairs acc : dict) :
  NoDup (dict_keys pairs) ->
  (forall k, In k (dict_keys pairs) -> dict_get k acc = None) ->
  fold_left (fun a kv => dict_set (fst kv) (snd kv) a) pairs acc = acc ++ pairs.
Proof.
  revert acc. induction pairs as [|[k v] pairs IH]; intros acc Hnd Hfresh.
  - cbn. now rewrite app_nil_r.
  - cbn [fold_left fst snd]. inversion Hnd as [|? ? Hk Hnd']; subst.
    rewrite dict_set_absent by (apply Hfresh; now left).
    rewrite IH; [now rewrite <- app_assoc | exact Hnd' |].
    intros k' Hin. rewrite dict_get_app, Hfresh by (now right).
    cbn. destruct (String.eqb_spec k' k) as [->|]; [contradiction|reflexivity].
Qed.

Lemma dict_of_pairs_unique (d : dict) :
  unique (dict_keys d) = true -> dict_of_pairs d = d.
Proof.
  intros H. unfold dict_of_pairs.
  rewrite fold_dict_set_fresh; [reflexivity | now apply unique_NoDup | reflexivity].
Qed.

Lemma scan_once_number (f : nat) (c : ascii) (t : text) :
  is_digit c = true \/ c = "-" ->
  scan_once (S f) (c :: t) = scan_number (c :: t).
Proof.
  intros H.
  destruct c as [[] [] [] [] [] [] [] []];
    first [reflexivity | exfalso; destruct H as [H|H]; discriminate].
Qed.

Lemma scan_once_numeral (f : nat) (n : Z) (rest : text) :
  delimited rest ->
  scan_once (S f) (text_of_Z n ++ rest) = Ok (JNum n, rest).
Proof.
  intros Hd. rewrite <- (scan_number_numeral n rest Hd).
  destruct (text_of_Z_cases n) as [u [Hu [[-> _] | [-> _]]]].
  - destruct (numeral_head u Hu) as [c [r [-> Hc]]]. cbn [List.app].
    apply scan_once_number. now left.
  - cbn [List.app]. apply scan_once_number. now right.
Qed.

Lemma forallb_Forall_wf (l : list json) :
  forallb well_formed l = true ->
  Forall (fun v => well_formed v = true -> decodes v) l ->
  Forall decodes l.
Proof.
  intros Hwf Hall. induction Hall as [|x l Hx _ IH]; [constructor|].
  cbn [forallb] in Hwf. apply andb_true_iff in Hwf as [H1 H2].
  constructor; auto.
Qed.

(** Every well-formed value is read back from its encoding, whatever the
    indentation level and whatever delimiter follows. *)
Lemma scan_once_dump (v : json) : well_formed v = true -> decodes v.
Proof.
  induction v as [| b | n | s | l IH | d IH] using json_rect';
    intros Hwf level rest fuel Hd Hlen.
  - destruct fuel; [cbn in Hlen; lia | reflexivity].
  - destruct fuel; [destruct b; cbn in Hlen; lia | destruct b; reflexivity].
  - change (dump level (JNum n)) with (text_of_Z n) in *.
    destruct fuel as [|f].
    + destruct (dump_head level (JNum n)) as [c [r [E _]]].
      change (dump level (JNum n)) with (text_of_Z n) in E. rewrite E in Hlen.
      cbn in Hlen. lia.
    + now apply scan_once_numeral.
  - destruct fuel as [|f]; [cbn in Hlen; lia|].
    cbn [dump encode_str List.app scan_once]. rewrite Ascii.eqb_refl.
    rewrite <- app_assoc. cbn [List.app]. rewrite scanstring_encode. reflexivity.
  - destruct l as [|x l].
    + destruct fuel; [cbn in Hlen; lia | reflexivity].
    + destruct fuel as [|f]; [cbn in Hlen; lia|].
      cbn [well_formed] in Hwf.
      assert (Hall := forallb_Forall_wf _ Hwf IH).
      change (dump level (JList (x :: l)))
        with ("[" :: nl (S level) ++ items_text level (x :: l) ++ nl level ++ ["]"]) in *.
      cbn [List.app scan_once]. cbn [Ascii.eqb Bool.eqb]. cbv beta iota.
      change (Ascii.eqb "[" dquote) with false. cbv beta iota.
      rewrite <- !app_assoc. cbn [List.app].
      rewrite skip_ws_nl, skip_ws_items.
      destruct (dump_head (S level) x) as [c [r [E [_ [Hc _]]]]].
      assert (E' : exists r', items_text level (x :: l) ++ nl level ++ "]" :: rest = c :: r').
      { unfold items_text. destruct l; cbn [map]; [|rewrite join_text_cons];
          cbn [join_text]; rewrite E; cbn [List.app]; eexists; reflexivity. }
      destruct E' as [r' E']. rewrite E'. rewrite Hc. rewrite <- E'.
      rewrite (scan_items_dump f level rest l x f Hall).
      * reflexivity.
      * lengths Hlen.
      * lia.
  - destruct d as [|kv d].
    + destruct fuel; [cbn in Hlen; lia | reflexivity].
    + destruct fuel as [|f]; [cbn in Hlen; lia|].
      cbn [well_formed] in Hwf. apply andb_true_iff in Hwf as [Hu Hwf].
      assert (Hall : Forall (fun kv => decodes (snd kv)) (kv :: d)).
      { clear - Hwf IH. induction IH as [|y l Hy _ IHl]; [constructor|].
        cbn [forallb] in Hwf. apply andb_true_iff in Hwf as [H1 H2].
        constructor; auto. }
      change (dump level (JDict (kv :: d)))
        with ("{" :: nl (S level) ++ pairs_text level (kv :: d) ++ nl level ++ ["}"]) in *.
      cbn [List.app scan_once]. cbn [Ascii.eqb Bool.eqb]. cbv beta iota.
      change (Ascii.eqb "{" dquote) with false. cbv beta iota.
      rewrite <- !app_assoc. cbn [List.app].
      rewrite skip_ws_nl.
      assert (E' : exists r', pairs_text level (kv :: d) ++ nl level ++ "}" :: rest
                              = dquote :: r').
      { rewrite skip_ws_pairs. eexists. reflexivity. }
      destruct E' as [r' E']. rewrite E'.
      rewrite skip_ws_head by reflexivity.
      change (Ascii.eqb dquote "}") with false. cbv beta iota. rewrite <- E'.
      rewrite (scan_pairs_dump f level rest d kv f Hall).
      * cbn [rbind fst snd]. now rewrite dict_of_pairs_unique.
      * lengths Hlen.
      * lia.
Qed.

(** The round trip of the persistence codec: what [json.dump] writes for
    a well-formed value, [json.load] reads back as that value. *)
Lemma json_loads_dumps (v : json) :
  well_formed v = true -> json_loads (json_dumps v) = Ok v.
Proof.
  intros Hwf. unfold json_loads, json_dumps.
  rewrite list_ascii_of_string_of_list_ascii.
  rewrite <- (app_nil_r (dump 0 v)) at 2. rewrite skip_ws_dump.
  rewrite (scan_once_dump v Hwf 0 [] _ I); [reflexivity|].
  rewrite app_nil_r. lia.
Qed.

Local Close Scope char_scope.
Local Open Scope string_scope.

(** ** Loading and saving *)

Local Open Scope list_scope.

Lemma for_each_reads {A} (body : A -> M unit) (l : list A) (st : app) :
  (forall x st', snd (body x st') = st') ->
  snd (for_each body l st) = st.
Proof.
  intros Hbody. revert st. induction l as [|x l IH]; intros st; [reflexivity|].
  cbn [for_each]. unfold bind. specialize (Hbody x st).
  destruct (body x st) as [[u|e] st']; cbn [snd] in Hbody; subst; [apply IH|reflexivity].
Qed.

Lemma refresh_all_views_reads (refresh : json -> string -> json -> result unit)
      (selected : option string) (st : app) :
  snd (Basic.refresh_all_views refresh selected st) = st.
Proof.
  unfold Basic.refresh_all_views, bind, get_store.
  destruct (data_store st); try reflexivity.
  pose proof (for_each_reads
                (fun section => if has_treeview section
                                then Basic.filter_treeview refresh section
                                else ret tt)
                (dict_keys d) st) as H.
  destruct (for_each _ (dict_keys d) st) as [[u|e] st'] eqn:E; cbn [snd] in H.
  - rewrite H; [reflexivity|]. intros x st0. destruct (has_treeview x); reflexivity.
  - rewrite H; [reflexivity|]. intros x st0. destruct (has_treeview x); reflexivity.
Qed.

Lemma catalogue_refresh_all_views_reads (refresh : json -> string -> result unit)
      (selected : option string) (st : app) :
  snd (Catalogue.refresh_all_views refresh selected st) = st.
Proof.
  unfold Catalogue.refresh_all_views, bind, get_store.
  destruct (data_store st); try reflexivity.
  pose proof (for_each_reads
                (fun section => if has_treeview section
                                then fun st => (refresh (data_store st) section, st)
                                else ret tt)
                (dict_keys d) st) as H.
  destruct (for_each _ (dict_keys d) st) as [[u|e] st'] eqn:E; cbn [snd] in H.
  - rewrite H; [reflexivity|]. intros x st0. destruct (has_treeview x); reflexivity.
  - rewrite H; [reflexivity|]. intros x st0. destruct (has_treeview x); reflexivity.
Qed.

(** The basic load of a document that passes the format test. *)
Lemma basic_load_current_format
      (refresh : json -> string -> json -> result unit)
      (path : string) (d : dict) (fi : json) (confirm : bool)
      (selected : option string) (st : app) :
  dict_get "family_info" d = Some fi ->
  py_in (JStr "columns") fi = Ok true ->
  Basic.load_document refresh path (Ok (JDict d)) confirm selected st =
  match fst (Basic.refresh_all_views refresh selected (adopting st d)) with
  | Ok _ =>
      (Ok tt,
       mkApp (JDict (dict_update initialize_data_structures d)) (Some path)
             (search_vars st) (uuid_calls st)
             (dialogs st ++ [showinfo "Success"]) (disk st))
  | Raise e =>
      (show (showerror "Load Error" (Some e)) ;;;
       Basic.new_file refresh confirm selected) (adopting st d)
  end.
Proof.
  intros Hfi Hcols.
  unfold Basic.load_document, try_except.
  unfold bind at 1. unfold lift at 1.
  unfold bind at 1. unfold lift at 1. cbn [py_in]. unfold dict_has. rewrite Hfi.
  cbn [negb]. unfold bind at 1. unfold bind at 1. unfold lift at 1.
  cbn [py_getitem]. rewrite Hfi.
  unfold bind at 1. unfold lift at 1. rewrite Hcols. unfold ret at 1. cbn [negb].
  unfold bind at 1. unfold put_store at 1.
  unfold bind at 1. unfold put_store at 1. cbn [data_store current_file_path search_vars
                                                  uuid_calls dialogs disk].
  fold (adopting st d).
  unfold bind at 1.
  pose proof (refresh_all_views_reads refresh selected (adopting st d)) as Hr.
  destruct (Basic.refresh_all_views refresh selected (adopting st d)) as [[u|e] st'];
    cbn [snd fst] in *; subst st'; reflexivity.
Qed.

(** The basic load of a document that fails the format test. *)
Lemma basic_load_unrecognized
      (refresh : json -> string -> json -> result unit)
      (path : string) (doc : json) (confirm : bool)
      (selected : option string) (st : app) :
  Catalogue.is_new_format doc = Ok false ->
  Basic.load_document refresh path (Ok doc) confirm selected st =
  (show (showerror "Load Error" (Some (ValueError "Unrecognized data format."))) ;;;
   Basic.new_file refresh confirm selected) st.
Proof.
  unfold Catalogue.is_new_format. intros H.
  unfold Basic.load_document, try_except.
  unfold bind at 1. unfold lift at 1.
  unfold bind at 1. unfold lift at 1.
  destruct (py_in (JStr "family_info") doc) as [[|]|e]; cbn [rbind] in H;
    try discriminate; cbn [negb].
  - unfold bind at 1. unfold bind at 1. unfold lift at 1.
    destruct (py_getitem doc "family_info") as [fi|e]; cbn [rbind] in H;
      try discriminate.
    unfold bind at 1. unfold lift at 1. rewrite H. reflexivity.
  - reflexivity.
Qed.

Lemma well_formed_keys (d : dict) :
  well_formed (JDict d) = true -> NoDup (dict_keys d).
Proof.
  cbn [well_formed]. intros H. apply andb_true_iff in H as [H _].
  now apply unique_NoDup.
Qed.

(** C8.  Saving the store and loading the file again, through the
    current-format branch of the basic variant, in whatever state the
    file is opened - the session that saved it, a later one, with any
    store at all: the text [json.dump] wrote decodes to the saved store,
    and the load adopts it over the default store, so that every category
    of the saved store comes back with the very same value - columns and
    records, every field of every record, [id] and [holders] included.
    Categories the saved store did not have are the declared defaults;
    nothing of the store held when the file is opened is left. *)
Theorem save_then_load_restores_store :
  forall (refresh : json -> string -> json -> result unit)
         (can_write : string -> bool) (path : string) (d : dict) (fi : json)
         (confirm : bool) (selected : option string) (st opened : app),
    path <> "" ->
    can_write path = true ->
    data_store st = JDict d ->
    well_formed (JDict d) = true ->
    dict_get "family_info" d = Some fi ->
    py_in (JStr "columns") fi = Ok true ->
    read_file opened path
    = read_file (snd (Basic._write_to_file can_write path st)) path ->
    fst (Basic.refresh_all_views refresh selected (adopting opened d)) = Ok tt ->
    exists text,
      read_file opened path = Some (Text text) /\
      json_loads text = Ok (JDict d) /\
      let loaded := snd (Basic.load_data_from_file refresh path (Ok text)
                           confirm selected opened) in
      data_store loaded = JDict (dict_update initialize_data_structures d) /\
      current_file_path loaded = Some path /\
      (forall k v, dict_get k d = Some v ->
                   dict_get k (dict_update initialize_data_structures d) = Some v) /\
      (forall k, dict_get k d = None ->
                 dict_get k (dict_update initialize_data_structures d)
                 = dict_get k initialize_data_structures).
Proof.
  intros refresh can_write path d fi confirm selected st opened Hpath Hw Hst Hwf Hfi Hcols
         Hfile Hviews.
  assert (Esaved : snd (Basic._write_to_file can_write path st) =
                   mkApp (JDict d) (current_file_path st) (search_vars st) (uuid_calls st)
                         (dialogs st ++ [showinfo "Success"])
                         ((path, Text (json_dumps (JDict d)))
                            :: filter (fun f => negb (String.eqb (fst f) path)) (disk st))).
  { unfold Basic._write_to_file, try_except, bind, get_store.
    rewrite Hw, Hst. unfold write_file, show. cbn. now rewrite Hst. }
  exists (json_dumps (JDict d)).
  split; [|split].
  - rewrite Hfile, Esaved. unfold read_file. cbn [disk find fst].
    now rewrite String.eqb_refl.
  - now apply json_loads_dumps.
  - cbv zeta. unfold Basic.load_data_from_file.
    destruct (String.eqb_spec path "") as [|_]; [contradiction|].
    cbn [rbind]. rewrite (json_loads_dumps _ Hwf).
    rewrite (basic_load_current_format refresh path d fi confirm selected opened Hfi Hcols).
    rewrite Hviews. cbn [snd data_store current_file_path].
    split; [reflexivity|]. split; [reflexivity|].
    pose proof (well_formed_keys d Hwf) as Hnd.
    split; intros k; [intros v Hk|intros Hk];
      rewrite (dict_update_get k _ d Hnd), Hk; reflexivity.
Qed.

Lemma sample_store_dict :
  sample_store =
  JDict (dict_update initialize_data_structures
           [("family_info",
             JDict [("columns", columns ["Name"; "Aadhar No."; "PAN no"; "Voter id no"]);
                    ("data", JList two_members)]);
            ("bank_accounts",
             JDict [("columns", columns ["Holders"; "Account Type"; "BANK NAME"; "ACCOUNT NO"]);
                    ("data", JList [JDict (account "a1" "1001" ["m1"; "m2"])])])]).
Proof. reflexivity. Qed.

Lemma save_then_load_witness :
  exists text,
    read_file (restarted (snd (Basic._write_to_file (fun _ => true) "wealth.json"
                                 (app_with sample_store)))) "wealth.json"
    = Some (Text text) /\
    json_loads text = Ok sample_store /\
    data_store (restarted (snd (Basic._write_to_file (fun _ => true) "wealth.json"
                                  (app_with sample_store))))
    = JDict initialize_data_structures /\
    data_store (snd (Basic.load_data_from_file tk_rows_ok "wealth.json" (Ok text) false None
                       (restarted (snd (Basic._write_to_file (fun _ => true) "wealth.json"
                                          (app_with sample_store))))))
    = sample_store.
Proof.
  destruct (save_then_load_restores_store
              tk_rows_ok (fun _ => true) "wealth.json"
              (dict_update initialize_data_structures
                 [("family_info",
                   JDict [("columns", columns ["Name"; "Aadhar No."; "PAN no"; "Voter id no"]);
                          ("data", JList two_members)]);
                  ("bank_accounts",
                   JDict [("columns", columns ["Holders"; "Account Type"; "BANK NAME"; "ACCOUNT NO"]);
                          ("data", JList [JDict (account "a1" "1001" ["m1"; "m2"])])])])
              (JDict [("columns", columns ["Name"; "Aadhar No."; "PAN no"; "Voter id no"]);
                      ("data", JList two_members)])
              false None (app_with sample_store)
              (restarted (snd (Basic._write_to_file (fun _ => true) "wealth.json"
                                 (app_with sample_store)))))
    as [text [Hread [Hloads Hloaded]]].
  - discriminate.
  - reflexivity.
  - reflexivity.
  - vm_compute. reflexivity.
  - reflexivity.
  - reflexivity.
  - reflexivity.
  - vm_compute. reflexivity.
  - exists text. split; [exact Hread|]. split; [exact Hloads|].
    split; [reflexivity|].
    cbv zeta in Hloaded. destruct Hloaded as [Hstore _].
    rewrite Hstore. vm_compute. reflexivity.
Defined.

(** ** The two loaders side by side *)

Lemma basic_load_test_raises
      (refresh : json -> string -> json -> result unit)
      (path : string) (doc : json) (e : exn) (confirm : bool)
      (selected : option string) (st : app) :
  Catalogue.is_new_format doc = Raise e ->
  Basic.load_document refresh path (Ok doc) confirm selected st =
  (show (showerror "Load Error" (Some e)) ;;;
   Basic.new_file refresh confirm selected) st.
Proof.
  unfold Catalogue.is_new_format. intros H.
  unfold Basic.load_document, try_except.
  unfold bind at 1. unfold lift at 1.
  unfold bind at 1. unfold lift at 1.
  destruct (py_in (JStr "family_info") doc) as [[|]|e']; cbn [rbind] in H;
    try discriminate; cbn [negb].
  - unfold bind at 1. unfold bind at 1. unfold lift at 1.
    destruct (py_getitem doc "family_info") as [fi|e']; cbn [rbind] in H.
    + unfold bind at 1. unfold lift at 1. rewrite H. reflexivity.
    + injection H as ->. reflexivity.
  - injection H as ->. reflexivity.
Qed.

Lemma new_file_dialogs (refresh : json -> string -> json -> result unit)
      (confirm : bool) (selected : option string) (st : app) :
  dialogs (snd (Basic.new_file refresh confirm selected st))
  = dialogs st ++ [askyesno "Confirm New" confirm].
Proof.
  unfold Basic.new_file. unfold bind at 1. unfold show at 1.
  destruct confirm; [|reflexivity].
  unfold bind at 1. unfold put_store at 1.
  cbn [data_store current_file_path search_vars uuid_calls dialogs disk].
  unfold bind at 1.
  match goal with
  | |- context [Basic.refresh_all_views refresh selected ?s] =>
      pose proof (refresh_all_views_reads refresh selected s) as Hr;
      destruct (Basic.refresh_all_views refresh selected s) as [[u|e] st'];
      cbn [snd] in Hr; subst st'; reflexivity
  end.
Qed.

Lemma new_file_store (refresh : json -> string -> json -> result unit)
      (confirm : bool) (selected : option string) (st : app) :
  data_store (snd (Basic.new_file refresh confirm selected st))
  = if confirm then JDict initialize_data_structures else data_store st.
Proof.
  unfold Basic.new_file. unfold bind at 1. unfold show at 1.
  destruct confirm; [|reflexivity].
  unfold bind at 1. unfold put_store at 1.
  cbn [data_store current_file_path search_vars uuid_calls dialogs disk].
  unfold bind at 1.
  match goal with
  | |- context [Basic.refresh_all_views refresh selected ?s] =>
      pose proof (refresh_all_views_reads refresh selected s) as Hr;
      destruct (Basic.refresh_all_views refresh selected s) as [[u|e] st'];
      cbn [snd] in Hr; subst st'; reflexivity
  end.
Qed.

(** A failed basic load ends with the question of [new_file]: the store
    is the default one when the user agrees and stays as it is when not. *)
Lemma basic_load_rejected
      (refresh : json -> string -> json -> result unit)
      (e : exn) (confirm : bool) (selected : option string) (st : app) :
  let st' := snd ((show (showerror "Load Error" (Some e)) ;;;
                   Basic.new_file refresh confirm selected) st) in
  dialogs st' = dialogs st ++ [showerror "Load Error" (Some e);
                               askyesno "Confirm New" confirm] /\
  data_store st' = if confirm then JDict initialize_data_structures else data_store st.
Proof.
  cbv zeta. unfold bind, show. cbn [fst snd].
  rewrite new_file_dialogs, new_file_store. cbn [dialogs data_store].
  now rewrite <- app_assoc.
Qed.

Lemma fill_missing_dict (d : dict) :
  Catalogue.fill_missing_sections (JDict d) = Ok (JDict (with_missing_sections d)).
Proof.
  unfold Catalogue.fill_missing_sections, with_missing_sections.
  generalize initialize_data_structures as l. intros l. revert d.
  induction l as [|sc l IH]; intros d; [reflexivity|].
  cbn [fold_left rbind py_in py_setitem].
  destruct (dict_has (fst sc) d); apply IH.
Qed.

Lemma fold_missing_get (l d : dict) (k : string) :
  NoDup (dict_keys l) ->
  dict_get k (fold_left (fun acc sc => if dict_has (fst sc) acc then acc
                                       else dict_set (fst sc) (snd sc) acc) l d)
  = match dict_get k d with
    | Some v => Some v
    | None => dict_get k l
    end.
Proof.
  revert d. induction l as [|[k1 v1] l IH]; intros d Hnd.
  - cbn. now destruct (dict_get k d).
  - inversion Hnd as [|? ? Hk Hnd']; subst. cbn [fold_left fst snd].
    rewrite (IH _ Hnd'). cbn [dict_get]. unfold dict_has.
    destruct (dict_get k1 d) as [w|] eqn:E1.
    + destruct (dict_get k d) eqn:E; [reflexivity|].
      destruct (String.eqb_spec k k1) as [->|]; [congruence|reflexivity].
    + rewrite dict_get_set.
      destruct (String.eqb_spec k k1) as [->|]; [now rewrite E1|].
      reflexivity.
Qed.

Lemma initial_keys_NoDup : NoDup (dict_keys initialize_data_structures).
Proof. apply unique_NoDup. reflexivity. Qed.

Lemma catalogue_load_current_format
      (uuid4 : nat -> string) (refresh : json -> string -> result unit)
      (path : string) (d : dict) (selected : option string) (st : app) :
  Catalogue.is_new_format (JDict d) = Ok true ->
  fst (Catalogue.refresh_all_views refresh selected (adopting_filled st d)) = Ok tt ->
  Catalogue.load_document uuid4 refresh path (Ok (JDict d)) selected st =
  (Ok tt,
   mkApp (JDict (with_missing_sections d)) (Some path) (search_vars st) (uuid_calls st)
         (dialogs st ++ [showinfo "Success"]) (disk st)).
Proof.
  intros Hnew Hviews.
  unfold Catalogue.load_document, try_except.
  unfold bind at 1. unfold lift at 1.
  unfold bind at 1. unfold lift at 1. rewrite Hnew.
  unfold bind at 1. unfold put_store at 1.
  unfold Catalogue.finish_load.
  unfold bind at 1. unfold get_store at 1. cbn [data_store].
  unfold bind at 1. unfold lift at 1. rewrite fill_missing_dict.
  unfold bind at 1. unfold put_store at 1.
  cbn [data_store current_file_path search_vars uuid_calls dialogs disk].
  fold (adopting_filled st d).
  unfold bind at 1.
  pose proof (catalogue_refresh_all_views_reads refresh selected (adopting_filled st d)) as Hr.
  destruct (Catalogue.refresh_all_views refresh selected (adopting_filled st d))
    as [[u|e] st']; cbn [snd fst] in *; subst st'; [reflexivity|discriminate].
Qed.

Lemma catalogue_load_legacy
      (uuid4 : nat -> string) (refresh : json -> string -> result unit)
      (path : string) (doc : json) (selected : option string) (st : app) :
  Catalogue.is_new_format doc = Ok false ->
  Catalogue.is_old_format doc = Ok true ->
  Catalogue.load_document uuid4 refresh path (Ok doc) selected st =
  try_except
    (show (showinfo "Data Migration") ;;;
     Catalogue.migrate_into_store uuid4 doc ;;;
     Catalogue.finish_load refresh path selected)
    Catalogue.load_failed st.
Proof.
  intros Hnew Hold.
  unfold Catalogue.load_document, try_except.
  unfold bind at 1. unfold lift at 1.
  unfold bind at 1. unfold lift at 1. rewrite Hnew.
  unfold bind at 1. unfold bind at 1. unfold lift at 1. rewrite Hold.
  unfold bind, show. reflexivity.
Qed.

(** The extended load of a document that fails both format tests: the
    error is shown and the store becomes the empty default, whatever it
    was before and without any question asked; nothing else of the state
    changes. *)
Theorem extended_load_of_unrecognized_resets_store
      (uuid4 : nat -> string) (refresh : json -> string -> result unit)
      (path : string) (doc : json) (selected : option string) (st : app) :
  Catalogue.is_new_format doc = Ok false ->
  Catalogue.is_old_format doc = Ok false ->
  Catalogue.load_document uuid4 refresh path (Ok doc) selected st =
  (Ok tt,
   mkApp (JDict initialize_data_structures) (current_file_path st) (search_vars st)
         (uuid_calls st)
         (dialogs st ++ [showerror "Load Error"
                           (Some (ValueError "Unrecognized or invalid data format in JSON file."))])
         (disk st)).
Proof.
  intros Hnew Hold.
  unfold Catalogue.load_document, try_except.
  unfold bind at 1. unfold lift at 1.
  unfold bind at 1. unfold lift at 1. rewrite Hnew.
  unfold bind at 1. unfold bind at 1. unfold lift at 1. rewrite Hold.
  reflexivity.
Qed.

(** C6 at two documents of neither format, loaded by the basic variant
    over a store with data while the user answers "No" to the question
    [new_file] asks.  For [{"foo": 1}] the load fails as unrecognized and
    the store stays the old one instead of the empty default; for a
    [family_info] that is a string containing "columns" the load fails
    with a [TypeError] after the document has been adopted, and the store
    stays partially populated.  The extended variant resets the store to
    the empty default without asking. *)
Theorem failed_load_keeps_store_when_reset_is_declined :
  let st := app_with sample_store in
  let basic := snd (Basic.load_document tk_rows_ok "wealth.json" (Ok foo_doc)
                      false None st) in
  let basic_text := snd (Basic.load_document tk_rows_ok "wealth.json"
                           (Ok text_family_doc) false None st) in
  let extended := snd (Catalogue.load_document sample_uuid4 tk_ok "wealth.json"
                         (Ok foo_doc) None st) in
  dialogs basic = [showerror "Load Error" (Some (ValueError "Unrecognized data format."));
                   askyesno "Confirm New" false] /\
  data_store basic = sample_store /\
  data_store basic <> JDict initialize_data_structures /\
  dialogs basic_text = [showerror "Load Error" (Some TypeError);
                        askyesno "Confirm New" false] /\
  data_store basic_text
  = JDict (dict_set "family_info" (JStr "no columns here") initialize_data_structures) /\
  dialogs extended
  = [showerror "Load Error"
       (Some (ValueError "Unrecognized or invalid data format in JSON file."))] /\
  data_store extended = JDict initialize_data_structures.
Proof.
  cbv zeta. repeat split; try (vm_compute; reflexivity).
  vm_compute. discriminate.
Qed.

(** C10, as the code has it.  The basic load raises the unrecognized-format
    error for every document that fails the current-format test and shows
    "Success" only for documents that pass it; it has no migration branch,
    so every document the extended load migrates is rejected by the basic
    one.  On a current-format document both variants adopt the document -
    the basic one over the default store, the extended one with the
    missing default categories appended - and, when their views rebuild,
    both succeed with stores that agree on every key. *)
Theorem basic_load_has_no_legacy_branch :
  forall (uuid4 : nat -> string)
         (refresh : json -> string -> json -> result unit)
         (refresh_x : json -> string -> result unit)
         (path : string) (doc : json) (confirm : bool)
         (selected : option string) (st : app),
    let basic := snd (Basic.load_document refresh path (Ok doc) confirm selected st) in
    let extended := Catalogue.load_document uuid4 refresh_x path (Ok doc) selected st in
    (Catalogue.is_new_format doc = Ok false ->
     dialogs basic
     = dialogs st ++ [showerror "Load Error" (Some (ValueError "Unrecognized data format."));
                      askyesno "Confirm New" confirm]) /\
    (dialogs basic = dialogs st ++ [showinfo "Success"] ->
     Catalogue.is_new_format doc = Ok true) /\
    (Catalogue.is_new_format doc = Ok false ->
     Catalogue.is_old_format doc = Ok true ->
     extended
     = try_except
         (show (showinfo "Data Migration") ;;;
          Catalogue.migrate_into_store uuid4 doc ;;;
          Catalogue.finish_load refresh_x path selected)
         Catalogue.load_failed st /\
     dialogs basic
     = dialogs st ++ [showerror "Load Error" (Some (ValueError "Unrecognized data format."));
                      askyesno "Confirm New" confirm]) /\
    (forall d fi,
        doc = JDict d ->
        dict_get "family_info" d = Some fi ->
        py_in (JStr "columns") fi = Ok true ->
        NoDup (dict_keys d) ->
        fst (Basic.refresh_all_views refresh selected (adopting st d)) = Ok tt ->
        fst (Catalogue.refresh_all_views refresh_x selected (adopting_filled st d)) = Ok tt ->
        dialogs basic = dialogs st ++ [showinfo "Success"] /\
        dialogs (snd extended) = dialogs st ++ [showinfo "Success"] /\
        data_store basic = JDict (dict_update initialize_data_structures d) /\
        data_store (snd extended) = JDict (with_missing_sections d) /\
        forall k, dict_get k (dict_update initialize_data_structures d)
                  = dict_get k (with_missing_sections d)).
Proof.
  intros uuid4 refresh refresh_x path doc confirm selected st basic extended.
  assert (Hreject : forall e,
             Basic.load_document refresh path (Ok doc) confirm selected st
             = (show (showerror "Load Error" (Some e)) ;;;
                Basic.new_file refresh confirm selected) st ->
             dialogs basic = dialogs st ++ [showerror "Load Error" (Some e);
                                            askyesno "Confirm New" confirm]).
  { intros e E. subst basic. rewrite E.
    exact (proj1 (basic_load_rejected refresh e confirm selected st)). }
  split; [|split; [|split]].
  - intros Hnew. apply Hreject. now apply basic_load_unrecognized.
  - intros Hok.
    destruct (Catalogue.is_new_format doc) as [[|]|e] eqn:Hnew; [reflexivity| |].
    + rewrite (Hreject _ (basic_load_unrecognized refresh path doc confirm selected st Hnew))
        in Hok.
      apply app_inv_head in Hok. discriminate.
    + rewrite (Hreject _ (basic_load_test_raises refresh path doc e confirm selected st Hnew))
        in Hok.
      apply app_inv_head in Hok. discriminate.
  - intros Hnew Hold. split.
    + now apply catalogue_load_legacy.
    + apply Hreject. now apply basic_load_unrecognized.
  - intros d fi -> Hfi Hcols Hnd Hb Hx.
    assert (Hnew : Catalogue.is_new_format (JDict d) = Ok true).
    { unfold Catalogue.is_new_format. cbn [py_in py_getitem rbind]. unfold dict_has.
      rewrite Hfi. cbn [rbind]. exact Hcols. }
    subst basic extended.
    rewrite (basic_load_current_format refresh path d fi confirm selected st Hfi Hcols), Hb.
    rewrite (catalogue_load_current_format uuid4 refresh_x path d selected st Hnew Hx).
    cbn [snd dialogs data_store]. repeat split.
    intros k. unfold with_missing_sections.
    rewrite (dict_update_get k _ d Hnd), (fold_missing_get _ d k initial_keys_NoDup).
    reflexivity.
Qed.

Lemma basic_load_witness :
  dialogs (snd (Basic.load_document tk_rows_ok "old.json" (Ok (JDict asha_doc)) true None
                  (app_with sample_store)))
  = [showerror "Load Error" (Some (ValueError "Unrecognized data format."));
     askyesno "Confirm New" true] /\
  data_store (snd (Basic.load_document tk_rows_ok "wealth.json" (Ok sample_store) true None
                     initial_app))
  = sample_store.
Proof.
  split.
  - apply (basic_load_has_no_legacy_branch sample_uuid4 tk_rows_ok tk_ok "old.json"
             (JDict asha_doc) true None (app_with sample_store)).
    + reflexivity.
    + reflexivity.
  - destruct (basic_load_has_no_legacy_branch sample_uuid4 tk_rows_ok tk_ok "wealth.json"
                sample_store true None initial_app) as [_ [_ [_ H]]].
    destruct (H (dict_update initialize_data_structures
                   [("family_info",
                     JDict [("columns", columns ["Name"; "Aadhar No."; "PAN no"; "Voter id no"]);
                            ("data", JList two_members)]);
                    ("bank_accounts",
                     JDict [("columns", columns ["Holders"; "Account Type"; "BANK NAME"; "ACCOUNT NO"]);
                            ("data", JList [JDict (account "a1" "1001" ["m1"; "m2"])])])])
                (JDict [("columns", columns ["Name"; "Aadhar No."; "PAN no"; "Voter id no"]);
                        ("data", JList two_members)]))
      as [_ [_ [Hstore _]]].
    + reflexivity.
    + reflexivity.
    + reflexivity.
    + apply unique_NoDup. vm_compute. reflexivity.
    + vm_compute. reflexivity.
    + vm_compute. reflexivity.
    + rewrite Hstore. vm_compute. reflexivity.
Defined.

(** C10 as stated fails twice.  A document whose [family_info] has
    [columns] but no [data] passes the current-format test and is still
    not accepted: rebuilding the views raises [KeyError].  And a legacy
    document is rejected without the store being reset when the user
    declines the question of [new_file]. *)
Lemma basic_load_accepts_less_and_may_keep_store :
  Catalogue.is_new_format columns_only_doc = Ok true /\
  dialogs (snd (Basic.load_document tk_rows_ok "wealth.json" (Ok columns_only_doc)
                  true None (app_with sample_store)))
  = [showerror "Load Error" (Some (KeyError "data")); askyesno "Confirm New" true] /\
  Catalogue.is_old_format (JDict asha_doc) = Ok true /\
  data_store (snd (Basic.load_document tk_rows_ok "old.json" (Ok (JDict asha_doc))
                     false None (app_with sample_store)))
  = sample_store /\
  sample_store <> JDict initialize_data_structures.
Proof.
  repeat split; try (vm_compute; reflexivity).
  vm_compute. discriminate.
Qed.

(** ** Tabular export *)

Local Open Scope list_scope.

Lemma filter_id {A} (p : A -> bool) (l : list A) :
  (forall x, In x l -> p x = true) -> filter p l = l.
Proof.
  induction l as [|x l IH]; intros H; [reflexivity|].
  cbn [filter]. rewrite (H x (or_introl eq_refl)), IH; [reflexivity|].
  intros y Hy. apply H. now right.
Qed.



Lemma dict_keys_set_new (k : string) (v : json) (d : dict) :
  dict_get k d = None -> dict_keys (dict_set k v d) = dict_keys d ++ [k].
Proof. intros H. rewrite (dict_set_absent k v d H). apply dict_keys_app. Qed.







Lemma export_record_without_holders (store content : json) (record : dict) :
  dict_get "holders" record = None ->
  Basic.export_record store content record = Ok (dict_pop "id" record).
Proof. intros H. unfold Basic.export_record. now rewrite H. Qed.




Lemma writerows_first_misfit (fieldnames : list string) (good rest : list dict)
      (bad : dict) :
  forallb (fits fieldnames) good = true ->
  fits fieldnames bad = false ->
  Basic.writerows fieldnames (good ++ bad :: rest)
  = (map (cells fieldnames) good,
     Some (ValueError "dict contains fields not in fieldnames")).
Proof.
  intros Hgood Hbad. induction good as [|r good IH].
  - cbn [List.app Basic.writerows]. unfold Basic.dict_to_list. unfold fits in Hbad.
    now rewrite Hbad.
  - cbn [forallb] in Hgood. apply andb_prop in Hgood as [Hr Hgood].
    cbn [List.app Basic.writerows]. unfold Basic.dict_to_list. unfold fits in Hr.
    rewrite Hr, (IH Hgood). reflexivity.
Qed.

Lemma rmap_dict_copy (rs : list dict) :
  rmap Basic.dict_copy (map JDict rs) = Ok rs.
Proof.
  induction rs as [|x l IH]; [reflexivity|].
  cbn [map rmap Basic.dict_copy rbind]. now rewrite IH.
Qed.

Lemma fits_own_keys (r : dict) : fits (dict_keys r) r = true.
Proof.
  unfold fits. apply forallb_forall. intros k Hk. apply existsb_exists.
  exists k. split; [exact Hk | apply String.eqb_refl].
Qed.

(** The export of one section whose writer meets a record with a field
    the header lacks. *)
Lemma export_section_stops
      (can_write : string -> bool) (directory title : string)
      (content : json) (rs : list dict) (first : dict)
      (good rest : list dict) (bad : dict) (st : app) :
  py_getitem content "data" = Ok (JList (map JDict rs)) ->
  rmap (Basic.export_record (data_store st) content) rs
  = Ok (first :: good ++ bad :: rest) ->
  forallb (fits (dict_keys first)) good = true ->
  fits (dict_keys first) bad = false ->
  can_write (path_join directory (title ++ ".csv")%string) = true ->
  Basic.export_section can_write directory (title, content) st
  = (Raise (ValueError "dict contains fields not in fieldnames"),
     snd (write_file (path_join directory (title ++ ".csv")%string)
            (Csv (dict_keys first)
                 (map (cells (dict_keys first)) (first :: good))) st)).
Proof.
  intros Hdata Hrecs Hgood Hbad Hw.
  unfold Basic.export_section, bind, lift, get_store.
  rewrite Hdata. destruct rs as [|r rs]; [discriminate|].
  cbn [py_truthy negb py_iter]. rewrite rmap_dict_copy, Hrecs, Hw.
  change (first :: good ++ bad :: rest) with ((first :: good) ++ bad :: rest).
  rewrite (writerows_first_misfit (dict_keys first) (first :: good) rest bad).
  - reflexivity.
  - cbn [forallb]. rewrite Hgood, andb_true_r. apply fits_own_keys.
  - exact Hbad.
Qed.

(** A category without records is skipped by the export: no file is
    written for it and nothing else happens. *)
Theorem export_skips_empty_section
      (can_write : string -> bool) (directory title : string)
      (content : json) (st : app) :
  py_getitem content "data" = Ok (JList []) ->
  Basic.export_section can_write directory (title, content) st = (Ok tt, st).
Proof.
  intros Hdata. unfold Basic.export_section, bind, get_store, lift.
  rewrite Hdata. reflexivity.
Qed.


Lemma writerows_length (fieldnames : list string) (records : list dict)
      (rows : list (list json)) :
  Basic.writerows fieldnames records = (rows, None) ->
  List.length rows = List.length records.
Proof.
  revert rows. induction records as [|r records IH]; intros rows H.
  - injection H as <-. reflexivity.
  - cbn [Basic.writerows] in H.
    destruct (Basic.dict_to_list fieldnames r); [|discriminate].
    destruct (Basic.writerows fieldnames records) as [written e].
    injection H as <- ->. cbn [List.length]. f_equal. now apply IH.
Qed.




(** The whole export of that store: one file for each of the two sections
    that have records, none for the empty ones. *)
Example export_writes_non_empty_sections :
  Basic.export_to_csv (fun _ => true) "/out" (app_with store_after_delete)
  = (Ok tt,
     mkApp store_after_delete None (fun _ => "") 0
           [showinfo "Export Successful"]
           [("/out/bank_accounts.csv",
             Csv ["Account Type"; "BANK NAME"; "ACCOUNT NO"; "Holders"]
                 [[JStr "Savings"; JStr "SBI"; JStr "1001"; JStr "?, Ravi"]]);
            ("/out/family_info.csv",
             Csv ["Name"; "Aadhar No."; "PAN no"; "Voter id no"]
                 [[JStr "Ravi"; JStr ""; JStr ""; JStr ""]])]).
Proof. vm_compute. reflexivity. Qed.

Lemma export_skips_empty_section_witness :
  Basic.export_section (fun _ => true) "/out"
    ("locker", section_of ["Holders"; "BANK NAME"; "LOCKER NO"])
    (app_with store_after_delete)
  = (Ok tt, app_with store_after_delete).
Proof.
  apply (export_skips_empty_section (fun _ => true) "/out" "locker"
           (section_of ["Holders"; "BANK NAME"; "LOCKER NO"])
           (app_with store_after_delete)).
  reflexivity.
Defined.

(** ** Deleting a member whose identifier no holders list repeats *)

Lemma filter_none_length {A} (p : A -> bool) (l : list A) :
  List.length (filter p l) = 0 -> filter (fun x => negb (p x)) l = l.
Proof.
  induction l as [|x l IH]; [reflexivity|]. cbn [filter].
  destruct (p x); cbn [List.length negb]; [discriminate|].
  intros H. now rewrite IH.
Qed.

Lemma list_remove_filter (x : json) (l : list json) :
  List.length (filter (fun y => py_eq y x) l) <= 1 ->
  existsb (fun y => py_eq y x) l = true ->
  list_remove x l = Some (filter (fun y => negb (py_eq y x)) l).
Proof.
  induction l as [|y l IH]; [discriminate|].
  cbn [filter existsb list_remove]. destruct (py_eq y x); cbn [negb orb List.length].
  - intros Hlen _. rewrite filter_none_length; [reflexivity | lia].
  - intros Hlen Hex. now rewrite IH.
Qed.

Lemma existsb_filter_negb {A} (p : A -> bool) (l : list A) :
  existsb p (filter (fun x => negb (p x)) l) = false.
Proof.
  induction l as [|x l IH]; [reflexivity|]. cbn [filter].
  destruct (p x) eqn:E; cbn [negb existsb]; [exact IH|]. now rewrite E.
Qed.

Lemma for_each_mut_map {A} (body : A -> A * option exn) (f : A -> A) (l : list A) :
  (forall x, In x l -> body x = (f x, None)) ->
  for_each_mut body l = (map f l, None).
Proof.
  induction l as [|x l IH]; intros H; [reflexivity|].
  cbn [for_each_mut map]. rewrite (H x (or_introl eq_refl)).
  rewrite IH; [reflexivity|]. intros y Hy. apply H. now right.
Qed.

Lemma drop_holder_spec (id rec : json) :
  holds_at_most_once id rec = true ->
  Basic.drop_holder id rec = (spec_drop_holder id rec, None).
Proof.
  destruct rec as [| | | | |r]; try discriminate.
  unfold holds_at_most_once, Basic.drop_holder, spec_drop_holder.
  cbn [py_in py_getitem]. unfold dict_has.
  destruct (dict_get "holders" r) as [[| | | |hs|]|] eqn:E; try discriminate.
  - intros Hlen. apply Nat.leb_le in Hlen. cbn [rbind py_in].
    destruct (existsb (fun h => py_eq h id) hs) eqn:Ex; [|reflexivity].
    unfold py_remove. rewrite (list_remove_filter id hs Hlen Ex). reflexivity.
  - reflexivity.
Qed.

Lemma drop_holder_in_section_spec (id v : json) :
  tidy_section id v = true ->
  Basic.drop_holder_in_section id v = (spec_drop_in_section id v, None).
Proof.
  destruct v as [| | | | |c]; try discriminate.
  unfold tidy_section, Basic.drop_holder_in_section, spec_drop_in_section.
  destruct (dict_get "data" c) as [[| | | |recs|]|]; try discriminate.
  intros H. unfold for_each_item.
  rewrite (for_each_mut_map _ (spec_drop_holder id)); [reflexivity|].
  intros x Hx. apply drop_holder_spec.
  rewrite forallb_forall in H. now apply H.
Qed.

Lemma drop_holder_everywhere_spec (id : json) (sections : dict) :
  tidy_store id sections = true ->
  Basic.drop_holder_everywhere id (JDict sections)
  = (JDict (spec_drop_everywhere id sections), None).
Proof.
  intros H. unfold Basic.drop_holder_everywhere, spec_drop_everywhere.
  rewrite (for_each_mut_map _ (fun sc => (fst sc, spec_drop_in_section id (snd sc))));
    [reflexivity|].
  intros sc Hsc. rewrite drop_holder_in_section_spec; [reflexivity|].
  unfold tidy_store in H. rewrite forallb_forall in H. now apply H.
Qed.

Lemma dict_get_map_values (f : json -> json) (k : string) (d : dict) :
  dict_get k (map (fun sc => (fst sc, f (snd sc))) d)
  = option_map f (dict_get k d).
Proof.
  induction d as [|[k' v] d IH]; [reflexivity|].
  cbn [map dict_get fst snd]. destruct (String.eqb k k'); [reflexivity | exact IH].
Qed.

Lemma dict_keys_map_values (f : json -> json) (d : dict) :
  dict_keys (map (fun sc => (fst sc, f (snd sc))) d) = dict_keys d.
Proof.
  unfold dict_keys. rewrite map_map. reflexivity.
Qed.

Lemma forallb_dict_set (p : string * json -> bool) (k : string) (v : json) (d : dict) :
  forallb p d = true -> p (k, v) = true -> forallb p (dict_set k v d) = true.
Proof.
  intros Hd Hv. induction d as [|[k' v'] d IH]; cbn [dict_set forallb].
  - now rewrite Hv.
  - cbn [forallb] in Hd. apply andb_prop in Hd as [H1 H2].
    destruct (String.eqb k k'); cbn [forallb].
    + now rewrite Hv, H2.
    + now rewrite H1, IH.
Qed.

Lemma forallb_filter {A} (p q : A -> bool) (l : list A) :
  forallb p l = true -> forallb p (filter q l) = true.
Proof.
  induction l as [|x l IH]; [reflexivity|]. cbn [forallb filter].
  intros H. apply andb_prop in H as [H1 H2].
  destruct (q x); cbn [forallb]; [rewrite H1|]; auto.
Qed.

(** The members left are those [without_id] keeps. *)
Lemma without_id_spec (id : json) (members : list json) :
  forallb (holds_at_most_once id) members = true ->
  without_id (JList members) id = Ok (spec_without_id id members).
Proof.
  intros H. unfold without_id, spec_without_id. cbn [py_iter rbind].
  apply rfilter_total. rewrite forallb_forall in H. apply Forall_forall.
  intros r Hr. specialize (H r Hr).
  destruct r as [| | | | |f]; try discriminate.
  unfold py_get. destruct (dict_get "id" f); reflexivity.
Qed.

Lemma spec_drop_holder_id (id rec : json) (f : dict) :
  spec_drop_holder id rec = JDict f ->
  exists f0, rec = JDict f0 /\ dict_get "id" f = dict_get "id" f0.
Proof.
  destruct rec as [| | | | |r]; try discriminate.
  unfold spec_drop_holder.
  destruct (dict_get "holders" r) as [[| | | |hs|]|];
    try (intros [= <-]; now exists r).
  destruct (existsb (fun h => py_eq h id) hs); intros [= <-]; exists r;
    (split; [reflexivity|]).
  - now rewrite dict_get_set.
  - reflexivity.
Qed.

Lemma find_by_id_dropped (id : string) (members : list json) :
  forallb (holds_at_most_once (JStr id)) members = true ->
  find_by_id (JList (map (spec_drop_holder (JStr id))
                         (spec_without_id (JStr id) members))) (JStr id)
  = Ok None.
Proof.
  unfold find_by_id. cbn [py_iter rbind]. unfold spec_without_id.
  induction members as [|r members IH]; [reflexivity|].
  cbn [forallb filter]. intros H. apply andb_prop in H as [Hr Hm].
  destruct r as [| | | | |f]; try discriminate.
  destruct (match dict_get "id" f with
            | Some i => negb (py_eq i (JStr id))
            | None => negb (py_eq JNull (JStr id))
            end) eqn:E; [|now apply IH].
  cbn [map rfind]. rewrite (IH Hm).
  destruct (spec_drop_holder (JStr id) (JDict f)) as [| | | | |g] eqn:G;
    try (unfold spec_drop_holder in G;
         destruct (dict_get "holders" f) as [[| | | |hs|]|];
         try destruct (existsb (fun h => py_eq h (JStr id)) hs); discriminate).
  destruct (spec_drop_holder_id _ _ _ G) as [f0 [[= <-] Hg]].
  cbn [py_get]. rewrite Hg.
  destruct (dict_get "id" f) as [i|]; cbn [rbind].
  - apply negb_true_iff in E. rewrite E. reflexivity.
  - reflexivity.
Qed.

Lemma spec_drop_holder_held (id rec : json) :
  holds_at_most_once id rec = true ->
  (let? h := py_get (spec_drop_holder id rec) "holders" (JList []) in py_in id h)
  = Ok false.
Proof.
  destruct rec as [| | | | |r]; try discriminate.
  unfold holds_at_most_once, spec_drop_holder.
  destruct (dict_get "holders" r) as [[| | | |hs|]|] eqn:E; try discriminate; intros _.
  - destruct (existsb (fun h => py_eq h id) hs) eqn:Ex; cbn [py_get].
    + rewrite dict_get_set. cbn [String.eqb Ascii.eqb Bool.eqb rbind py_in].
      now rewrite existsb_filter_negb.
    + rewrite E. cbn [rbind py_in]. now rewrite Ex.
  - cbn [py_get]. rewrite E. reflexivity.
Qed.

Lemma spec_drop_holder_clean (id rec : json) (r : dict) (hs : list json) :
  holds_at_most_once id rec = true ->
  spec_drop_holder id rec = JDict r ->
  dict_get "holders" r = Some (JList hs) ->
  py_in id (JList hs) = Ok false.
Proof.
  intros Hrec Hr Hh. pose proof (spec_drop_holder_held id rec Hrec) as H.
  rewrite Hr in H. cbn [py_get] in H. rewrite Hh in H. exact H.
Qed.

Lemma filter_false {A} (l : list A) : filter (fun _ => false) l = [].
Proof. induction l; [reflexivity | assumption]. Qed.

Lemma member_assets_dropped (id v : json) :
  tidy_section id v = true ->
  Basic.member_assets (spec_drop_in_section id v) id = Ok [].
Proof.
  destruct v as [| | | | |c]; try discriminate.
  unfold tidy_section, spec_drop_in_section.
  destruct (dict_get "data" c) as [[| | | |recs|]|] eqn:E; try discriminate.
  intros H. unfold Basic.member_assets. cbn [py_getitem].
  rewrite dict_get_set. cbn [String.eqb Ascii.eqb Bool.eqb rbind py_iter].
  rewrite (rfilter_total _ (fun _ => false)); [now rewrite filter_false|].
  apply Forall_forall. intros x Hx. apply in_map_iff in Hx as [rec [<- Hrec]].
  apply spec_drop_holder_held. rewrite forallb_forall in H. now apply H.
Qed.

(** The store the deletion of the member [id] leaves. *)
Lemma delete_member_store
      (refresh : json -> string -> json -> result unit) (id : string)
      (sections cfi : dict) (members : list json) (i : nat) (member : dict)
      (reselected : option string) (st : app) :
  data_store st = JDict sections ->
  dict_get "family_info" sections = Some (JDict cfi) ->
  dict_get "data" cfi = Some (JList members) ->
  find_by_id (JList members) (JStr id) = Ok (Some (i, JDict member)) ->
  tidy_store (JStr id) sections = true ->
  let kept := JDict (dict_set "data" (JList (spec_without_id (JStr id) members)) cfi) in
  tidy_store (JStr id) (dict_set "family_info" kept sections) = true /\
  data_store (snd (Basic.delete_member_from_button refresh (Some id) true reselected st))
  = JDict (spec_drop_everywhere (JStr id) (dict_set "family_info" kept sections)).
Proof.
  intros Hstore Hfi Hdata Hfind Htidy kept.
  assert (Hmembers : forallb (holds_at_most_once (JStr id)) members = true).
  { unfold tidy_store in Htidy. rewrite forallb_forall in Htidy.
    specialize (Htidy _ (dict_get_In _ _ _ Hfi)). cbn [snd tidy_section] in Htidy.
    now rewrite Hdata in Htidy. }
  assert (Htidy1 : tidy_store (JStr id) (dict_set "family_info" kept sections) = true).
  { apply forallb_dict_set; [exact Htidy|]. cbn [snd]. unfold kept, tidy_section.
    rewrite dict_get_set. cbn [String.eqb Ascii.eqb Bool.eqb].
    now apply forallb_filter. }
  split; [exact Htidy1|].
  destruct (find_by_id_some _ _ _ _ Hfind) as [_ [fields [[= <-] Hid]]].
  unfold Basic.delete_member_from_button.
  unfold bind at 1. unfold get_store at 1.
  unfold bind at 1. unfold lift at 1.
  unfold get_member_by_id. rewrite Hstore. cbn [py_getitem]. rewrite Hfi.
  cbn [rbind py_getitem]. rewrite Hdata. cbn [rbind]. rewrite Hfind.
  assert (Htruthy : py_truthy (JDict member) = true).
  { destruct member; [discriminate | reflexivity]. }
  rewrite Htruthy. cbn [negb].
  unfold bind, show, lift, put_store, mutate_store. cbn [py_get]. rewrite Hid.
  cbn [py_getitem]. rewrite Hdata.
  rewrite (without_id_spec _ _ Hmembers).
  unfold set_data. cbn [py_getitem]. rewrite Hfi. cbn [rbind py_setitem data_store].
  fold kept. rewrite (drop_holder_everywhere_spec _ _ Htidy1).
  rewrite refresh_all_views_reads. reflexivity.
Qed.

(** Deleting a member, in the basic variant, from a store in which every
    section holds a list of records and no record lists the member twice
    among its holders: the store keeps its sections, no member has the
    identifier any more, no record of any section has it among its
    holders, and the assets held by it are none in every section. *)
Theorem delete_member_removes_holder_listed_once
        (refresh : json -> string -> json -> result unit) (id : string)
        (sections cfi : dict) (members : list json) (i : nat) (member : dict)
        (reselected : option string) (st : app) :
  data_store st = JDict sections ->
  dict_get "family_info" sections = Some (JDict cfi) ->
  dict_get "data" cfi = Some (JList members) ->
  find_by_id (JList members) (JStr id) = Ok (Some (i, JDict member)) ->
  tidy_store (JStr id) sections = true ->
  exists sections',
    data_store (snd (Basic.delete_member_from_button refresh (Some id) true
                       reselected st)) = JDict sections' /\
    dict_keys sections' = dict_keys sections /\
    get_member_by_id (JDict sections') (JStr id) = Ok None /\
    (forall s c recs r hs,
        In (s, JDict c) sections' ->
        dict_get "data" c = Some (JList recs) ->
        In (JDict r) recs ->
        dict_get "holders" r = Some (JList hs) ->
        py_in (JStr id) (JList hs) = Ok false) /\
    (forall s v, In (s, v) sections' -> Basic.member_assets v (JStr id) = Ok []).
Proof.
  intros Hstore Hfi Hdata Hfind Htidy.
  destruct (delete_member_store refresh id sections cfi members i member reselected st
              Hstore Hfi Hdata Hfind Htidy) as [Htidy1 Hafter].
  set (kept := JDict (dict_set "data" (JList (spec_without_id (JStr id) members)) cfi))
    in *.
  assert (Hmembers : forallb (holds_at_most_once (JStr id)) members = true).
  { unfold tidy_store in Htidy. rewrite forallb_forall in Htidy.
    specialize (Htidy _ (dict_get_In _ _ _ Hfi)). cbn [snd tidy_section] in Htidy.
    now rewrite Hdata in Htidy. }
  assert (Hsection : forall s v,
             In (s, v) (spec_drop_everywhere (JStr id)
                          (dict_set "family_info" kept sections)) ->
             exists v0, tidy_section (JStr id) v0 = true /\
                        v = spec_drop_in_section (JStr id) v0).
  { intros s v Hin. unfold spec_drop_everywhere in Hin.
    apply in_map_iff in Hin as [[s0 v0] [[= <- <-] Hin0]].
    exists v0. split; [|reflexivity].
    unfold tidy_store in Htidy1. rewrite forallb_forall in Htidy1.
    exact (Htidy1 _ Hin0). }
  eexists. split; [exact Hafter|]. split; [|split; [|split]].
  - unfold spec_drop_everywhere. rewrite dict_keys_map_values.
    now apply (dict_keys_set "family_info" kept (JDict cfi)).
  - unfold get_member_by_id, spec_drop_everywhere. cbn [py_getitem].
    rewrite dict_get_map_values, dict_get_set.
    cbn [String.eqb Ascii.eqb Bool.eqb option_map rbind].
    unfold kept. cbn [spec_drop_in_section]. rewrite dict_get_set.
    cbn [String.eqb Ascii.eqb Bool.eqb py_getitem]. rewrite dict_get_set.
    cbn [String.eqb Ascii.eqb Bool.eqb rbind].
    now apply find_by_id_dropped.
  - intros s c recs r hs Hin Hrecs Hr Hh.
    destruct (Hsection s (JDict c) Hin) as [v0 [Hv0 Hc]].
    destruct v0 as [| | | | |c0]; try discriminate.
    unfold tidy_section in Hv0. cbn [spec_drop_in_section] in Hc.
    destruct (dict_get "data" c0) as [[| | | |recs0|]|]; try discriminate.
    injection Hc as ->. rewrite dict_get_set in Hrecs.
    cbn [String.eqb Ascii.eqb Bool.eqb] in Hrecs. injection Hrecs as <-.
    apply in_map_iff in Hr as [rec0 [Hdrop Hrec0]].
    rewrite forallb_forall in Hv0.
    exact (spec_drop_holder_clean (JStr id) rec0 r hs (Hv0 _ Hrec0) Hdrop Hh).
  - intros s v Hin. destruct (Hsection s v Hin) as [v0 [Hv0 ->]].
    now apply member_assets_dropped.
Qed.

(** The joint account of the sample store after its first holder was
    deleted. *)
Lemma delete_member_removes_holder_witness :
  exists sections',
    data_store (snd (Basic.delete_member_from_button tk_rows_ok (Some "m1") true None
                       (app_with sample_store))) = JDict sections' /\
    get_member_by_id (JDict sections') (JStr "m1") = Ok None /\
    records_of (JDict sections') "bank_accounts"
    = Some [JDict (account "a1" "1001" ["m2"])].
Proof.
  destruct (delete_member_removes_holder_listed_once
              tk_rows_ok "m1"
              (dict_update initialize_data_structures
                 [("family_info",
                   JDict [("columns", columns ["Name"; "Aadhar No."; "PAN no"; "Voter id no"]);
                          ("data", JList two_members)]);
                  ("bank_accounts", accounts_section [JDict (account "a1" "1001" ["m1"; "m2"])])])
              [("columns", columns ["Name"; "Aadhar No."; "PAN no"; "Voter id no"]);
               ("data", JList two_members)]
              two_members 0
              [("Name", JStr "Asha"); ("Aadhar No.", JStr ""); ("PAN no", JStr "");
               ("Voter id no", JStr ""); ("id", JStr "m1")]
              None (app_with sample_store))
    as [sections' [Hstore [_ [Hgone _]]]].
  - reflexivity.
  - reflexivity.
  - reflexivity.
  - reflexivity.
  - vm_compute. reflexivity.
  - exists sections'. split; [exact Hstore|]. split; [exact Hgone|].
    vm_compute in Hstore. injection Hstore as <-. vm_compute. reflexivity.
Defined.

(** ** The extended load never leaves a partial store *)

Lemma extended_load_of_unrecognized_witness :
  Catalogue.load_document sample_uuid4 tk_ok "wealth.json" (Ok foo_doc) None
    (app_with sample_store)
  = (Ok tt,
     mkApp (JDict initialize_data_structures) None (fun _ => "") 0
           [showerror "Load Error"
              (Some (ValueError "Unrecognized or invalid data format in JSON file."))]
           []).
Proof.
  apply (extended_load_of_unrecognized_resets_store sample_uuid4 tk_ok "wealth.json"
           foo_doc None (app_with sample_store)); reflexivity.
Defined.

Lemma bind_ok {A B} (m : M A) (k : A -> M B) (st st' : app) (b : B) :
  bind m k st = (Ok b, st') ->
  exists a st1, m st = (Ok a, st1) /\ k a st1 = (Ok b, st').
Proof.
  unfold bind. destruct (m st) as [[a|e] st1]; [|discriminate].
  intros H. now exists a, st1.
Qed.


(** The basic load, when the user agrees to the question its failure
    handler asks: it ends with the "Success" message and the file's path
    adopted, or with the store reset to the empty default. *)
Theorem basic_load_succeeds_or_resets_when_agreed
        (refresh : json -> string -> json -> result unit)
        (path : string) (loaded : result json) (selected : option string)
        (st : app) :
  (exists ds,
      dialogs (snd (Basic.load_document refresh path loaded true selected st))
      = ds ++ [showinfo "Success"] /\
      current_file_path (snd (Basic.load_document refresh path loaded true selected st))
      = Some path) \/
  data_store (snd (Basic.load_document refresh path loaded true selected st))
  = JDict initialize_data_structures.
Proof.
  unfold Basic.load_document, try_except.
  match goal with
  | |- context [match ?body st with _ => _ end] => destruct (body st) as [[u|e] st1] eqn:E
  end.
  - left.
    apply bind_ok in E as [doc [s1 [_ E]]].
    apply bind_ok in E as [hf [s2 [_ E]]].
    apply bind_ok in E as [un [s3 [_ E]]].
    destruct un; [discriminate|].
    apply bind_ok in E as [u1 [s4 [_ E]]].
    apply bind_ok in E as [u2 [s5 [_ E]]].
    apply bind_ok in E as [u3 [s6 [_ E]]].
    apply bind_ok in E as [u4 [s7 [Hpath E]]].
    unfold show in E. injection E as _ <-.
    unfold set_path in Hpath. injection Hpath as _ <-.
    cbn [snd dialogs current_file_path]. exists (dialogs s6). now split.
  - right. apply (basic_load_rejected refresh e true selected st1).
Qed.

(** ** Creating a record *)

(** Saving an asset without an identifier, in a category whose data is a
    list: the record goes to the end of the list with the next output of
    the identifier generator as its [id] (overwriting an [id] among the
    given fields), and nothing else in the store changes. *)
Theorem save_asset_appends_record_with_fresh_id
        (uuid4 : nat -> string) (refresh : json -> string -> json -> result unit)
        (st : app) (d sec : dict) (section : string) (records : list json)
        (new_data : dict) (selected : option string) :
  data_store st = JDict d ->
  dict_get section d = Some (JDict sec) ->
  dict_get "data" sec = Some (JList records) ->
  data_store (snd (Basic.save_asset uuid4 refresh section new_data None selected st))
  = JDict (dict_set section
             (JDict (dict_set "data"
                       (JList (records ++
                               [JDict (dict_set "id" (JStr (uuid4 (uuid_calls st)))
                                                new_data)]))
                       sec)) d) /\
  uuid_calls (snd (Basic.save_asset uuid4 refresh section new_data None selected st))
  = S (uuid_calls st).
Proof.
  intros Hstore Hsec Hdata. unfold Basic.save_asset. cbn [id_given].
  rewrite snd_bind_reader by (intros; apply views_read).
  unfold bind, lift, put_store, append_record, set_data. cbn [data_store].
  rewrite Hstore. cbn [py_getitem]. rewrite Hsec. cbn [rbind py_getitem].
  rewrite Hdata. cbn [rbind py_setitem].
  split; reflexivity.
Qed.

Lemma save_asset_appends_record_witness :
  records_of
    (data_store (snd (Basic.save_asset sample_uuid4 tk_rows_ok "bank_accounts"
                        edited_account None None (app_with sample_store))))
    "bank_accounts"
  = Some [JDict (account "a1" "1001" ["m1"; "m2"]);
          JDict (edited_account ++ [("id", JStr "uuid-0")])].
Proof.
  destruct (save_asset_appends_record_with_fresh_id
              sample_uuid4 tk_rows_ok (app_with sample_store)
              (dict_update initialize_data_structures
                 [("family_info",
                   JDict [("columns", columns ["Name"; "Aadhar No."; "PAN no"; "Voter id no"]);
                          ("data", JList two_members)]);
                  ("bank_accounts", accounts_section [JDict (account "a1" "1001" ["m1"; "m2"])])])
              [("columns", account_columns);
               ("data", JList [JDict (account "a1" "1001" ["m1"; "m2"])])]
              "bank_accounts" [JDict (account "a1" "1001" ["m1"; "m2"])]
              edited_account None) as [Hstore _].
  - reflexivity.
  - reflexivity.
  - reflexivity.
  - rewrite Hstore. vm_compute. reflexivity.
Defined.

(** ** Saving members, and the saves of the extended variant *)

Lemma id_given_some (id : string) : id <> "" -> id_given (Some id) = true.
Proof.
  intros H. cbn [id_given]. destruct (String.eqb_spec id ""); [contradiction|reflexivity].
Qed.

Lemma dict_truthy (f : dict) (k : string) (v : json) :
  dict_get k f = Some v -> py_truthy (JDict f) = true.
Proof. destruct f; [discriminate | reflexivity]. Qed.

Lemma catalogue_views_read (refresh : json -> string -> result unit)
      (section : string) (selected : option string) (st : app) :
  snd (((fun st0 : app => (refresh (data_store st0) section, st0)) ;;;
        Catalogue.show_member_assets selected) st) = st.
Proof.
  rewrite snd_bind_reader; [reflexivity|]. intros; reflexivity.
Qed.

(** Saving a member in the basic variant.  With the identifier of an
    existing member the given fields are merged into the member's record,
    which keeps its place, its other attributes and, unless the fields
    carry an [id], its identifier; without an identifier the fields are
    appended to the members as a new record whose [id] is the next output
    of the generator.  Nothing else in the store changes. *)
Theorem save_member_merges_or_appends
        (uuid4 : nat -> string) (refresh : json -> string -> json -> result unit)
        (st : app) (d sec : dict) (members : list json) (new_data : dict) :
  data_store st = JDict d ->
  dict_get "family_info" d = Some (JDict sec) ->
  dict_get "data" sec = Some (JList members) ->
  NoDup (dict_keys new_data) ->
  (forall id i member,
      id <> "" ->
      find_by_id (JList members) (JStr id) = Ok (Some (i, JDict member)) ->
      exists merged,
        data_store (snd (Basic.save_member uuid4 refresh new_data (Some id) st))
        = JDict (dict_set "family_info"
                   (JDict (dict_set "data" (JList (list_set i (JDict merged) members))
                                    sec)) d) /\
        nth_error members i = Some (JDict member) /\
        (forall k, dict_get k merged = match dict_get k new_data with
                                       | Some v => Some v
                                       | None => dict_get k member
                                       end) /\
        (dict_get "id" new_data = None -> dict_get "id" merged = Some (JStr id))) /\
  data_store (snd (Basic.save_member uuid4 refresh new_data None st))
  = JDict (dict_set "family_info"
             (JDict (dict_set "data"
                       (JList (members ++
                               [JDict (dict_set "id" (JStr (uuid4 (uuid_calls st)))
                                                new_data)]))
                       sec)) d) /\
  uuid_calls (snd (Basic.save_member uuid4 refresh new_data None st))
  = S (uuid_calls st).
Proof.
  intros Hst Hs Hd Hnd. split; [|split].
  - intros id i member Hid Hfind.
    destruct (find_by_id_some _ _ _ _ Hfind) as [Hnth [fields [[= <-] Hidf]]].
    exists (dict_update member new_data).
    split; [|split; [exact Hnth|split]].
    + unfold Basic.save_member. rewrite (id_given_some id Hid).
      rewrite snd_bind_reader by (intros; apply filter_treeview_reads).
      unfold bind, get_store, lift, get_member_by_id.
      rewrite Hst. cbn [py_getitem]. rewrite Hs. cbn [rbind py_getitem].
      rewrite Hd. cbn [rbind]. rewrite Hfind, (dict_truthy _ _ _ Hidf).
      rewrite (set_record_at _ _ _ _ _ _ Hs Hd). reflexivity.
    + intros k. now apply dict_update_get.
    + intros Hno. rewrite (dict_update_get _ _ _ Hnd), Hno. exact Hidf.
  - unfold Basic.save_member. cbn [id_given].
    rewrite snd_bind_reader by (intros; apply filter_treeview_reads).
    unfold bind, lift, put_store, append_record, set_data. cbn [data_store].
    rewrite Hst. cbn [py_getitem]. rewrite Hs. cbn [rbind py_getitem].
    rewrite Hd. reflexivity.
  - unfold Basic.save_member. cbn [id_given].
    rewrite snd_bind_reader by (intros; apply filter_treeview_reads).
    unfold bind, lift, put_store, append_record, set_data. cbn [data_store].
    rewrite Hst. cbn [py_getitem]. rewrite Hs. cbn [rbind py_getitem].
    rewrite Hd. reflexivity.
Qed.

Lemma save_member_merges_or_appends_witness :
  record_at (data_store (snd (Basic.save_member sample_uuid4 tk_rows_ok
                                [("Name", JStr "Meera")] None (app_with sample_store))))
            "family_info" 2
  = Some (JDict [("Name", JStr "Meera"); ("id", JStr "uuid-0")]).
Proof.
  destruct (save_member_merges_or_appends
              sample_uuid4 tk_rows_ok (app_with sample_store)
              (dict_update initialize_data_structures
                 [("family_info",
                   JDict [("columns", columns ["Name"; "Aadhar No."; "PAN no"; "Voter id no"]);
                          ("data", JList two_members)]);
                  ("bank_accounts", accounts_section [JDict (account "a1" "1001" ["m1"; "m2"])])])
              [("columns", columns ["Name"; "Aadhar No."; "PAN no"; "Voter id no"]);
               ("data", JList two_members)]
              two_members [("Name", JStr "Meera")]) as [_ [Hstore _]].
  - reflexivity.
  - reflexivity.
  - reflexivity.
  - repeat constructor; cbn; intuition discriminate.
  - rewrite Hstore. vm_compute. reflexivity.
Defined.

(** Saving an asset in the extended variant, in a category whose data is
    a list.  An identifier no record has leaves the whole state as it
    was; the identifier of an existing record merges the given fields
    into it, the other attributes surviving; no identifier appends the
    fields as a new record with the next generated [id]. *)
Theorem extended_save_asset_merges_or_appends
        (uuid4 : nat -> string) (refresh : json -> string -> result unit)
        (st : app) (d sec : dict) (section : string) (records : list json)
        (new_data : dict) (selected : option string) :
  data_store st = JDict d ->
  dict_get section d = Some (JDict sec) ->
  dict_get "data" sec = Some (JList records) ->
  NoDup (dict_keys new_data) ->
  (forall id,
      id <> "" ->
      find_by_id (JList records) (JStr id) = Ok None ->
      snd (Catalogue.save_asset uuid4 refresh section new_data (Some id) selected st)
      = st) /\
  (forall id i asset,
      id <> "" ->
      find_by_id (JList records) (JStr id) = Ok (Some (i, JDict asset)) ->
      exists merged,
        data_store (snd (Catalogue.save_asset uuid4 refresh section new_data
                           (Some id) selected st))
        = JDict (dict_set section
                   (JDict (dict_set "data" (JList (list_set i (JDict merged) records))
                                    sec)) d) /\
        (forall k, dict_get k merged = match dict_get k new_data with
                                       | Some v => Some v
                                       | None => dict_get k asset
                                       end) /\
        (dict_get "id" new_data = None -> dict_get "id" merged = Some (JStr id))) /\
  data_store (snd (Catalogue.save_asset uuid4 refresh section new_data None selected st))
  = JDict (dict_set section
             (JDict (dict_set "data"
                       (JList (records ++
                               [JDict (dict_set "id" (JStr (uuid4 (uuid_calls st)))
                                                new_data)]))
                       sec)) d).
Proof.
  intros Hst Hs Hd Hnd. split; [|split].
  - intros id Hid Hnone. unfold Catalogue.save_asset. rewrite (id_given_some id Hid).
    rewrite snd_bind_reader by (intros; apply catalogue_views_read).
    unfold bind, get_store, lift. rewrite Hst. cbn [py_getitem]. rewrite Hs.
    cbn [py_getitem]. rewrite Hd, Hnone. reflexivity.
  - intros id i asset Hid Hfind.
    destruct (find_by_id_some _ _ _ _ Hfind) as [_ [fields [[= <-] Hidf]]].
    exists (dict_update asset new_data). split; [|split].
    + unfold Catalogue.save_asset. rewrite (id_given_some id Hid).
      rewrite snd_bind_reader by (intros; apply catalogue_views_read).
      unfold bind, get_store, lift. rewrite Hst. cbn [py_getitem]. rewrite Hs.
      cbn [py_getitem]. rewrite Hd, Hfind, (dict_truthy _ _ _ Hidf).
      rewrite (set_record_at _ _ _ _ _ _ Hs Hd). reflexivity.
    + intros k. now apply dict_update_get.
    + intros Hno. rewrite (dict_update_get _ _ _ Hnd), Hno. exact Hidf.
  - unfold Catalogue.save_asset. cbn [id_given].
    rewrite snd_bind_reader by (intros; apply catalogue_views_read).
    unfold bind, lift, put_store, append_record, set_data. cbn [data_store].
    rewrite Hst. cbn [py_getitem]. rewrite Hs. cbn [rbind py_getitem].
    rewrite Hd. reflexivity.
Qed.

Lemma extended_save_asset_witness :
  exists merged,
    data_store (snd (Catalogue.save_asset sample_uuid4 tk_ok "bank_accounts"
                       edited_account (Some "a1") None (app_with store_with_nominee)))
    = store_with two_members [JDict merged] /\
    dict_get "BANK NAME" merged = Some (JStr "HDFC") /\
    dict_get "Nominee" merged = Some (JStr "Ravi").
Proof.
  destruct (extended_save_asset_merges_or_appends
              sample_uuid4 tk_ok (app_with store_with_nominee)
              (dict_update initialize_data_structures
                 [("family_info",
                   JDict [("columns", columns ["Name"; "Aadhar No."; "PAN no"; "Voter id no"]);
                          ("data", JList two_members)]);
                  ("bank_accounts", accounts_section [JDict nominee_account])])
              [("columns", account_columns); ("data", JList [JDict nominee_account])]
              "bank_accounts" [JDict nominee_account] edited_account None)
    as [_ [Hmerge _]].
  - reflexivity.
  - reflexivity.
  - reflexivity.
  - repeat constructor; cbn; intuition discriminate.
  - destruct (Hmerge "a1" 0 nominee_account) as [merged [Hstore [Hget _]]].
    + discriminate.
    + reflexivity.
    + exists merged. split; [rewrite Hstore; reflexivity|].
      split; rewrite Hget; reflexivity.
Defined.

(** Saving a member in the extended variant: an identifier no member has
    leaves the whole state as it was, the identifier of a member merges
    the given fields into the member's record, and no identifier appends
    the fields as a new member with the next generated [id]. *)
Theorem extended_save_member_merges_or_appends
        (uuid4 : nat -> string) (refresh : json -> string -> result unit)
        (st : app) (d sec : dict) (members : list json) (new_data : dict) :
  data_store st = JDict d ->
  dict_get "family_info" d = Some (JDict sec) ->
  dict_get "data" sec = Some (JList members) ->
  NoDup (dict_keys new_data) ->
  (forall id,
      id <> "" ->
      find_by_id (JList members) (JStr id) = Ok None ->
      snd (Catalogue.save_member uuid4 refresh new_data (Some id) st) = st) /\
  (forall id i member,
      id <> "" ->
      find_by_id (JList members) (JStr id) = Ok (Some (i, JDict member)) ->
      exists merged,
        data_store (snd (Catalogue.save_member uuid4 refresh new_data (Some id) st))
        = JDict (dict_set "family_info"
                   (JDict (dict_set "data" (JList (list_set i (JDict merged) members))
                                    sec)) d) /\
        (forall k, dict_get k merged = match dict_get k new_data with
                                       | Some v => Some v
                                       | None => dict_get k member
                                       end) /\
        (dict_get "id" new_data = None -> dict_get "id" merged = Some (JStr id))) /\
  data_store (snd (Catalogue.save_member uuid4 refresh new_data None st))
  = JDict (dict_set "family_info"
             (JDict (dict_set "data"
                       (JList (members ++
                               [JDict (dict_set "id" (JStr (uuid4 (uuid_calls st)))
                                                new_data)]))
                       sec)) d).
Proof.
  intros Hst Hs Hd Hnd. split; [|split].
  - intros id Hid Hnone. unfold Catalogue.save_member. rewrite (id_given_some id Hid).
    rewrite snd_bind_reader by (intros; reflexivity).
    unfold bind, get_store, lift, get_member_by_id.
    rewrite Hst. cbn [py_getitem]. rewrite Hs. cbn [rbind py_getitem].
    rewrite Hd. cbn [rbind]. rewrite Hnone. reflexivity.
  - intros id i member Hid Hfind.
    destruct (find_by_id_some _ _ _ _ Hfind) as [_ [fields [[= <-] Hidf]]].
    exists (dict_update member new_data). split; [|split].
    + unfold Catalogue.save_member. rewrite (id_given_some id Hid).
      rewrite snd_bind_reader by (intros; reflexivity).
      unfold bind, get_store, lift, get_member_by_id.
      rewrite Hst. cbn [py_getitem]. rewrite Hs. cbn [rbind py_getitem].
      rewrite Hd. cbn [rbind]. rewrite Hfind, (dict_truthy _ _ _ Hidf).
      rewrite (set_record_at _ _ _ _ _ _ Hs Hd). reflexivity.
    + intros k. now apply dict_update_get.
    + intros Hno. rewrite (dict_update_get _ _ _ Hnd), Hno. exact Hidf.
  - unfold Catalogue.save_member. cbn [id_given].
    rewrite snd_bind_reader by (intros; reflexivity).
    unfold bind, lift, put_store, append_record, set_data. cbn [data_store].
    rewrite Hst. cbn [py_getitem]. rewrite Hs. cbn [rbind py_getitem].
    rewrite Hd. reflexivity.
Qed.

Lemma extended_save_member_witness :
  record_at (data_store (snd (Catalogue.save_member sample_uuid4 tk_ok
                                [("Name", JStr "Meera")] None (app_with sample_store))))
            "family_info" 2
  = Some (JDict [("Name", JStr "Meera"); ("id", JStr "uuid-0")]).
Proof.
  destruct (extended_save_member_merges_or_appends
              sample_uuid4 tk_ok (app_with sample_store)
              (dict_update initialize_data_structures
                 [("family_info",
                   JDict [("columns", columns ["Name"; "Aadhar No."; "PAN no"; "Voter id no"]);
                          ("data", JList two_members)]);
                  ("bank_accounts", accounts_section [JDict (account "a1" "1001" ["m1"; "m2"])])])
              [("columns", columns ["Name"; "Aadhar No."; "PAN no"; "Voter id no"]);
               ("data", JList two_members)]
              two_members [("Name", JStr "Meera")]) as [_ [_ Hstore]].
  - reflexivity.
  - reflexivity.
  - reflexivity.
  - repeat constructor; cbn; intuition discriminate.
  - rewrite Hstore. vm_compute. reflexivity.
Defined.

(** ** Deleting an asset *)

Lemma without_id_dicts (id : json) (records : list json) :
  Forall is_dict records ->
  without_id (JList records) id = Ok (spec_without_id id records).
Proof.
  intros H. unfold without_id, spec_without_id. cbn [py_iter rbind].
  apply rfilter_total. apply Forall_forall. intros r Hr.
  rewrite Forall_forall in H. destruct (H r Hr) as [f ->].
  unfold py_get. destruct (dict_get "id" f); reflexivity.
Qed.

Lemma spec_without_id_kept (id : string) (records : list json) :
  Forall is_dict records ->
  kept (fun r => ~ has_id id r) records (spec_without_id (JStr id) records).
Proof.
  intros H. unfold spec_without_id. apply kept_filter.
  intros r Hr. rewrite Forall_forall in H. destruct (H r Hr) as [f ->].
  destruct (dict_get "id" f) as [i|] eqn:E.
  - rewrite negb_true_iff. split.
    + intros Hne [g [[= <-] Hg]]. rewrite E in Hg. injection Hg as ->.
      cbn [py_eq] in Hne. now rewrite String.eqb_refl in Hne.
    + intros Hno. destruct (py_eq i (JStr id)) eqn:Eq; [|reflexivity].
      exfalso. apply Hno. exists f. split; [reflexivity|].
      apply py_eq_str_iff in Eq. now subst i.
  - split; [|reflexivity]. intros _ [g [[= <-] Hg]]. congruence.
Qed.

Lemma find_by_id_without (id : string) (records : list json) :
  Forall is_dict records ->
  find_by_id (JList (spec_without_id (JStr id) records)) (JStr id) = Ok None.
Proof.
  unfold find_by_id. cbn [py_iter rbind]. unfold spec_without_id.
  set (q := fun r : json => match r with
                            | JDict f =>
                                match dict_get "id" f with
                                | Some i => negb (py_eq i (JStr id))
                                | None => negb (py_eq JNull (JStr id))
                                end
                            | _ => false
                            end).
  induction records as [|r records IH]; intros Hdicts; [reflexivity|].
  inversion Hdicts as [|? ? [f ->] Hrest]; subst. cbn [filter].
  assert (Hget : exists i, py_get (JDict f) "id" JNull = Ok i /\
                           q (JDict f) = negb (py_eq i (JStr id))).
  { unfold q, py_get. destruct (dict_get "id" f) as [i|]; eexists; split; reflexivity. }
  destruct Hget as [i [Hget ->]].
  destruct (py_eq i (JStr id)) eqn:Eq; cbn [negb]; [now apply IH|].
  cbn [rfind]. rewrite (IH Hrest), Hget. cbn [rbind]. rewrite Eq. reflexivity.
Qed.

(** Deleting the asset selected in the tree of a category, in the basic
    variant.  When the user agrees, exactly the records carrying the
    selected identifier are taken out of the category - all of them if
    several carry it - and the others stay in their order; the rest of
    the store is untouched.  When the user declines, only the question is
    added to the dialogs; with no selection only a warning is. *)
Theorem delete_asset_removes_the_selected_records
        (refresh : json -> string -> json -> result unit)
        (st : app) (d sec : dict) (section id : string) (records : list json)
        (member_selected : option string) :
  data_store st = JDict d ->
  dict_get section d = Some (JDict sec) ->
  dict_get "data" sec = Some (JList records) ->
  Forall is_dict records ->
  (exists remaining,
      data_store (snd (Basic.delete_asset refresh section (Some id) true
                         member_selected st))
      = JDict (dict_set section (JDict (dict_set "data" (JList remaining) sec)) d) /\
      kept (fun r => ~ has_id id r) records remaining /\
      subsequence remaining records /\
      find_by_id (JList remaining) (JStr id) = Ok None) /\
  snd (Basic.delete_asset refresh section (Some id) false member_selected st)
  = mkApp (data_store st) (current_file_path st) (search_vars st) (uuid_calls st)
          (dialogs st ++ [askyesno "Confirm Delete" false]) (disk st) /\
  Basic.delete_asset refresh section None true member_selected st
  = show (showwarning "Selection Error") st.
Proof.
  intros Hst Hs Hd Hdicts. split; [|split; reflexivity].
  exists (spec_without_id (JStr id) records).
  pose proof (spec_without_id_kept id records Hdicts) as Hkept.
  split; [|split; [exact Hkept|split; [exact (kept_subsequence _ _ _ Hkept)|]]].
  - unfold Basic.delete_asset.
    unfold bind, show, get_store, lift, put_store, set_data. cbn [data_store].
    rewrite Hst. cbn [py_getitem]. rewrite Hs. cbn [py_getitem rbind]. rewrite Hd.
    rewrite (without_id_dicts _ _ Hdicts). cbn [rbind py_setitem].
    match goal with
    | |- context [Basic.filter_treeview refresh section ?s] =>
        pose proof (filter_treeview_reads refresh section s) as Hf;
        destruct (Basic.filter_treeview refresh section s) as [[u|e] s1];
        cbn [snd] in Hf; subst s1; [|reflexivity]
    end.
    match goal with
    | |- context [Basic.show_member_assets member_selected ?s] =>
        pose proof (show_member_assets_reads member_selected s) as Hf;
        destruct (Basic.show_member_assets member_selected s) as [r s1];
        cbn [snd] in Hf; subst s1; reflexivity
    end.
  - now apply find_by_id_without.
Qed.

Lemma delete_asset_witness :
  records_of (data_store (snd (Basic.delete_asset tk_rows_ok "bank_accounts" (Some "a1")
                                 true None (app_with sample_store))))
             "bank_accounts"
  = Some [].
Proof.
  destruct (delete_asset_removes_the_selected_records
              tk_rows_ok (app_with sample_store)
              (dict_update initialize_data_structures
                 [("family_info",
                   JDict [("columns", columns ["Name"; "Aadhar No."; "PAN no"; "Voter id no"]);
                          ("data", JList two_members)]);
                  ("bank_accounts", accounts_section [JDict (account "a1" "1001" ["m1"; "m2"])])])
              [("columns", account_columns);
               ("data", JList [JDict (account "a1" "1001" ["m1"; "m2"])])]
              "bank_accounts" "a1" [JDict (account "a1" "1001" ["m1"; "m2"])] None)
    as [[remaining [Hstore [Hkept _]]] _].
  - reflexivity.
  - reflexivity.
  - reflexivity.
  - repeat constructor. now eexists.
  - rewrite Hstore. inversion Hkept as [|x l r Hx Hk|x l r Hx Hk]; subst.
    + exfalso. apply Hx. eexists. split; reflexivity.
    + inversion Hk; subst. vm_compute. reflexivity.
Defined.

(** ** The export as a whole *)

(** The export stops at the first record that carries a field the first
    record of its category lacks: the file of the category is left with
    the header and the rows before that record, and the error is the
    writer's [ValueError].  In the rows written, a field a record lacks is
    an empty cell. *)
Theorem export_stops_at_field_unknown_to_first_record
        (can_write : string -> bool) (directory title : string)
        (content : json) (rs : list dict) (first : dict)
        (good rest : list dict) (bad : dict) (st : app) :
  py_getitem content "data" = Ok (JList (map JDict rs)) ->
  rmap (Basic.export_record (data_store st) content) rs
  = Ok (first :: good ++ bad :: rest) ->
  forallb (fits (dict_keys first)) good = true ->
  fits (dict_keys first) bad = false ->
  can_write (csv_path directory title) = true ->
  Basic.export_section can_write directory (title, content) st
  = (Raise (ValueError "dict contains fields not in fieldnames"),
     snd (write_file (csv_path directory title)
            (Csv (dict_keys first)
                 (map (cells (dict_keys first)) (first :: good))) st)).
Proof.
  intros Hdata Hrecs Hgood Hbad Hw.
  exact (export_section_stops can_write directory title content rs first good rest bad
           st Hdata Hrecs Hgood Hbad Hw).
Qed.

Lemma export_stops_witness :
  Basic.export_section (fun _ => true) "/out"
    ("bank_accounts",
     accounts_section [JDict (account "a1" "1001" ["m1"]); JDict nominee_account])
    (app_with (store_with two_members
                 [JDict (account "a1" "1001" ["m1"]); JDict nominee_account]))
  = (Raise (ValueError "dict contains fields not in fieldnames"),
     mkApp (store_with two_members
              [JDict (account "a1" "1001" ["m1"]); JDict nominee_account])
           None (fun _ => "") 0 []
           [("/out/bank_accounts.csv",
             Csv ["Account Type"; "BANK NAME"; "ACCOUNT NO"; "Holders"]
                 [[JStr "Savings"; JStr "SBI"; JStr "1001"; JStr "Asha"]])]).
Proof.
  apply (export_stops_at_field_unknown_to_first_record
           (fun _ => true) "/out" "bank_accounts"
           (accounts_section
              [JDict (account "a1" "1001" ["m1"]); JDict nominee_account])
           [account "a1" "1001" ["m1"]; nominee_account]
           [("Account Type", JStr "Savings"); ("BANK NAME", JStr "SBI");
            ("ACCOUNT NO", JStr "1001"); ("Holders", JStr "Asha")]
           [] []
           [("Account Type", JStr "Savings"); ("BANK NAME", JStr "SBI");
            ("ACCOUNT NO", JStr "1001"); ("Nominee", JStr "Ravi");
            ("Holders", JStr "Asha, Ravi")]
           (app_with (store_with two_members
                        [JDict (account "a1" "1001" ["m1"]); JDict nominee_account]))).
  - reflexivity.
  - vm_compute. reflexivity.
  - reflexivity.
  - reflexivity.
  - reflexivity.
Defined.

(** The whole export of that store: the members' file is complete, the
    accounts' file stops after its first row, and the error is shown. *)
Example export_error_is_reported :
  Basic.export_to_csv (fun _ => true) "/out"
    (app_with (store_with two_members
                 [JDict (account "a1" "1001" ["m1"]); JDict nominee_account]))
  = (Ok tt,
     mkApp (store_with two_members
              [JDict (account "a1" "1001" ["m1"]); JDict nominee_account])
           None (fun _ => "") 0
           [showerror "Export Error"
              (Some (ValueError "dict contains fields not in fieldnames"))]
           [("/out/bank_accounts.csv",
             Csv ["Account Type"; "BANK NAME"; "ACCOUNT NO"; "Holders"]
                 [[JStr "Savings"; JStr "SBI"; JStr "1001"; JStr "Asha"]]);
            ("/out/family_info.csv",
             Csv ["Name"; "Aadhar No."; "PAN no"; "Voter id no"]
                 [[JStr "Asha"; JStr ""; JStr ""; JStr ""];
                  [JStr "Ravi"; JStr ""; JStr ""; JStr ""]])]).
Proof. vm_compute. reflexivity. Qed.

Local Open Scope string_scope.

Lemma string_length_append (a b : string) :
  String.length (a ++ b) = String.length a + String.length b.
Proof. induction a as [|c a IH]; cbn; [reflexivity | now rewrite IH]. Qed.

Lemma append_cancel_l (a x y : string) : a ++ x = a ++ y -> x = y.
Proof. induction a as [|c a IH]; cbn; [auto | intros [= H]; auto]. Qed.

Lemma append_cancel_r (s x y : string) : x ++ s = y ++ s -> x = y.
Proof.
  revert y. induction x as [|c x IH]; intros [|c' y] H; cbn in H.
  - reflexivity.
  - apply (f_equal String.length) in H. cbn in H.
    rewrite string_length_append in H. lia.
  - apply (f_equal String.length) in H. cbn in H.
    rewrite string_length_append in H. lia.
  - injection H as -> H. f_equal. now apply IH.
Qed.


Lemma csv_path_inj (directory t1 t2 : string) :
  starts_with_slash t1 = false -> starts_with_slash t2 = false ->
  csv_path directory t1 = csv_path directory t2 -> t1 = t2.
Proof.
  intros H1 H2. unfold csv_path, path_join.
  assert (Hs : forall t, starts_with_slash t = false ->
                         starts_with_slash (t ++ ".csv") = false).
  { intros [|c t] Ht; [reflexivity | exact Ht]. }
  rewrite (Hs t1 H1), (Hs t2 H2).
  destruct (String.eqb directory ""); [|destruct (ends_with_slash directory)];
    intros H.
  - now apply append_cancel_r in H.
  - apply append_cancel_l in H. now apply append_cancel_r in H.
  - apply append_cancel_l in H. apply append_cancel_l in H.
    now apply append_cancel_r in H.
Qed.

Local Open Scope list_scope.

Lemma read_file_written (path : string) (body : file_body) (st : app) :
  read_file (snd (write_file path body st)) path = Some body.
Proof.
  unfold read_file, write_file. cbn [snd disk find fst].
  now rewrite String.eqb_refl.
Qed.

Lemma read_file_written_other (path p : string) (body : file_body) (st : app) :
  path <> p ->
  read_file (snd (write_file path body st)) p = read_file st p.
Proof.
  intros Hne. unfold read_file, write_file. cbn [snd disk find fst].
  destruct (String.eqb_spec path p) as [E|_]; [contradiction|].
  f_equal. induction (disk st) as [|[q b] l IH]; [reflexivity|].
  cbn [filter find fst]. destruct (String.eqb_spec q path) as [->|Hq]; cbn [negb].
  - destruct (String.eqb_spec path p); [contradiction | exact IH].
  - cbn [find fst]. destruct (String.eqb q p); [reflexivity | exact IH].
Qed.

(** Where the file of a section is put: in the chosen directory, unless
    the name of the section starts with a slash. *)
Example csv_path_examples :
  csv_path "/out" "locker" = "/out/locker.csv"%string /\
  csv_path "/out/" "locker" = "/out/locker.csv"%string /\
  csv_path "/out" "/tmp/x" = "/tmp/x.csv"%string.
Proof. repeat split. Qed.

(** One section of the export, by what [export_body] makes of it. *)
Lemma export_section_body
      (can_write : string -> bool) (directory title : string)
      (content : json) (ob : option file_body) (st : app) :
  can_write (csv_path directory title) = true ->
  export_body (data_store st) content = Ok ob ->
  Basic.export_section can_write directory (title, content) st
  = (Ok tt, match ob with
            | Some body => snd (write_file (csv_path directory title) body st)
            | None => st
            end).
Proof.
  intros Hw. unfold export_body, Basic.export_section, bind, lift, get_store.
  destruct (py_getitem content "data") as [data|e]; [|discriminate]. cbn [rbind].
  destruct (negb (py_truthy data)); [intros [= <-]; reflexivity|].
  destruct (py_iter data) as [items|e]; [|discriminate]. cbn [rbind].
  destruct (rmap Basic.dict_copy items) as [originals|e]; [|discriminate].
  cbn [rbind].
  destruct (rmap (Basic.export_record (data_store st) content) originals)
    as [[|first others]|e]; [intros [= <-]; reflexivity| |discriminate].
  cbn [rbind]. unfold csv_path in Hw. rewrite Hw.
  destruct (Basic.writerows (dict_keys first) (first :: others)) as [rows [e|]];
    [discriminate|].
  intros [= <-]. reflexivity.
Qed.

Lemma export_sections_files
      (can_write : string -> bool) (directory : string) (sections : dict) :
  NoDup (dict_keys sections) ->
  forall st,
    (forall t c, In (t, c) sections ->
                 starts_with_slash t = false /\
                 can_write (csv_path directory t) = true /\
                 exists ob, export_body (data_store st) c = Ok ob) ->
    exists st',
      for_each (Basic.export_section can_write directory) sections st = (Ok tt, st') /\
      data_store st' = data_store st /\
      current_file_path st' = current_file_path st /\
      uuid_calls st' = uuid_calls st /\
      dialogs st' = dialogs st /\
      (forall p, (forall t, In t (dict_keys sections) -> csv_path directory t <> p) ->
                 read_file st' p = read_file st p) /\
      (forall t c ob, In (t, c) sections ->
                      export_body (data_store st) c = Ok ob ->
                      read_file st' (csv_path directory t)
                      = match ob with
                        | Some body => Some body
                        | None => read_file st (csv_path directory t)
                        end).
Proof.
  induction sections as [|[t0 c0] sections IH]; intros Hnd st Hall.
  - exists st. cbn [for_each]. repeat split; try reflexivity. intros t c ob [].
  - cbn [dict_keys map fst] in Hnd. inversion Hnd as [|? ? Hnotin Hnd']; subst.
    destruct (Hall t0 c0 (or_introl eq_refl)) as [Hs0 [Hw0 [ob0 Hob0]]].
    assert (Hslash : forall t, In t (dict_keys sections) -> starts_with_slash t = false).
    { intros t Ht. unfold dict_keys in Ht. apply in_map_iff in Ht as [[t' c'] [<- Hin]].
      now destruct (Hall t' c' (or_intror Hin)) as [Hsl _]. }
    pose proof (export_section_body can_write directory t0 c0 ob0 st Hw0 Hob0) as Hstep.
    set (st1 := match ob0 with
                | Some body => snd (write_file (csv_path directory t0) body st)
                | None => st
                end) in *.
    assert (Hstore1 : data_store st1 = data_store st) by (unfold st1; now destruct ob0).
    destruct (IH Hnd' st1) as [st' [Hrun [Hs [Hp [Hu [Hd [Hother Hfiles]]]]]]].
    { intros t c Hin. rewrite Hstore1. apply Hall. now right. }
    exists st'. split; [|split; [|split; [|split; [|split; [|split]]]]].
    + cbn [for_each]. unfold bind. rewrite Hstep. exact Hrun.
    + now rewrite Hs.
    + rewrite Hp. unfold st1. now destruct ob0.
    + rewrite Hu. unfold st1. now destruct ob0.
    + rewrite Hd. unfold st1. now destruct ob0.
    + intros p Hp'. rewrite Hother.
      * unfold st1. destruct ob0; [|reflexivity].
        apply read_file_written_other. apply Hp'. now left.
      * intros t Ht. apply Hp'. now right.
    + intros t c ob [[= <- <-]|Hin] Hob.
      * rewrite Hob in Hob0. injection Hob0 as <-.
        rewrite Hother.
        -- unfold st1. destruct ob; [apply read_file_written | reflexivity].
        -- intros t Ht E. apply csv_path_inj in E; [|now apply Hslash|exact Hs0].
           subst t. contradiction.
      * rewrite (Hfiles t c ob Hin) by (now rewrite Hstore1).
        destruct ob; [reflexivity|].
        unfold st1. destruct ob0; [|reflexivity].
        apply read_file_written_other. intros E.
        apply csv_path_inj in E;
          [|exact Hs0|now destruct (Hall t c (or_intror Hin)) as [Hsl _]].
        subst t0. apply Hnotin. unfold dict_keys. apply in_map_iff. now exists (t, c).
Qed.

Lemma any_data_of_bodies (store : json) (sections : dict) :
  (forall t c, In (t, c) sections -> exists ob, export_body store c = Ok ob) ->
  (exists t c body, In (t, c) sections /\ export_body store c = Ok (Some body)) ->
  rany (fun sc : string * json =>
          let? d := py_getitem (snd sc) "data" in Ok (py_truthy d)) sections
  = Ok true.
Proof.
  induction sections as [|[t0 c0] sections IH]; intros Hall [t [c [body [Hin Hbody]]]].
  - destruct Hin.
  - cbn [rany snd].
    destruct (Hall t0 c0 (or_introl eq_refl)) as [ob0 Hob0].
    unfold export_body in Hob0.
    destruct (py_getitem c0 "data") as [d|e] eqn:Ed; [|discriminate].
    cbn [rbind] in *. destruct (py_truthy d) eqn:Et; [reflexivity|].
    cbn [negb] in Hob0. injection Hob0 as <-.
    apply IH.
    + intros t' c' Hin'. apply (Hall t' c'). now right.
    + destruct Hin as [[= <- <-]|Hin].
      * unfold export_body in Hbody. rewrite Ed in Hbody. cbn [rbind] in Hbody.
        rewrite Et in Hbody. discriminate.
      * now exists t, c, body.
Qed.

(** The export of a store in which every section can be made ready and
    written, into a directory that was chosen: it succeeds, reports
    "Export Successful" and leaves the store alone; every section with
    records has its file at the directory, named after the section, with
    the header and rows of [export_body], a section without records gets
    no file, and no other file is touched.  (Section names are taken not
    to start with a slash, where [os.path.join] would drop the
    directory.) *)
Theorem export_writes_a_file_for_each_section_with_records
        (can_write : string -> bool) (directory : string)
        (sections : dict) (st : app) :
  data_store st = JDict sections ->
  NoDup (dict_keys sections) ->
  directory <> "" ->
  (forall t c, In (t, c) sections ->
               starts_with_slash t = false /\
               can_write (csv_path directory t) = true /\
               exists ob, export_body (JDict sections) c = Ok ob) ->
  (exists t c body,
      In (t, c) sections /\ export_body (JDict sections) c = Ok (Some body)) ->
  exists st',
    Basic.export_to_csv can_write directory st = (Ok tt, st') /\
    data_store st' = data_store st /\
    dialogs st' = dialogs st ++ [showinfo "Export Successful"] /\
    (forall t c ob,
        In (t, c) sections ->
        export_body (JDict sections) c = Ok ob ->
        read_file st' (csv_path directory t)
        = match ob with
          | Some body => Some body
          | None => read_file st (csv_path directory t)
          end) /\
    (forall p, (forall t, In t (dict_keys sections) -> csv_path directory t <> p) ->
               read_file st' p = read_file st p).
Proof.
  intros Hst Hnd Hdir Hall Hsome.
  destruct (export_sections_files can_write directory sections Hnd st)
    as [st1 [Hrun [Hs [_ [_ [Hd [Hother Hfiles]]]]]]].
  { intros t c Hin. rewrite Hst. exact (Hall t c Hin). }
  exists (snd (show (showinfo "Export Successful") st1)).
  split; [|split; [|split; [|split]]].
  - unfold Basic.export_to_csv, bind, get_store, lift. rewrite Hst.
    rewrite (any_data_of_bodies (JDict sections) sections).
    + cbn [negb]. destruct (String.eqb_spec directory ""); [contradiction|].
      unfold try_except. rewrite Hrun. reflexivity.
    + intros t c Hin. now destruct (Hall t c Hin) as [_ [_ Hob]].
    + exact Hsome.
  - exact Hs.
  - cbn [show snd dialogs]. now rewrite Hd.
  - intros t c ob Hin Hob. rewrite <- Hst in Hob.
    exact (Hfiles t c ob Hin Hob).
  - exact Hother.
Qed.

Lemma export_writes_a_file_witness :
  exists st',
    Basic.export_to_csv (fun _ => true) "/out" (app_with store_after_delete)
    = (Ok tt, st') /\
    read_file st' "/out/bank_accounts.csv"
    = Some (Csv ["Account Type"; "BANK NAME"; "ACCOUNT NO"; "Holders"]
                [[JStr "Savings"; JStr "SBI"; JStr "1001"; JStr "?, Ravi"]]) /\
    read_file st' "/out/locker.csv" = None.
Proof.
  destruct (export_writes_a_file_for_each_section_with_records
              (fun _ => true) "/out"
              (dict_update initialize_data_structures
                 [("family_info",
                   JDict [("columns", columns ["Name"; "Aadhar No."; "PAN no"; "Voter id no"]);
                          ("data", JList [member "m2" "Ravi"])]);
                  ("bank_accounts", accounts_section [JDict (account "a1" "1001" ["m1"; "m2"])])])
              (app_with store_after_delete))
    as [st' [Hrun [_ [_ [Hfiles _]]]]].
  - reflexivity.
  - apply unique_NoDup. vm_compute. reflexivity.
  - discriminate.
  - intros t c Hin. vm_compute in Hin.
    repeat (destruct Hin as [[= <- <-]|Hin];
            [split; [reflexivity|split; [reflexivity|eexists; vm_compute; reflexivity]]|]).
    destruct Hin.
  - exists "bank_accounts", (accounts_section [JDict (account "a1" "1001" ["m1"; "m2"])]).
    eexists. split; [vm_compute; auto 12 | vm_compute; reflexivity].
  - exists st'. split; [exact Hrun|]. split.
    + apply (Hfiles "bank_accounts"
               (accounts_section [JDict (account "a1" "1001" ["m1"; "m2"])])
               (Some (Csv ["Account Type"; "BANK NAME"; "ACCOUNT NO"; "Holders"]
                          [[JStr "Savings"; JStr "SBI"; JStr "1001"; JStr "?, Ravi"]]))).
      * vm_compute. auto 12.
      * vm_compute. reflexivity.
    + apply (Hfiles "locker" (section_of ["Holders"; "BANK NAME"; "LOCKER NO"]) None).
      * vm_compute. auto 12.
      * vm_compute. reflexivity.
Defined.

(** The export of a store none of whose sections has records only shows
    the "Export Empty" warning, whatever directory is given; and when
    some section has records but the directory dialog was cancelled, the
    export does nothing at all. *)
Theorem export_needs_records_and_a_directory
        (can_write : string -> bool) (sections : dict) (st : app) :
  data_store st = JDict sections ->
  (Forall (fun sc : string * json =>
             exists d, py_getitem (snd sc) "data" = Ok d /\ py_truthy d = false)
          sections ->
   forall directory,
     Basic.export_to_csv can_write directory st
     = (Ok tt, mkApp (data_store st) (current_file_path st) (search_vars st)
                     (uuid_calls st) (dialogs st ++ [showwarning "Export Empty"])
                     (disk st))) /\
  ((exists t c body,
       In (t, c) sections /\ export_body (JDict sections) c = Ok (Some body)) ->
   (forall t c, In (t, c) sections -> exists ob, export_body (JDict sections) c = Ok ob) ->
   Basic.export_to_csv can_write "" st = (Ok tt, st)).
Proof.
  intros Hst. split.
  - intros Hempty directory.
    unfold Basic.export_to_csv, bind, get_store, lift. rewrite Hst.
    assert (Hany : rany (fun sc : string * json =>
                           let? d := py_getitem (snd sc) "data" in Ok (py_truthy d))
                        sections = Ok false).
    { clear Hst. induction Hempty as [|sc l [d [Hd Ht]] _ IH]; [reflexivity|].
      cbn [rany]. rewrite Hd. cbn [rbind]. now rewrite Ht. }
    rewrite Hany. cbn [negb]. unfold show. now rewrite Hst.
  - intros Hsome Hall.
    unfold Basic.export_to_csv, bind, get_store, lift. rewrite Hst.
    rewrite (any_data_of_bodies (JDict sections) sections Hall Hsome). reflexivity.
Qed.

Lemma export_needs_records_witness :
  Basic.export_to_csv (fun _ => true) "/out" initial_app
  = (Ok tt, mkApp (JDict initialize_data_structures) None (fun _ => "") 0
                  [showwarning "Export Empty"] []).
Proof.
  destruct (export_needs_records_and_a_directory
              (fun _ => true) initialize_data_structures initial_app eq_refl)
    as [Hempty _].
  apply Hempty. repeat constructor; (eexists; split; reflexivity).
Defined.

(** ** Saving *)

(** "Save As" in the basic variant.  A cancelled dialog changes nothing.
    With a path, the path becomes the current file whether or not the
    file could be written: when it could, the file holds the encoded
    store and "Success" is shown; when it could not, no file is touched
    and "Save Error" is shown.  Either way the next "Save" goes to that
    path without asking, and the store is never changed. *)
Theorem save_as_adopts_the_path_even_when_the_write_fails
        (can_write : string -> bool) (path : string) (st : app) :
  path <> "" ->
  current_file_path (snd (Basic.save_data_as can_write path st)) = Some path /\
  data_store (snd (Basic.save_data_as can_write path st)) = data_store st /\
  (can_write path = true ->
   read_file (snd (Basic.save_data_as can_write path st)) path
   = Some (Text (json_dumps (data_store st))) /\
   dialogs (snd (Basic.save_data_as can_write path st))
   = dialogs st ++ [showinfo "Success"]) /\
  (can_write path = false ->
   disk (snd (Basic.save_data_as can_write path st)) = disk st /\
   dialogs (snd (Basic.save_data_as can_write path st))
   = dialogs st ++ [showerror "Save Error" (Some OSError)]) /\
  (forall answer,
      Basic.save_data_to_file can_write answer
        (snd (Basic.save_data_as can_write path st))
      = Basic._write_to_file can_write path
          (snd (Basic.save_data_as can_write path st))) /\
  Basic.save_data_as can_write "" st = (Ok tt, st).
Proof.
  intros Hpath.
  assert (Hne : String.eqb path "" = false) by now apply String.eqb_neq.
  assert (Hrun : Basic.save_data_as can_write path st
                 = (Ok tt,
                    if can_write path
                    then mkApp (data_store st) (Some path) (search_vars st)
                               (uuid_calls st) (dialogs st ++ [showinfo "Success"])
                               ((path, Text (json_dumps (data_store st)))
                                :: filter (fun f => negb (String.eqb (fst f) path))
                                          (disk st))
                    else mkApp (data_store st) (Some path) (search_vars st)
                               (uuid_calls st)
                               (dialogs st ++ [showerror "Save Error" (Some OSError)])
                               (disk st))).
  { unfold Basic.save_data_as. rewrite Hne.
    unfold Basic._write_to_file, try_except, bind, get_store, raise.
    destruct (can_write path); reflexivity. }
  rewrite Hrun. cbn [snd].
  split; [now destruct (can_write path)|].
  split; [now destruct (can_write path)|].
  split; [intros ->; split; [|reflexivity];
          unfold read_file; cbn [disk find fst]; now rewrite String.eqb_refl|].
  split; [intros ->; split; reflexivity|].
  split; [|reflexivity].
  intros answer. unfold Basic.save_data_to_file.
  destruct (can_write path); cbn [current_file_path]; now rewrite Hne.
Qed.

Lemma save_as_witness :
  current_file_path (snd (Basic.save_data_as (fun _ => false) "/ro/wealth.json"
                            (app_with sample_store)))
  = Some "/ro/wealth.json" /\
  disk (snd (Basic.save_data_as (fun _ => false) "/ro/wealth.json"
               (app_with sample_store))) = [].
Proof.
  destruct (save_as_adopts_the_path_even_when_the_write_fails
              (fun _ => false) "/ro/wealth.json" (app_with sample_store))
    as [Hpath [_ [_ [Hfail _]]]]; [discriminate|].
  split; [exact Hpath|]. now apply Hfail.
Defined.

Lemma with_missing_sections_complete (d : dict) :
  (forall k, In k (dict_keys initialize_data_structures) -> dict_has k d = true) ->
  with_missing_sections d = d.
Proof.
  unfold with_missing_sections. generalize initialize_data_structures as l.
  induction l as [|sc l IH]; intros H; [reflexivity|].
  cbn [fold_left]. rewrite (H (fst sc)) by (now left).
  apply IH. intros k Hk. apply H. now right.
Qed.

Lemma is_new_format_dict (d : dict) (fi : json) :
  dict_get "family_info" d = Some fi ->
  py_in (JStr "columns") fi = Ok true ->
  Catalogue.is_new_format (JDict d) = Ok true.
Proof.
  intros Hfi Hcols. unfold Catalogue.is_new_format. cbn [py_in rbind].
  unfold dict_has. rewrite Hfi. cbn [py_getitem]. rewrite Hfi. exact Hcols.
Qed.

(** "Save" in the extended variant, for a store that is the current
    file's, and then "Open" of that file in whatever state - the session
    that saved it, a later one, with any store at all: the file written
    decodes, through the current-format branch, to the saved store with
    the declared categories it lacks appended; every category of the
    saved store comes back with the same value and in the same place, and
    a store that has the ten declared categories comes back identical.
    Nothing of the store held when the file is opened is left. *)
Theorem extended_save_then_load_restores_store
        (uuid4 : nat -> string) (refresh : json -> string -> result unit)
        (can_write : string -> bool) (path answer : string) (d : dict) (fi : json)
        (selected : option string) (st opened : app) :
  current_file_path st = Some path ->
  path <> "" ->
  can_write path = true ->
  data_store st = JDict d ->
  well_formed (JDict d) = true ->
  dict_get "family_info" d = Some fi ->
  py_in (JStr "columns") fi = Ok true ->
  read_file opened path
  = read_file (snd (Catalogue.save_data_to_file can_write answer st)) path ->
  fst (Catalogue.refresh_all_views refresh selected (adopting_filled opened d)) = Ok tt ->
  exists text,
    read_file opened path = Some (Text text) /\
    data_store (snd (Catalogue.load_data_from_file uuid4 refresh path (Ok text) selected
                       opened))
    = JDict (with_missing_sections d) /\
    (forall k v, dict_get k d = Some v ->
                 dict_get k (with_missing_sections d) = Some v) /\
    ((forall k, In k (dict_keys initialize_data_structures) -> dict_has k d = true) ->
     with_missing_sections d = d).
Proof.
  intros Hcur Hpath Hw Hst Hwf Hfi Hcols.
  assert (Hne : String.eqb path "" = false) by now apply String.eqb_neq.
  assert (Esaved : Catalogue.save_data_to_file can_write answer st
                   = (Ok tt,
                      mkApp (JDict d) (Some path) (search_vars st) (uuid_calls st)
                            (dialogs st ++ [showinfo "Success"])
                            ((path, Text (json_dumps (JDict d)))
                             :: filter (fun f => negb (String.eqb (fst f) path))
                                       (disk st)))).
  { unfold Catalogue.save_data_to_file. rewrite Hcur, Hne.
    unfold Catalogue._write_to_file, try_except, bind, get_store.
    rewrite Hw, Hst. unfold write_file, show. cbn. now rewrite Hst, Hcur. }
  rewrite Esaved. cbn [snd]. intros Hfile Hviews.
  exists (json_dumps (JDict d)). split; [|split; [|split]].
  - rewrite Hfile. unfold read_file. cbn [disk find fst]. now rewrite String.eqb_refl.
  - unfold Catalogue.load_data_from_file. rewrite Hne. cbn [rbind].
    rewrite (json_loads_dumps _ Hwf).
    rewrite (catalogue_load_current_format uuid4 refresh path d selected _
               (is_new_format_dict d fi Hfi Hcols) Hviews).
    reflexivity.
  - intros k v Hk. unfold with_missing_sections.
    rewrite fold_missing_get by apply initial_keys_NoDup. now rewrite Hk.
  - apply with_missing_sections_complete.
Qed.

Lemma extended_save_then_load_witness :
  exists text,
    read_file (restarted (snd (Catalogue.save_data_to_file (fun _ => true) ""
                                 (mkApp sample_store (Some "wealth.json") (fun _ => "")
                                        0 [] []))))
              "wealth.json" = Some (Text text) /\
    data_store (restarted (snd (Catalogue.save_data_to_file (fun _ => true) ""
                                  (mkApp sample_store (Some "wealth.json") (fun _ => "")
                                         0 [] []))))
    = JDict initialize_data_structures /\
    data_store (snd (Catalogue.load_data_from_file sample_uuid4 tk_ok "wealth.json"
                       (Ok text) None
                       (restarted (snd (Catalogue.save_data_to_file (fun _ => true) ""
                                          (mkApp sample_store (Some "wealth.json")
                                                 (fun _ => "") 0 [] []))))))
    = sample_store.
Proof.
  destruct (extended_save_then_load_restores_store
              sample_uuid4 tk_ok (fun _ => true) "wealth.json" ""
              (dict_update initialize_data_structures
                 [("family_info",
                   JDict [("columns", columns ["Name"; "Aadhar No."; "PAN no"; "Voter id no"]);
                          ("data", JList two_members)]);
                  ("bank_accounts", accounts_section [JDict (account "a1" "1001" ["m1"; "m2"])])])
              (JDict [("columns", columns ["Name"; "Aadhar No."; "PAN no"; "Voter id no"]);
                      ("data", JList two_members)])
              None (mkApp sample_store (Some "wealth.json") (fun _ => "") 0 [] [])
              (restarted (snd (Catalogue.save_data_to_file (fun _ => true) ""
                                 (mkApp sample_store (Some "wealth.json") (fun _ => "")
                                        0 [] [])))))
    as [text [Hread [Hload [_ Hsame]]]].
  - reflexivity.
  - discriminate.
  - reflexivity.
  - reflexivity.
  - vm_compute. reflexivity.
  - reflexivity.
  - reflexivity.
  - reflexivity.
  - vm_compute. reflexivity.
  - exists text. split; [exact Hread|]. split; [reflexivity|].
    rewrite Hload, Hsame; [reflexivity|].
    intros k Hk. vm_compute in Hk.
    repeat (destruct Hk as [<-|Hk]; [reflexivity|]). destruct Hk.
Defined.

(** ** The shape of a migrated store *)

Section Shape.

Variable uuid4 : nat -> string.

Let shape_of (d0 : dict) (d : dict) : Prop :=
  Forall2 (fun kv kv0 : string * json =>
             fst kv = fst kv0 /\
             exists cols records,
               snd kv0 = JDict [("columns", cols); ("data", JList [])] /\
               snd kv = JDict [("columns", cols); ("data", JList records)])
          d d0.

Lemma shape_set_data (d0 d : dict) (section : string) (sec : dict)
      (l l' : list json) :
  shape_of d0 d ->
  dict_get section d = Some (JDict sec) ->
  dict_get "data" sec = Some (JList l) ->
  shape_of d0 (dict_set section (JDict (dict_set "data" (JList l') sec)) d).
Proof.
  unfold shape_of. intros H. revert section sec l l'.
  induction H as [|[k v] [k0 v0] d d0 [Hk [cols [records [H0 Hv]]]] Hrest IH];
    intros section sec l l' Hs Hd; [discriminate|].
  cbn [fst snd] in *. subst k0. cbn [dict_get dict_set] in *.
  destruct (String.eqb_spec section k) as [->|Hne].
  - injection Hs as Hs. rewrite Hv in Hs. injection Hs as <-.
    constructor; [|exact Hrest]. cbn [fst snd]. split; [reflexivity|].
    exists cols, l'. split; [exact H0 | reflexivity].
  - constructor; [|now apply (IH section sec l l')].
    cbn [fst snd]. split; [reflexivity|]. now exists cols, records.
Qed.

Lemma shape_get (d0 d : dict) (section : string) (v : json) :
  shape_of d0 d ->
  dict_get section d = Some v ->
  exists cols records, v = JDict [("columns", cols); ("data", JList records)].
Proof.
  unfold shape_of. intros H. induction H as [|[k w] [k0 w0] d d0 [_ [cols [records [_ Hw]]]] _ IH];
    [discriminate|].
  cbn [dict_get snd] in *. destruct (String.eqb section k).
  - intros [= <-]. now exists cols, records.
  - exact IH.
Qed.

(** The new store of a migration is still in shape, whenever there is one. *)
Let in_shape (m : migration) : Prop :=
  match new_store m with
  | Ok s => exists d, s = JDict d /\ shape_of initialize_data_structures d
  | Raise _ => True
  end.

Lemma migrate_list_in_shape (step : nat -> json -> nat * json * option exn)
      (key section : string) (m : migration) :
  in_shape m -> in_shape (Catalogue.migrate_list step key section m).
Proof.
  unfold in_shape, Catalogue.migrate_list. intros H.
  destruct (new_store m) as [store|e] eqn:Es; [|now rewrite Es].
  destruct H as [d [-> Hd]].
  destruct (py_in (JStr key) (old_data_after m)) as [[|]|e]; cbn [new_store];
    [| rewrite Es; now exists d | exact I].
  destruct (py_getitem (old_data_after m) key) as [[| | | |records|]|e];
    cbn [new_store]; try (rewrite Es; now exists d); try exact I.
  destruct (migrate_records step (uuid_calls_after m) records)
    as [[[n' records'] appended] [e|]]; cbn [new_store]; [exact I|].
  cbn [py_getitem]. destruct (dict_get section d) as [sec|] eqn:Esec; [|exact I].
  cbn [rbind]. destruct (shape_get _ _ _ _ Hd Esec) as [cols [l ->]].
  cbn [py_getitem dict_get String.eqb Ascii.eqb Bool.eqb rbind].
  unfold set_data. cbn [py_getitem]. rewrite Esec. cbn [rbind py_setitem].
  eexists. split; [reflexivity|].
  now apply (shape_set_data _ _ _ _ l).
Qed.

Lemma transform_in_shape (n : nat) (old_data : json) :
  in_shape (Catalogue.transform_old_data_format uuid4 n old_data).
Proof.
  unfold Catalogue.transform_old_data_format.
  destruct (py_in (JStr "members") old_data) as [has|e]; [|exact I].
  set (start := Catalogue.migrate_list _ _ _ _).
  assert (Hstart : in_shape start).
  { apply migrate_list_in_shape. unfold in_shape. cbn [new_store].
    exists initialize_data_structures. split; [reflexivity|].
    unfold shape_of. repeat constructor; cbn [fst snd];
      eexists; eexists; split; reflexivity. }
  revert Hstart. generalize start. generalize (dict_keys initialize_data_structures).
  induction l as [|s l IH]; intros m Hm; [exact Hm|].
  cbn [fold_left]. apply IH.
  destruct (String.eqb s "family_info"); [exact Hm|].
  now apply migrate_list_in_shape.
Qed.

End Shape.

Lemma declared_shape_keys (d : dict) :
  declared_shape d -> dict_keys d = dict_keys initialize_data_structures.
Proof.
  unfold declared_shape, dict_keys.
  induction 1 as [|kv kv0 d d0 [Hk _] _ IH]; [reflexivity|].
  cbn [map]. now rewrite Hk, IH.
Qed.

Lemma dict_has_key (k : string) (d : dict) :
  In k (dict_keys d) -> dict_has k d = true.
Proof.
  intros Hin. apply dict_has_get. intros Hnone.
  now apply dict_get_notin in Hnone.
Qed.

(** Whatever document the migration is given, if it yields a store at
    all, the store has exactly the ten declared categories in their
    declared order, each with its declared columns and a list of records.
    Such a store passes the current-format test and lacks no category, so
    a migrated store that was saved loads again without migration. *)
Theorem migrated_store_has_the_declared_shape
        (uuid4 : nat -> string) (n : nat) (old_data store : json) :
  new_store (Catalogue.transform_old_data_format uuid4 n old_data) = Ok store ->
  exists d,
    store = JDict d /\
    declared_shape d /\
    dict_keys d = dict_keys initialize_data_structures /\
    Catalogue.is_new_format store = Ok true /\
    Catalogue.fill_missing_sections store = Ok store.
Proof.
  intros Hstore. pose proof (transform_in_shape uuid4 n old_data) as H.
  cbv beta zeta in H. rewrite Hstore in H. destruct H as [d [-> Hd]].
  change (declared_shape d) in Hd.
  exists d. split; [reflexivity|]. split; [exact Hd|].
  pose proof (declared_shape_keys d Hd) as Hkeys.
  split; [exact Hkeys|]. split.
  - unfold declared_shape, initialize_data_structures in Hd.
    inversion Hd as [|[k v] kv0 d' d0 [Hk [cols [l [H0 Hv]]]] _]; subst.
    cbn [fst snd] in *. subst k v.
    apply (is_new_format_dict _ (JDict [("columns", cols); ("data", JList l)])).
    + reflexivity.
    + reflexivity.
  - rewrite fill_missing_dict. f_equal. f_equal.
    apply with_missing_sections_complete. intros k Hk.
    apply dict_has_key. now rewrite Hkeys.
Qed.

Lemma migrated_store_shape_witness :
  exists d,
    new_store (Catalogue.transform_old_data_format sample_uuid4 0 (JDict legacy_doc))
    = Ok (JDict d) /\
    dict_keys d = dict_keys initialize_data_structures /\
    Catalogue.is_new_format (JDict d) = Ok true.
Proof.
  destruct (migrated_store_has_the_declared_shape sample_uuid4 0 (JDict legacy_doc)
              (match new_store (Catalogue.transform_old_data_format
                                  sample_uuid4 0 (JDict legacy_doc)) with
               | Ok s => s
               | Raise _ => JNull
               end))
    as [d [Hd [_ [Hkeys [Hnew _]]]]].
  - vm_compute. reflexivity.
  - exists d. rewrite <- Hd. split; [vm_compute; reflexivity|].
    split; [exact Hkeys | exact Hnew].
Defined.

(** ** The rows shown in the trees *)

Lemma is_holder_column_str (c : string) :
  is_holder_column (JStr c) = Ok (names_holders c).
Proof.
  unfold is_holder_column, names_holders. cbn [py_in existsb py_eq].
  rewrite (String.eqb_sym "Holders" c), (String.eqb_sym "Owners" c).
  now rewrite orb_false_r.
Qed.

Lemma py_get_holders (r : dict) :
  py_get (JDict r) "holders" (JList []) = Ok (holders_of r).
Proof. unfold py_get, holders_of. now destruct (dict_get "holders" r). Qed.

Lemma tree_row_basic
      (store : json) (cols : list string) (r : dict) (ids : list json)
      (names : list string) :
  holders_of r = JList ids ->
  shown_names "?" store ids = Ok (map JStr names) ->
  Basic.row_values store (columns cols) (JDict r)
  = Ok (map (fun c => if names_holders c then JStr (str_join ", " names)
                      else stored r c) cols).
Proof.
  intros Hids Hnames.
  assert (Hjoin : py_join ", " (map JStr names) = Ok (str_join ", " names)).
  { unfold py_join.
    assert (Hs : strs_of (map JStr names) = Some names).
    { clear. induction names as [|n names IH]; [reflexivity|].
      cbn [map strs_of]. now rewrite IH. }
    now rewrite Hs. }
  unfold Basic.row_values, columns. cbn [py_iter rbind].
  induction cols as [|c cols IH]; [reflexivity|].
  cbn [map rmap]. rewrite is_holder_column_str. cbn [rbind].
  rewrite IH. destruct (names_holders c).
  - rewrite py_get_holders, Hids. cbn [rbind py_iter]. rewrite Hnames.
    cbn [rbind]. rewrite Hjoin. reflexivity.
  - reflexivity.
Qed.

(** A row of a tree of the basic variant has one cell for each column of
    the schema and nothing else: the holder column holds the names of the
    holders that are members, joined by ", ", and every other column the
    record's value for it, empty when the record has none.  Attributes
    outside the schema, [id] and [holders] among them, are not shown. *)
Theorem tree_row_shows_the_schema_columns
        (store : json) (cols : list string) (r : dict) (ids : list json)
        (names : list string) :
  holders_of r = JList ids ->
  shown_names "?" store ids = Ok (map JStr names) ->
  Basic.row_values store (columns cols) (JDict r)
  = Ok (map (fun c => if names_holders c then JStr (str_join ", " names)
                      else stored r c) cols) /\
  ((forall c, In c cols -> names_holders c = false) ->
   Basic.row_values store (columns cols) (JDict r) = Ok (map (stored r) cols)).
Proof.
  intros Hids Hnames.
  pose proof (tree_row_basic store cols r ids names Hids Hnames) as Hrow.
  split; [exact Hrow|]. intros Hnone. rewrite Hrow. f_equal.
  apply map_ext_in. intros c Hc. now rewrite (Hnone c Hc).
Qed.

Lemma tree_row_witness :
  Basic.row_values sample_store account_columns
    (JDict (account "a1" "1001" ["m1"; "m2"]))
  = Ok [JStr "Asha, Ravi"; JStr "Savings"; JStr "SBI"; JStr "1001"].
Proof.
  apply (tree_row_shows_the_schema_columns
           sample_store ["Holders"; "Account Type"; "BANK NAME"; "ACCOUNT NO"]
           (account "a1" "1001" ["m1"; "m2"]) [JStr "m1"; JStr "m2"] ["Asha"; "Ravi"]).
  - reflexivity.
  - reflexivity.
Defined.

Lemma shown_names_member (default : string) (store hid : json) (i : nat) (m : dict)
      (rest : list json) :
  get_member_by_id store hid = Ok (Some (i, JDict m)) ->
  m <> [] ->
  shown_names default store (hid :: rest)
  = (let? others := shown_names default store rest in
     Ok (match dict_get "Name" m with Some v => v | None => JStr default end :: others)).
Proof.
  intros Hm Hne. cbn [shown_names]. rewrite Hm. cbn [rbind].
  destruct m as [|kv m]; [contradiction|]. cbn [py_truthy py_get].
  destruct (dict_get "Name" (kv :: m)); cbn [rbind];
    destruct (shown_names default store rest); reflexivity.
Qed.



Lemma py_join_strs (sep : string) (names : list string) :
  py_join sep (map JStr names) = Ok (str_join sep names).
Proof.
  unfold py_join.
  assert (Hs : strs_of (map JStr names) = Some names).
  { induction names as [|n names IH]; [reflexivity|].
    cbn [map strs_of]. now rewrite IH. }
  now rewrite Hs.
Qed.

(** A row of an asset tree of the extended variant always starts with the
    holder cell and goes on with the columns that are not the holder
    column, whatever the schema says: it is the row of the basic variant
    when the schema starts with its only holder column (and the two
    variants name the holders alike), and it has one cell more than the
    schema has columns when the schema has no holder column. *)
Theorem extended_row_leads_with_the_holders
        (store : json) (cols : list string) (r : dict) (ids : list json)
        (names : list string) :
  holders_of r = JList ids ->
  shown_names "Unknown" store ids = Ok (map JStr names) ->
  Catalogue.asset_row store (columns cols) (JDict r)
  = Ok (JStr (str_join ", " names)
        :: map (stored r) (filter (fun c => negb (names_holders c)) cols)) /\
  (forall h others,
      cols = h :: others ->
      names_holders h = true ->
      (forall c, In c others -> names_holders c = false) ->
      shown_names "?" store ids = Ok (map JStr names) ->
      Catalogue.asset_row store (columns cols) (JDict r)
      = Basic.row_values store (columns cols) (JDict r)) /\
  ((forall c, In c cols -> names_holders c = false) ->
   Catalogue.asset_row store (columns cols) (JDict r)
   = Ok (JStr (str_join ", " names) :: map (stored r) cols)).
Proof.
  intros Hids Hnames.
  assert (Hfilter : forall l,
             rfilter (fun col => let? holder := is_holder_column col in
                                 Ok (negb holder)) (map JStr l)
             = Ok (map JStr (filter (fun c => negb (names_holders c)) l))).
  { induction l as [|c l IH]; [reflexivity|].
    cbn [map rfilter filter]. rewrite is_holder_column_str. cbn [rbind].
    rewrite IH. cbn [rbind]. now destruct (names_holders c). }
  assert (Hcells : forall l,
             rmap (fun col => py_get_any (JDict r) col (JStr "")) (map JStr l)
             = Ok (map (stored r) l)).
  { induction l as [|c l IH]; [reflexivity|].
    cbn [map rmap]. rewrite IH. reflexivity. }
  assert (Hrow : Catalogue.asset_row store (columns cols) (JDict r)
                 = Ok (JStr (str_join ", " names)
                       :: map (stored r) (filter (fun c => negb (names_holders c)) cols))).
  { unfold Catalogue.asset_row. rewrite py_get_holders, Hids.
    cbn [rbind py_iter]. rewrite Hnames. cbn [rbind]. rewrite py_join_strs.
    unfold columns. cbn [rbind py_iter]. rewrite Hfilter. cbn [rbind].
    now rewrite Hcells. }
  assert (Hfree : forall l, (forall c, In c l -> names_holders c = false) ->
                            filter (fun c => negb (names_holders c)) l = l).
  { intros l Hl. apply filter_id. intros c Hc. now rewrite (Hl c Hc). }
  split; [exact Hrow|]. split.
  - intros h others -> Hh Hothers Hbasic.
    pose proof (tree_row_basic store (h :: others) r ids names Hids Hbasic) as Hb.
    rewrite Hrow, Hb. cbn [filter map]. rewrite Hh. cbn [negb].
    rewrite (Hfree others Hothers). f_equal. f_equal.
    apply map_ext_in. intros c Hc. now rewrite (Hothers c Hc).
  - intros Hnone. rewrite Hrow. now rewrite (Hfree cols Hnone).
Qed.

Lemma extended_row_witness :
  Catalogue.asset_row sample_store account_columns
    (JDict (account "a1" "1001" ["m1"; "m2"]))
  = Ok [JStr "Asha, Ravi"; JStr "Savings"; JStr "SBI"; JStr "1001"] /\
  Catalogue.asset_row sample_store (columns ["BANK NAME"; "ACCOUNT NO"])
    (JDict (account "a1" "1001" ["m1"; "m2"]))
  = Ok [JStr "Asha, Ravi"; JStr "SBI"; JStr "1001"].
Proof.
  destruct (extended_row_leads_with_the_holders
              sample_store ["Holders"; "Account Type"; "BANK NAME"; "ACCOUNT NO"]
              (account "a1" "1001" ["m1"; "m2"]) [JStr "m1"; JStr "m2"] ["Asha"; "Ravi"]
              eq_refl eq_refl) as [Hfirst _].
  destruct (extended_row_leads_with_the_holders
              sample_store ["BANK NAME"; "ACCOUNT NO"]
              (account "a1" "1001" ["m1"; "m2"]) [JStr "m1"; JStr "m2"] ["Asha"; "Ravi"]
              eq_refl eq_refl) as [Hshifted _].
  split; [exact Hfirst | exact Hshifted].
Defined.

(** ** Narrowing a search *)

Local Open Scope string_scope.

Lemma occurs_in_trans (a b c : string) :
  occurs_in a b -> occurs_in b c -> occurs_in a c.
Proof.
  intros [p1 [q1 ->]] [p2 [q2 ->]]. exists (p2 ++ p1), (q1 ++ q2).
  clear. induction p2 as [|x p2 IH]; cbn.
  - induction p1 as [|y p1 IH]; cbn; [|now rewrite IH].
    induction a as [|z a IH]; cbn; [reflexivity | now rewrite IH].
  - now rewrite IH.
Qed.

Local Open Scope list_scope.

Lemma filtered_records_filter (store : json) (section search : string)
      (records : list json) :
  records_of store section = Some records ->
  Forall is_dict records ->
  search <> "" ->
  Basic.filtered_records store section search
  = Ok (JList (filter (matchesb search) records)).
Proof.
  intros Hrec Hdict Hne.
  destruct (records_of_getitem _ _ _ Hrec) as [sec [Hsec Hdata]].
  unfold Basic.filtered_records. rewrite Hsec. cbn [rbind]. rewrite Hdata.
  cbn [rbind].
  destruct (String.eqb_spec (lower search) "") as [E|_].
  { apply (proj1 (lower_empty _)) in E. congruence. }
  cbn [py_iter rbind]. rewrite (rfilter_total _ (matchesb search)); [reflexivity|].
  rewrite Forall_forall in *. intros rec Hin.
  destruct (Hdict _ Hin) as [fields ->]. reflexivity.
Qed.

Lemma filter_subsequence {A} (p q : A -> bool) (l : list A) :
  (forall x, In x l -> q x = true -> p x = true) ->
  subsequence (filter q l) (filter p l).
Proof.
  induction l as [|x l IH]; intros H; cbn [filter]; [constructor|].
  assert (Hl : forall y, In y l -> q y = true -> p y = true)
    by (intros y Hy; apply H; now right).
  destruct (q x) eqn:Eq.
  - rewrite (H x (or_introl eq_refl) Eq). constructor. now apply IH.
  - destruct (p x); [constructor|]; now apply IH.
Qed.

Lemma subsequence_In {A} (r l : list A) :
  subsequence r l -> forall x, In x r -> In x l.
Proof.
  induction 1 as [|x l r _ IH|x l r _ IH]; intros y Hy.
  - destruct Hy.
  - destruct Hy as [<-|Hy]; [now left | right; now apply IH].
  - right. now apply IH.
Qed.

(** Narrowing the search narrows the result.  When the term [t1] occurs
    in the term [t2], letter case aside, every record the filter keeps
    for [t2] it also keeps for [t1], and in the same order; two terms
    that differ in letter case only give the same result. *)
Theorem narrowing_the_search_narrows_the_result
        (store : json) (section t1 t2 : string) (records : list json) :
  records_of store section = Some records ->
  Forall is_dict records ->
  t1 <> "" ->
  occurs_in (lower t1) (lower t2) ->
  (exists r1 r2,
      Basic.filtered_records store section t1 = Ok (JList r1) /\
      Basic.filtered_records store section t2 = Ok (JList r2) /\
      subsequence r2 r1 /\
      (forall rec, In rec r2 -> In rec r1)) /\
  (lower t1 = lower t2 ->
   Basic.filtered_records store section t1 = Basic.filtered_records store section t2).
Proof.
  intros Hrec Hdict Hne Hocc.
  assert (Hne2 : t2 <> "").
  { intros ->. destruct Hocc as [p [q E]]. cbn [lower] in E.
    destruct p; [|discriminate]. cbn in E.
    destruct (lower t1) eqn:El; [|discriminate].
    apply (proj1 (lower_empty _)) in El. contradiction. }
  split.
  - exists (filter (matchesb t1) records), (filter (matchesb t2) records).
    assert (Hsub : subsequence (filter (matchesb t2) records)
                               (filter (matchesb t1) records)).
    { apply filter_subsequence. intros rec Hin.
      rewrite Forall_forall in Hdict. destruct (Hdict _ Hin) as [fields ->].
      unfold matchesb. rewrite !existsb_values.
      intros [k [v [Hi Hc]]]. exists k, v. split; [exact Hi|].
      rewrite str_contains_iff in *. exact (occurs_in_trans _ _ _ Hocc Hc). }
    split; [now apply filtered_records_filter|].
    split; [now apply filtered_records_filter|].
    split; [exact Hsub | exact (subsequence_In _ _ Hsub)].
  - intros E. unfold Basic.filtered_records. now rewrite E.
Qed.

Lemma narrowing_the_search_witness :
  exists r1 r2,
    Basic.filtered_records sample_store "family_info" "A" = Ok (JList r1) /\
    Basic.filtered_records sample_store "family_info" "rav" = Ok (JList r2) /\
    subsequence r2 r1.
Proof.
  destruct (narrowing_the_search_narrows_the_result
              sample_store "family_info" "A" "rav" two_members)
    as [[r1 [r2 [H1 [H2 [Hsub _]]]]] _].
  - reflexivity.
  - repeat constructor; eexists; reflexivity.
  - discriminate.
  - exists "r", "v". reflexivity.
  - now exists r1, r2.
Defined.

(** ** The assets listed for a member *)

Lemma rmap_total {A B} (f : A -> result B) (g : A -> B) (l : list A) :
  (forall x, In x l -> f x = Ok (g x)) -> rmap f l = Ok (map g l).
Proof.
  induction l as [|x l IH]; intros H; [reflexivity|].
  cbn [rmap map]. rewrite (H x (or_introl eq_refl)). cbn [rbind].
  rewrite IH; [reflexivity|]. intros y Hy. apply H. now right.
Qed.

Lemma rmap_succeeds {A B} (f : A -> result B) (l : list A) :
  (forall x, In x l -> exists y, f x = Ok y) -> exists ys, rmap f l = Ok ys.
Proof.
  induction l as [|x l IH]; intros H; [now exists []|].
  destruct (H x (or_introl eq_refl)) as [y Hy].
  destruct IH as [ys Hys]; [intros z Hz; apply H; now right|].
  exists (y :: ys). cbn [rmap]. now rewrite Hy, Hys.
Qed.

Lemma held_filter (id : string) (recs : list json) :
  forallb lists_holders recs = true ->
  rfilter (fun asset => let? h := py_get asset "holders" (JList []) in
                        py_in (JStr id) h) recs
  = Ok (filter (held_by id) recs).
Proof.
  intros H. apply rfilter_total. apply Forall_forall. intros rec Hin.
  rewrite forallb_forall in H. specialize (H rec Hin).
  destruct rec as [| | | | |r]; try discriminate.
  unfold lists_holders in H. unfold held_by, py_get.
  destruct (dict_get "holders" r) as [[| | | |hs|]|]; try discriminate; reflexivity.
Qed.

Lemma assets_of_data (v : json) (recs : list json) :
  assets_of v = Some recs ->
  py_getitem v "data" = Ok (JList recs) /\ forallb lists_holders recs = true.
Proof.
  destruct v as [| | | | |c]; try discriminate. unfold assets_of. cbn [py_getitem].
  destruct (dict_get "data" c) as [[| | | |l|]|]; try discriminate.
  destruct (forallb lists_holders l) eqn:E; [|discriminate].
  intros [= <-]. now split.
Qed.

(** What both variants list for the member selected in the members tree,
    in a store whose asset sections hold lists of records: the sections
    other than the members', in store order, each with exactly the assets
    that have the member among their holders, in their order, and the
    sections in which the member holds nothing left out.  The basic
    variant also needs a title for every asset it lists.  Without a
    selection, or when no member has the selected identifier, nothing is
    listed. *)
Theorem member_assets_are_the_assets_held
        (sections : dict) (sel : string) (i : nat) (member : dict) :
  get_member_by_id (JDict sections) (JStr sel) = Ok (Some (i, JDict member)) ->
  (forall t v, In (t, v) sections -> t <> "family_info" -> assets_of v <> None) ->
  Catalogue.display_member_assets (JDict sections) (Some sel)
  = Ok (assets_held sel sections) /\
  ((forall t held asset, In (t, held) (assets_held sel sections) -> In asset held ->
                         exists title, Basic.asset_title asset = Ok title) ->
   Basic.display_member_assets (JDict sections) (Some sel)
   = Ok (assets_held sel sections)) /\
  (forall t held asset,
      In (t, held) (assets_held sel sections) -> In asset held ->
      t <> "family_info" /\ held_by sel asset = true /\
      exists v recs, In (t, v) sections /\ assets_of v = Some recs /\ In asset recs) /\
  (forall t v recs asset,
      In (t, v) sections -> t <> "family_info" -> assets_of v = Some recs ->
      In asset recs -> held_by sel asset = true ->
      exists held, In (t, held) (assets_held sel sections) /\ In asset held).
Proof.
  intros Hfind Hsections.
  assert (Hmember : py_truthy (JDict member) = true /\
                    py_get (JDict member) "id" JNull = Ok (JStr sel)).
  { unfold get_member_by_id in Hfind.
    destruct (py_getitem (JDict sections) "family_info") as [fi|]; [|discriminate].
    cbn [rbind] in Hfind.
    destruct (py_getitem fi "data") as [data|]; [|discriminate]. cbn [rbind] in Hfind.
    unfold find_by_id in Hfind.
    destruct (py_iter data) as [items|]; [|discriminate]. cbn [rbind] in Hfind.
    apply rfind_some in Hfind as [_ Hp]. cbn [py_get] in *.
    destruct (dict_get "id" member) as [v|] eqn:E; cbn [rbind] in Hp.
    - injection Hp as Hp. apply py_eq_str_iff in Hp. subst v.
      split; [now apply (dict_truthy member "id" (JStr sel)) | reflexivity].
    - discriminate. }
  destruct Hmember as [Htruthy Hid].
  split; [|split; [|split]].
  - unfold Catalogue.display_member_assets. rewrite Hfind. cbn [rbind].
    rewrite Htruthy. cbn [negb].
    rewrite (rmap_total _ (fun sc : string * json =>
               if String.eqb (fst sc) "family_info" then []
               else match assets_of (snd sc) with
                    | Some recs => match filter (held_by sel) recs with
                                   | [] => []
                                   | held => [(fst sc, held)]
                                   end
                    | None => []
                    end)); [reflexivity|].
    intros [t v] Hin. cbn [fst snd].
    destruct (String.eqb_spec t "family_info") as [|Hne]; [reflexivity|].
    destruct (assets_of v) as [recs|] eqn:Ea; [|now destruct (Hsections t v Hin Hne)].
    destruct (assets_of_data v recs Ea) as [Hdata Hrecs].
    rewrite Hdata. cbn [rbind py_iter]. rewrite (held_filter sel recs Hrecs).
    cbn [rbind]. now destruct (filter (held_by sel) recs).
  - intros Htitles.
    unfold Basic.display_member_assets. rewrite Hfind. cbn [rbind].
    rewrite Htruthy. cbn [negb]. rewrite Hid. cbn [rbind].
    rewrite (rmap_total _ (fun sc : string * json =>
               if String.eqb (fst sc) "family_info" then []
               else match assets_of (snd sc) with
                    | Some recs => match filter (held_by sel) recs with
                                   | [] => []
                                   | held => [(fst sc, held)]
                                   end
                    | None => []
                    end)); [reflexivity|].
    intros [t v] Hin. cbn [fst snd].
    destruct (String.eqb_spec t "family_info") as [|Hne]; [reflexivity|].
    destruct (assets_of v) as [recs|] eqn:Ea; [|now destruct (Hsections t v Hin Hne)].
    destruct (assets_of_data v recs Ea) as [Hdata Hrecs].
    unfold Basic.member_assets. rewrite Hdata. cbn [rbind py_iter].
    rewrite (held_filter sel recs Hrecs). cbn [rbind].
    destruct (filter (held_by sel) recs) as [|a held] eqn:Ef; [reflexivity|].
    destruct (rmap_succeeds Basic.asset_title (a :: held)) as [titles ->];
      [|reflexivity].
    intros asset Hasset. apply (Htitles t (a :: held)); [|exact Hasset].
    unfold assets_held. apply in_concat. exists [(t, a :: held)].
    split; [|now left]. apply in_map_iff. exists (t, v). split; [|exact Hin].
    cbn [fst snd]. destruct (String.eqb_spec t "family_info"); [contradiction|].
    now rewrite Ea, Ef.
  - intros t held asset Hin Hasset. unfold assets_held in Hin.
    apply in_concat in Hin as [group [Hgroup Hin]].
    apply in_map_iff in Hgroup as [[t0 v] [<- Hsc]]. cbn [fst snd] in Hin.
    destruct (String.eqb_spec t0 "family_info") as [|Hne]; [destruct Hin|].
    destruct (assets_of v) as [recs|] eqn:Ea; [|destruct Hin].
    destruct (filter (held_by sel) recs) as [|a l] eqn:Ef; [destruct Hin|].
    destruct Hin as [[= <- <-]|[]].
    rewrite <- Ef in Hasset. apply filter_In in Hasset as [Hrec Hheld].
    split; [exact Hne|]. split; [exact Hheld|]. now exists v, recs.
  - intros t v recs asset Hin Hne Ea Hrec Hheld.
    assert (Hf : In asset (filter (held_by sel) recs)) by (apply filter_In; now split).
    exists (filter (held_by sel) recs). split; [|exact Hf].
    unfold assets_held. apply in_concat.
    exists [(t, filter (held_by sel) recs)]. split; [|now left].
    apply in_map_iff. exists (t, v). split; [|exact Hin]. cbn [fst snd].
    destruct (String.eqb_spec t "family_info"); [contradiction|].
    rewrite Ea. destruct (filter (held_by sel) recs); [destruct Hf | reflexivity].
Qed.

Lemma member_assets_witness :
  Catalogue.display_member_assets sample_store (Some "m1")
  = Ok [("bank_accounts", [JDict (account "a1" "1001" ["m1"; "m2"])])].
Proof.
  destruct (member_assets_are_the_assets_held
              (dict_update initialize_data_structures
                 [("family_info",
                   JDict [("columns", columns ["Name"; "Aadhar No."; "PAN no"; "Voter id no"]);
                          ("data", JList two_members)]);
                  ("bank_accounts", accounts_section [JDict (account "a1" "1001" ["m1"; "m2"])])])
              "m1" 0
              [("Name", JStr "Asha"); ("Aadhar No.", JStr ""); ("PAN no", JStr "");
               ("Voter id no", JStr ""); ("id", JStr "m1")])
    as [Hlist _].
  - reflexivity.
  - intros t v Hin Hne. vm_compute in Hin.
    repeat (destruct Hin as [[= <- <-]|Hin]; [try contradiction; discriminate|]).
    destruct Hin.
  - exact Hlist.
Defined.

(** ** Deleting a member in the extended variant *)

Lemma catalogue_drop_holder_spec (id : string) (rec : json) :
  holds_at_most_once (JStr id) rec = true ->
  Catalogue.drop_holder id rec = (spec_drop_holder (JStr id) rec, None).
Proof.
  destruct rec as [| | | | |r]; try discriminate.
  unfold holds_at_most_once, Catalogue.drop_holder, spec_drop_holder.
  cbn [py_get py_getitem].
  destruct (dict_get "holders" r) as [[| | | |hs|]|] eqn:E; try discriminate.
  - intros Hlen. apply Nat.leb_le in Hlen. cbn [rbind py_in].
    destruct (existsb (fun h => py_eq h (JStr id)) hs) eqn:Ex; [|reflexivity].
    cbn [rbind]. unfold py_remove. rewrite (list_remove_filter (JStr id) hs Hlen Ex).
    reflexivity.
  - reflexivity.
Qed.

Lemma catalogue_drop_in_section_spec (id : string) (v : json) (b : bool) :
  tidy_section (JStr id) v = true ->
  Catalogue.has_holder_column v = Ok b ->
  Catalogue.drop_holder_in_section id v = (spec_drop_in_section_x (JStr id) v, None).
Proof.
  intros Htidy Hb. unfold Catalogue.drop_holder_in_section, spec_drop_in_section_x.
  rewrite Hb. destruct b; [|reflexivity].
  destruct v as [| | | | |c]; try discriminate.
  unfold tidy_section in Htidy. cbn [spec_drop_in_section].
  destruct (dict_get "data" c) as [[| | | |recs|]|]; try discriminate.
  unfold for_each_item.
  rewrite (for_each_mut_map _ (spec_drop_holder (JStr id))); [reflexivity|].
  intros x Hx. apply catalogue_drop_holder_spec.
  rewrite forallb_forall in Htidy. now apply Htidy.
Qed.

Lemma catalogue_drop_everywhere_spec (id : string) (sections : dict) :
  tidy_store (JStr id) sections = true ->
  (forall t v, In (t, v) sections -> exists b, Catalogue.has_holder_column v = Ok b) ->
  Catalogue.drop_holder_everywhere id (JDict sections)
  = (JDict (map (fun sc => (fst sc, spec_drop_in_section_x (JStr id) (snd sc))) sections),
     None).
Proof.
  intros Htidy Hcols. unfold Catalogue.drop_holder_everywhere.
  rewrite (for_each_mut_map _
             (fun sc => (fst sc, spec_drop_in_section_x (JStr id) (snd sc))));
    [reflexivity|].
  intros [t v] Hsc. cbn [fst snd]. destruct (Hcols t v Hsc) as [b Hb].
  rewrite (catalogue_drop_in_section_spec id v b); [reflexivity| |exact Hb].
  unfold tidy_store in Htidy. rewrite forallb_forall in Htidy.
  exact (Htidy _ Hsc).
Qed.

Lemma has_holder_column_set_data (c : dict) (old new : json) :
  dict_get "data" c = Some old ->
  Catalogue.has_holder_column (JDict (dict_set "data" new c))
  = Catalogue.has_holder_column (JDict c).
Proof.
  intros Hold. unfold Catalogue.has_holder_column. cbn [py_in py_getitem].
  unfold dict_has. rewrite !dict_get_set. cbn [String.eqb Ascii.eqb Bool.eqb].
  now rewrite Hold.
Qed.

Lemma in_dict_set (k : string) (v : json) (d : dict) (kv : string * json) :
  In kv (dict_set k v d) -> kv = (k, v) \/ In kv d.
Proof.
  induction d as [|[k' v'] d IH]; cbn [dict_set].
  - intros [<-|[]]. now left.
  - destruct (String.eqb k k').
    + intros [<-|H]; [now left | right; now right].
    + intros [<-|H]; [right; now left|].
      destruct (IH H) as [->|H']; [now left | right; now right].
Qed.

Lemma in_dict_set_other (k : string) (v : json) (d : dict) (t : string) (w : json) :
  t <> k -> In (t, w) d -> In (t, w) (dict_set k v d).
Proof.
  intros Hne. induction d as [|[k' v'] d IH]; [intros []|].
  cbn [dict_set]. destruct (String.eqb_spec k k') as [<-|Hk].
  - intros [[= <- <-]|H]; [contradiction | now right].
  - intros [H|H]; [now left | right; now apply IH].
Qed.

(** Deleting a member in the extended variant, from a store whose
    sections hold lists of records none of which lists the member twice.
    The member is gone, and so is its identifier from the holders of the
    records of every section whose schema has a "Holders" or "Owners"
    column; a section whose schema has neither is not gone through, and
    its records keep the identifier among their holders.  When no member
    has the selected identifier an error is shown and nothing changes. *)
Theorem extended_delete_member_cleans_sections_with_a_holder_column
        (refresh : json -> string -> result unit) (id : string)
        (sections cfi : dict) (members : list json) (reselected : option string)
        (st : app) :
  data_store st = JDict sections ->
  dict_get "family_info" sections = Some (JDict cfi) ->
  dict_get "data" cfi = Some (JList members) ->
  tidy_store (JStr id) sections = true ->
  (forall t v, In (t, v) sections -> exists b, Catalogue.has_holder_column v = Ok b) ->
  (forall i member,
      find_by_id (JList members) (JStr id) = Ok (Some (i, JDict member)) ->
      exists sections',
        data_store (snd (Catalogue.delete_member refresh (Some id) true reselected st))
        = JDict sections' /\
        dict_keys sections' = dict_keys sections /\
        get_member_by_id (JDict sections') (JStr id) = Ok None /\
        (forall t v' c recs r hs,
            In (t, v') sections' ->
            Catalogue.has_holder_column v' = Ok true ->
            v' = JDict c -> dict_get "data" c = Some (JList recs) ->
            In (JDict r) recs -> dict_get "holders" r = Some (JList hs) ->
            py_in (JStr id) (JList hs) = Ok false) /\
        (forall t v,
            In (t, v) sections -> t <> "family_info" ->
            Catalogue.has_holder_column v = Ok false ->
            In (t, v) sections')) /\
  (find_by_id (JList members) (JStr id) = Ok None ->
   Catalogue.delete_member refresh (Some id) true reselected st
   = show (showerror "Error" None) st).
Proof.
  intros Hst Hfi Hdata Htidy Hcols.
  assert (Hmembers : forallb (holds_at_most_once (JStr id)) members = true).
  { unfold tidy_store in Htidy. rewrite forallb_forall in Htidy.
    specialize (Htidy _ (dict_get_In _ _ _ Hfi)). cbn [snd tidy_section] in Htidy.
    now rewrite Hdata in Htidy. }
  set (kept := JDict (dict_set "data" (JList (spec_without_id (JStr id) members)) cfi)).
  set (sections1 := dict_set "family_info" kept sections).
  assert (Htidy1 : tidy_store (JStr id) sections1 = true).
  { apply forallb_dict_set; [exact Htidy|]. cbn [snd]. unfold kept, tidy_section.
    rewrite dict_get_set. cbn [String.eqb Ascii.eqb Bool.eqb].
    now apply forallb_filter. }
  assert (Hcols1 : forall t v, In (t, v) sections1 ->
                               exists b, Catalogue.has_holder_column v = Ok b).
  { intros t v Hin. apply in_dict_set in Hin as [[= -> ->]|Hin]; [|now apply (Hcols t)].
    unfold kept. rewrite (has_holder_column_set_data cfi _ _ Hdata).
    exact (Hcols "family_info" (JDict cfi) (dict_get_In _ _ _ Hfi)). }
  split.
  - intros i member Hfind.
    destruct (find_by_id_some _ _ _ _ Hfind) as [_ [fields [[= <-] Hid]]].
    exists (map (fun sc => (fst sc, spec_drop_in_section_x (JStr id) (snd sc))) sections1).
    split; [|split; [|split; [|split]]].
    + unfold Catalogue.delete_member.
      unfold bind, get_store, lift, show, put_store, mutate_store, get_member_by_id.
      rewrite Hst. cbn [py_getitem]. rewrite Hfi. cbn [rbind py_getitem].
      rewrite Hdata. cbn [rbind]. rewrite Hfind, (dict_truthy _ _ _ Hid). cbn [negb].
      rewrite (without_id_spec _ _ Hmembers).
      unfold set_data. cbn [py_getitem]. rewrite Hfi. cbn [rbind py_setitem data_store].
      fold kept. fold sections1.
      rewrite (catalogue_drop_everywhere_spec _ _ Htidy1 Hcols1).
      rewrite catalogue_refresh_all_views_reads. reflexivity.
    + rewrite dict_keys_map_values.
      now apply (dict_keys_set "family_info" kept (JDict cfi)).
    + unfold get_member_by_id. cbn [py_getitem].
      rewrite dict_get_map_values. unfold sections1. rewrite dict_get_set.
      cbn [String.eqb Ascii.eqb Bool.eqb option_map rbind].
      unfold spec_drop_in_section_x.
      destruct (Catalogue.has_holder_column kept) as [[|]|e].
      * unfold kept. cbn [spec_drop_in_section]. rewrite dict_get_set.
        cbn [String.eqb Ascii.eqb Bool.eqb py_getitem]. rewrite dict_get_set.
        cbn [String.eqb Ascii.eqb Bool.eqb rbind].
        now apply find_by_id_dropped.
      * unfold kept. cbn [py_getitem]. rewrite dict_get_set.
        cbn [String.eqb Ascii.eqb Bool.eqb rbind].
        apply find_by_id_without.
        apply Forall_forall. intros m Hm. rewrite forallb_forall in Hmembers.
        specialize (Hmembers m Hm). destruct m; try discriminate. now eexists.
      * unfold kept. cbn [py_getitem]. rewrite dict_get_set.
        cbn [String.eqb Ascii.eqb Bool.eqb rbind].
        apply find_by_id_without.
        apply Forall_forall. intros m Hm. rewrite forallb_forall in Hmembers.
        specialize (Hmembers m Hm). destruct m; try discriminate. now eexists.
    + intros t v' c recs r hs Hin Hhas -> Hrecs Hr Hh.
      apply in_map_iff in Hin as [[t0 v0] [[= <- Hv] Hin0]]. cbn [snd] in Hv.
      assert (Hv0 : tidy_section (JStr id) v0 = true).
      { unfold tidy_store in Htidy1. rewrite forallb_forall in Htidy1.
        exact (Htidy1 _ Hin0). }
      unfold spec_drop_in_section_x in Hv.
      destruct (Catalogue.has_holder_column v0) as [[|]|e] eqn:Eh.
      * destruct v0 as [| | | | |c0]; try discriminate.
        unfold tidy_section in Hv0. cbn [spec_drop_in_section] in Hv.
        destruct (dict_get "data" c0) as [[| | | |recs0|]|]; try discriminate.
        injection Hv as <-. rewrite dict_get_set in Hrecs.
        cbn [String.eqb Ascii.eqb Bool.eqb] in Hrecs. injection Hrecs as <-.
        apply in_map_iff in Hr as [rec0 [Hdrop Hrec0]].
        rewrite forallb_forall in Hv0.
        exact (spec_drop_holder_clean (JStr id) rec0 r hs (Hv0 _ Hrec0) Hdrop Hh).
      * subst v0. rewrite Eh in Hhas. discriminate.
      * subst v0. rewrite Eh in Hhas. discriminate.
    + intros t v Hin Hne Hfalse. apply in_map_iff. exists (t, v). split.
      * cbn [fst snd]. unfold spec_drop_in_section_x. now rewrite Hfalse.
      * unfold sections1. now apply in_dict_set_other.
  - intros Hnone. unfold Catalogue.delete_member.
    unfold bind, get_store, lift, get_member_by_id.
    rewrite Hst. cbn [py_getitem]. rewrite Hfi. cbn [rbind py_getitem].
    rewrite Hdata. cbn [rbind]. rewrite Hnone. reflexivity.
Qed.

Lemma extended_delete_member_witness :
  exists sections',
    data_store (snd (Catalogue.delete_member tk_ok (Some "m1") true None
                       (app_with (JDict store_with_plain_locker))))
    = JDict sections' /\
    get_member_by_id (JDict sections') (JStr "m1") = Ok None /\
    records_of (JDict sections') "bank_accounts"
    = Some [JDict (account "a1" "1001" ["m2"])] /\
    In ("locker", plain_locker) sections'.
Proof.
  destruct (extended_delete_member_cleans_sections_with_a_holder_column
              tk_ok "m1" store_with_plain_locker
              [("columns", columns ["Name"; "Aadhar No."; "PAN no"; "Voter id no"]);
               ("data", JList two_members)]
              two_members None (app_with (JDict store_with_plain_locker)))
    as [Hfound _].
  - reflexivity.
  - reflexivity.
  - reflexivity.
  - vm_compute. reflexivity.
  - intros t v Hin. vm_compute in Hin.
    repeat (destruct Hin as [[= <- <-]|Hin]; [eexists; vm_compute; reflexivity|]).
    destruct Hin.
  - destruct (Hfound 0 [("Name", JStr "Asha"); ("Aadhar No.", JStr ""); ("PAN no", JStr "");
                        ("Voter id no", JStr ""); ("id", JStr "m1")] eq_refl)
      as [sections' [Hstore [_ [Hgone [_ Hkeep]]]]].
    exists sections'. split; [exact Hstore|]. split; [exact Hgone|]. split.
    + vm_compute in Hstore. injection Hstore as <-. vm_compute. reflexivity.
    + apply Hkeep.
      * vm_compute. auto 12.
      * discriminate.
      * vm_compute. reflexivity.
Defined.

(** ** The editor window *)

Lemma dict_set_keys_NoDup (k : string) (v : json) (d : dict) :
  NoDup (dict_keys d) -> NoDup (dict_keys (dict_set k v d)).
Proof.
  intros Hnd. destruct (dict_get k d) as [w|] eqn:E.
  - now rewrite (dict_keys_set k v w d E).
  - rewrite dict_keys_set_new by assumption. apply NoDup_snoc; [assumption|].
    now apply dict_get_notin.
Qed.

Lemma member_map_fold (ms : list dict) (acc : dict) :
  Forall (fun m => listed_name m <> None) ms ->
  NoDup (dict_keys acc) ->
  exists mm,
    fold_left (fun acc m =>
                 let? d := acc in
                 let? name := py_get m "Name" (JStr "") in
                 let? id := py_get m "id" (JStr "") in
                 match name with
                 | JStr n => Ok (dict_set n id d)
                 | JList _ | JDict _ => Raise TypeError
                 | _ => Raise Unrepresentable
                 end)
              (map JDict ms) (Ok acc) = Ok mm /\
    NoDup (dict_keys mm) /\
    (forall n, dict_get n mm = match last_named n ms with
                               | Some id => Some id
                               | None => dict_get n acc
                               end).
Proof.
  set (f := fun (acc : result dict) (m : json) =>
              let? d := acc in
              let? name := py_get m "Name" (JStr "") in
              let? id := py_get m "id" (JStr "") in
              match name with
              | JStr n => Ok (dict_set n id d)
              | JList _ | JDict _ => Raise TypeError
              | _ => Raise Unrepresentable
              end).
  intros Hnames. revert acc.
  induction Hnames as [|m ms Hm _ IH]; intros acc Hnd.
  - exists acc. now repeat split.
  - cbn [map fold_left].
    assert (Hstep : exists n, listed_name m = Some n /\
                              f (Ok acc) (JDict m) = Ok (dict_set n (member_id m) acc)).
    { unfold listed_name in Hm. unfold f, listed_name, member_id.
      cbn [rbind py_get].
      destruct (dict_get "Name" m) as [[| | |n| |]|]; try contradiction.
      - exists n. split; [reflexivity|]. cbn [rbind].
        destruct (dict_get "id" m); reflexivity.
      - exists "". split; [reflexivity|]. cbn [rbind].
        destruct (dict_get "id" m); reflexivity. }
    destruct Hstep as [n [Hn ->]].
    destruct (IH (dict_set n (member_id m) acc) (dict_set_keys_NoDup _ _ _ Hnd))
      as [mm [Hmap [Hnd' Hget]]].
    exists mm. split; [exact Hmap|]. split; [exact Hnd'|].
    intros k. rewrite Hget. cbn [last_named].
    destruct (last_named k ms); [reflexivity|].
    rewrite Hn, dict_get_set. now destruct (String.eqb k n).
Qed.

Lemma last_named_some (n : string) (ms : list dict) (v : json) :
  last_named n ms = Some v -> exists m, In m ms /\ listed_name m = Some n.
Proof.
  revert v. induction ms as [|m ms IH]; intros v; cbn [last_named]; [discriminate|].
  destruct (last_named n ms) as [id|].
  - intros _. destruct (IH id eq_refl) as [m' [Hm' Hn']].
    exists m'. split; [now right | exact Hn'].
  - destruct (listed_name m) as [n'|] eqn:En; [|discriminate].
    destruct (String.eqb_spec n n') as [->|]; [|discriminate].
    intros _. exists m. split; [now left | exact En].
Qed.

Lemma last_named_none (n : string) (ms : list dict) (m : dict) :
  last_named n ms = None -> In m ms -> listed_name m <> Some n.
Proof.
  induction ms as [|m0 ms IH]; [intros _ []|]. cbn [last_named].
  destruct (last_named n ms) as [id|]; [discriminate|].
  intros E [->|Hm]; [|now apply IH].
  intros Hn. rewrite Hn, String.eqb_refl in E. discriminate.
Qed.

(** The names the editor lists as possible holders, and what each stands
    for: a name is listed once however many members bear it, in the place
    of the first of them, and stands for the identifier of the last of
    them, so that of two members with the same name only the later one
    can be made a holder.  A member without a name is listed under the
    empty name, one without an identifier stands for the empty
    identifier. *)
Theorem a_name_stands_for_the_last_member_that_bears_it
        (store fi : json) (ms : list dict) :
  py_getitem store "family_info" = Ok fi ->
  py_getitem fi "data" = Ok (JList (map JDict ms)) ->
  Forall (fun m => listed_name m <> None) ms ->
  exists mm,
    Basic.RecordEditorWindow.member_map store = Ok mm /\
    NoDup (dict_keys mm) /\
    (forall n, dict_get n mm = last_named n ms) /\
    (forall n, In n (dict_keys mm) <-> exists m, In m ms /\ listed_name m = Some n).
Proof.
  intros Hfi Hdata Hnames.
  destruct (member_map_fold ms [] Hnames (NoDup_nil _)) as [mm [Hfold [Hnd Hget]]].
  exists mm. split; [|split; [exact Hnd|split]].
  - unfold Basic.RecordEditorWindow.member_map. rewrite Hfi. cbn [rbind].
    rewrite Hdata. cbn [rbind py_iter]. exact Hfold.
  - intros n. rewrite Hget. now destruct (last_named n ms).
  - intros n. split.
    + intros Hin. destruct (dict_get n mm) as [v|] eqn:E.
      * rewrite Hget in E. cbn [dict_get] in E.
        destruct (last_named n ms) as [id|] eqn:El; [|discriminate].
        exact (last_named_some n ms id El).
      * now apply dict_get_notin in E.
    + intros [m [Hm Hn]]. destruct (dict_get n mm) as [v|] eqn:E.
      * unfold dict_keys. apply in_map_iff. exists (n, v). split; [reflexivity|].
        now apply dict_get_In.
      * exfalso. rewrite Hget in E. cbn [dict_get] in E.
        destruct (last_named n ms) as [id|] eqn:El; [discriminate|].
        exact (last_named_none n ms m El Hm Hn).
Qed.

Lemma a_name_stands_for_the_last_member_witness :
  exists mm,
    Basic.RecordEditorWindow.member_map
      (store_with [member "m1" "Asha"; member "m2" "Ravi"; member "m3" "Asha"] [])
    = Ok mm /\
    dict_keys mm = ["Asha"; "Ravi"] /\
    dict_get "Asha" mm = Some (JStr "m3").
Proof.
  destruct (a_name_stands_for_the_last_member_that_bears_it
              (store_with [member "m1" "Asha"; member "m2" "Ravi"; member "m3" "Asha"] [])
              (JDict [("columns", columns ["Name"; "Aadhar No."; "PAN no"; "Voter id no"]);
                      ("data", JList [member "m1" "Asha"; member "m2" "Ravi";
                                      member "m3" "Asha"])])
              [[("Name", JStr "Asha"); ("Aadhar No.", JStr ""); ("PAN no", JStr "");
                ("Voter id no", JStr ""); ("id", JStr "m1")];
               [("Name", JStr "Ravi"); ("Aadhar No.", JStr ""); ("PAN no", JStr "");
                ("Voter id no", JStr ""); ("id", JStr "m2")];
               [("Name", JStr "Asha"); ("Aadhar No.", JStr ""); ("PAN no", JStr "");
                ("Voter id no", JStr ""); ("id", JStr "m3")]])
    as [mm [Hmap [_ [Hget _]]]].
  - reflexivity.
  - reflexivity.
  - repeat constructor; discriminate.
  - exists mm. split; [exact Hmap|].
    vm_compute in Hmap. injection Hmap as <-. split; reflexivity.
Defined.

(** *** Validation *)

Lemma with_dialogs_nil (st : app) : with_dialogs st [] = st.
Proof. unfold with_dialogs. rewrite app_nil_r. now destruct st. Qed.

Lemma with_dialogs_app (st : app) (a b : list dialog) :
  with_dialogs (with_dialogs st a) b = with_dialogs st (a ++ b).
Proof. unfold with_dialogs. cbn. now rewrite <- app_assoc. Qed.

Lemma examined_all (float_ok : string -> bool) (texts : list (string * string)) :
  numbers_parse float_ok texts = true -> examined float_ok texts = texts.
Proof.
  induction texts as [|kt texts IH]; [reflexivity|].
  cbn [numbers_parse forallb examined]. unfold holds_back. intros H.
  apply andb_prop in H as [Hkt Hrest].
  destruct (String.eqb (snd kt) ""); cbn [negb andb orb] in *;
    [now rewrite (IH Hrest)|].
  destruct (Basic.RecordEditorWindow.numeric_key (fst kt)); cbn [negb andb orb] in *;
    [|now rewrite (IH Hrest)].
  rewrite Hkt. cbn [negb]. now rewrite (IH Hrest).
Qed.

Lemma date_warnings_cons (date_ok : string -> bool) (key value : string)
      (texts : list (string * string)) :
  date_warnings date_ok ((key, value) :: texts)
  = (if negb (String.eqb value "") &&
        Basic.RecordEditorWindow.date_key key && negb (date_ok value)
     then [showwarning "Validation Warning"] else [])
    ++ date_warnings date_ok texts.
Proof.
  unfold date_warnings. cbn [filter fst snd].
  now destruct (negb (String.eqb value "") &&
                Basic.RecordEditorWindow.date_key key && negb (date_ok value)).
Qed.

Lemma validate_exact (float_ok date_ok : string -> bool)
      (texts : list (string * string)) (st : app) :
  Basic.RecordEditorWindow.validate float_ok date_ok texts st
  = (Ok (numbers_parse float_ok texts),
     with_dialogs st (date_warnings date_ok (examined float_ok texts)
                      ++ if numbers_parse float_ok texts then []
                         else [showerror "Validation Error" None])).
Proof.
  revert st. induction texts as [|[key value] texts IH]; intros st.
  - cbn. now rewrite with_dialogs_nil.
  - cbn [Basic.RecordEditorWindow.validate numbers_parse forallb examined fst snd].
    unfold holds_back. cbn [fst snd].
    destruct (String.eqb value "") eqn:Ev; cbn [orb andb negb].
    + rewrite date_warnings_cons, Ev. cbn [negb andb List.app]. exact (IH st).
    + destruct (Basic.RecordEditorWindow.numeric_key key) eqn:Ek; cbn [negb orb andb].
      * destruct (float_ok value) eqn:Ef; cbn [negb andb]; [|reflexivity].
        rewrite date_warnings_cons, Ev. cbn [negb andb].
        destruct (Basic.RecordEditorWindow.date_key key && negb (date_ok value)).
        -- unfold bind at 1. unfold show at 1.
           change (mkApp (data_store st) (current_file_path st) (search_vars st)
                         (uuid_calls st)
                         (dialogs st ++ [showwarning "Validation Warning"]) (disk st))
             with (with_dialogs st [showwarning "Validation Warning"]).
           rewrite IH, with_dialogs_app, <- app_assoc. reflexivity.
        -- unfold bind at 1. unfold ret at 1. exact (IH st).
      * rewrite date_warnings_cons, Ev. cbn [negb andb].
        destruct (Basic.RecordEditorWindow.date_key key && negb (date_ok value)).
        -- unfold bind at 1. unfold show at 1.
           change (mkApp (data_store st) (current_file_path st) (search_vars st)
                         (uuid_calls st)
                         (dialogs st ++ [showwarning "Validation Warning"]) (disk st))
             with (with_dialogs st [showwarning "Validation Warning"]).
           rewrite IH, with_dialogs_app, <- app_assoc. reflexivity.
        -- unfold bind at 1. unfold ret at 1. exact (IH st).
Qed.

Lemma validate_result (float_ok date_ok : string -> bool)
      (texts : list (string * string)) (st : app) :
  exists warnings,
    Forall (fun d => d = showwarning "Validation Warning") warnings /\
    Basic.RecordEditorWindow.validate float_ok date_ok texts st
    = (Ok (numbers_parse float_ok texts),
       with_dialogs st (warnings ++ if numbers_parse float_ok texts then []
                                    else [showerror "Validation Error" None])).
Proof.
  exists (date_warnings date_ok (examined float_ok texts)).
  split; [|apply validate_exact].
  unfold date_warnings. apply Forall_forall. intros x Hx.
  apply in_map_iff in Hx as [kt [<- _]]. reflexivity.
Qed.

Lemma lookup_names (mm : dict) (names : list string) :
  (forall n, In n names -> In n (dict_keys mm)) ->
  rmap (fun name => py_getitem (JDict mm) name) names
  = Ok (map (stands_for mm) names).
Proof.
  intros H. apply rmap_total. intros n Hn. unfold stands_for. cbn [py_getitem].
  destruct (dict_get n mm) eqn:E; [reflexivity|].
  apply dict_get_notin in E. now destruct (E (H n Hn)).
Qed.

(** "Save" in the editor of the basic variant is held back by one thing
    only: a text that is not empty, stands under a column whose name
    contains "amount", "rate", "sum assured" or "days" (in any letter
    case) and is not accepted as a number.  Then an error is shown after
    the warnings for the dates gone through before it, the record is not
    handed on and the store stays as it is.  A date that does not match
    the pattern only adds a warning: the record is handed on with the
    texts as typed, every one of them a string, and, in a section with a
    holder column, with the identifiers the selected names stand for as
    its [holders]. *)
Theorem editor_save_is_held_back_only_by_an_unparsable_number
        (float_ok date_ok : string -> bool)
        (save_callback : string -> dict -> option string -> M unit)
        (section_title : string) (record_id : option string)
        (w : Basic.RecordEditorWindow.window) (typed : string -> string)
        (selected : list nat) (st : app) :
  (numbers_parse float_ok (typed_texts w typed) = false ->
   Basic.RecordEditorWindow.save float_ok date_ok save_callback section_title
     record_id w typed selected st
   = (Ok tt,
      with_dialogs st (date_warnings date_ok (examined float_ok (typed_texts w typed))
                       ++ [showerror "Validation Error" None]))) /\
  (numbers_parse float_ok (typed_texts w typed) = true ->
   (Basic.RecordEditorWindow.holder_listbox w = None ->
    Basic.RecordEditorWindow.save float_ok date_ok save_callback section_title
      record_id w typed selected st
    = save_callback section_title (typed_record w typed) record_id
        (with_dialogs st (date_warnings date_ok (typed_texts w typed)))) /\
   (forall mm sel0,
       Basic.RecordEditorWindow.holder_listbox w = Some (mm, dict_keys mm, sel0) ->
       Forall (fun i => i < List.length (dict_keys mm)) selected ->
       Basic.RecordEditorWindow.save float_ok date_ok save_callback section_title
         record_id w typed selected st
       = save_callback section_title
           (dict_set "holders"
              (JList (map (fun i => stands_for mm (nth i (dict_keys mm) "")) selected))
              (typed_record w typed))
           record_id
           (with_dialogs st (date_warnings date_ok (typed_texts w typed))))).
Proof.
  pose proof (validate_exact float_ok date_ok (typed_texts w typed) st) as Hrun.
  split.
  - intros Hfail. unfold Basic.RecordEditorWindow.save. unfold bind at 1.
    fold (typed_texts w typed). rewrite Hrun, Hfail. reflexivity.
  - intros Hpass. rewrite Hpass, (examined_all _ _ Hpass), app_nil_r in Hrun. split.
    + intros Hnone. unfold Basic.RecordEditorWindow.save. unfold bind at 1.
      fold (typed_texts w typed). rewrite Hrun. cbn [negb]. unfold bind, lift.
      rewrite Hnone. unfold typed_texts, typed_record. rewrite map_map. reflexivity.
    + intros mm sel0 Hbox Hsel. unfold Basic.RecordEditorWindow.save. unfold bind at 1.
      fold (typed_texts w typed). rewrite Hrun. cbn [negb]. unfold bind, lift.
      rewrite Hbox. rewrite lookup_names.
      * cbn [rbind]. unfold typed_texts, typed_record. rewrite !map_map. reflexivity.
      * intros n Hn. apply in_map_iff in Hn as [i [<- Hi]].
        rewrite Forall_forall in Hsel. apply nth_In. now apply Hsel.
Qed.

(** A fixed deposit made in the editor the section's schema gives, with
    a start date that is no date: with the amount a number the date only
    warns and the record is saved with the holder selected; with an
    amount that is no number the save is held back, after the warning
    for the date, which comes before the amount. *)
Lemma editor_save_witness :
  exists w,
    Basic.RecordEditorWindow.__init__ sample_store "fixed_deposits" JNull = Ok w /\
    dialogs (snd (Basic.RecordEditorWindow.save deposit_float_ok deposit_date_ok
                    deposit_callback "fixed_deposits" None w (deposit_typed "10000")
                    [0] (app_with sample_store)))
    = [showwarning "Validation Warning"] /\
    record_at (data_store
                 (snd (Basic.RecordEditorWindow.save deposit_float_ok deposit_date_ok
                         deposit_callback "fixed_deposits" None w (deposit_typed "10000")
                         [0] (app_with sample_store))))
              "fixed_deposits" 0
    = Some (JDict [("Bank Name", JStr "SBI"); ("Rate (%)", JStr "7.5");
                   ("Number of Days", JStr "90"); ("Start Date", JStr "tomorrow");
                   ("End Date", JStr ""); ("Amount", JStr "10000");
                   ("holders", JList [JStr "m1"]); ("id", JStr "uuid-0")]) /\
    Basic.RecordEditorWindow.save deposit_float_ok deposit_date_ok
      deposit_callback "fixed_deposits" None w (deposit_typed "lots")
      [0] (app_with sample_store)
    = (Ok tt, with_dialogs (app_with sample_store)
                [showwarning "Validation Warning"; showerror "Validation Error" None]).
Proof.
  exists (Basic.RecordEditorWindow.mkWindow
            [("Bank Name", ""); ("Rate (%)", ""); ("Number of Days", "");
             ("Start Date", ""); ("End Date", ""); ("Amount", "")]
            (Some ([("Asha", JStr "m1"); ("Ravi", JStr "m2")], ["Asha"; "Ravi"], []))).
  split; [vm_compute; reflexivity|].
  destruct (editor_save_is_held_back_only_by_an_unparsable_number
              deposit_float_ok deposit_date_ok deposit_callback "fixed_deposits" None
              (Basic.RecordEditorWindow.mkWindow
                 [("Bank Name", ""); ("Rate (%)", ""); ("Number of Days", "");
                  ("Start Date", ""); ("End Date", ""); ("Amount", "")]
                 (Some ([("Asha", JStr "m1"); ("Ravi", JStr "m2")], ["Asha"; "Ravi"], [])))
              (deposit_typed "10000") [0] (app_with sample_store)) as [_ Hpass].
  destruct (editor_save_is_held_back_only_by_an_unparsable_number
              deposit_float_ok deposit_date_ok deposit_callback "fixed_deposits" None
              (Basic.RecordEditorWindow.mkWindow
                 [("Bank Name", ""); ("Rate (%)", ""); ("Number of Days", "");
                  ("Start Date", ""); ("End Date", ""); ("Amount", "")]
                 (Some ([("Asha", JStr "m1"); ("Ravi", JStr "m2")], ["Asha"; "Ravi"], [])))
              (deposit_typed "lots") [0] (app_with sample_store)) as [Hfail _].
  destruct (Hpass eq_refl) as [_ Hsome].
  rewrite (Hsome [("Asha", JStr "m1"); ("Ravi", JStr "m2")] [] eq_refl)
    by (repeat constructor).
  rewrite (Hfail eq_refl).
  repeat split; vm_compute; reflexivity.
Defined.

(** *** The holders of a record that is edited *)

Lemma selection_set_names (mm : dict) (hs : list json) (pre names : list string) :
  exists sel,
    Basic.RecordEditorWindow.selection_set mm (JList hs) (List.length pre) names = Ok sel /\
    map (fun i => nth i (pre ++ names) "") sel
    = filter (fun n => among hs (stands_for mm n)) names /\
    Forall (fun i => i < List.length (pre ++ names)) sel.
Proof.
  revert pre. induction names as [|n names IH]; intros pre.
  - exists []. repeat split; constructor.
  - destruct (IH (pre ++ [n])) as [sel [Hsel [Hnames Hlt]]].
    rewrite <- app_assoc in Hnames, Hlt. cbn [List.app] in Hnames, Hlt.
    rewrite length_app in Hsel. cbn [List.length] in Hsel.
    rewrite Nat.add_1_r in Hsel.
    assert (Hget : py_get (JDict mm) n JNull = Ok (stands_for mm n)).
    { unfold py_get, stands_for. now destruct (dict_get n mm). }
    cbn [Basic.RecordEditorWindow.selection_set]. rewrite Hget. cbn [rbind].
    change (py_in (stands_for mm n) (JList hs)) with (Ok (among hs (stands_for mm n))).
    cbn [rbind]. rewrite Hsel. cbn [rbind filter].
    destruct (among hs (stands_for mm n)).
    + exists (List.length pre :: sel). split; [reflexivity|]. split.
      * cbn [map]. rewrite Hnames. f_equal.
        rewrite app_nth2 by lia. now rewrite Nat.sub_diag.
      * constructor; [rewrite length_app; cbn; lia | exact Hlt].
    + exists sel. split; [reflexivity|]. split; [exact Hnames | exact Hlt].
Qed.

Lemma stands_for_values (mm : dict) :
  NoDup (dict_keys mm) ->
  map (stands_for mm) (dict_keys mm) = dict_values mm.
Proof.
  unfold stands_for, dict_keys, dict_values.
  induction mm as [|[k v] mm IH]; intros Hnd; [reflexivity|].
  cbn [map fst snd dict_get] in *. rewrite String.eqb_refl.
  inversion Hnd as [|? ? Hk Hnd']; subst. f_equal.
  rewrite <- (IH Hnd'). apply map_ext_in. intros k' Hk'.
  destruct (String.eqb_spec k' k) as [->|]; [contradiction | reflexivity].
Qed.

Lemma map_filter_comm {A B} (f : A -> B) (p : B -> bool) (l : list A) :
  map f (filter (fun x => p (f x)) l) = filter p (map f l).
Proof.
  induction l as [|x l IH]; [reflexivity|]. cbn [filter map].
  destruct (p (f x)); cbn [map]; now rewrite IH.
Qed.

(** Opening a record in the editor and saving it with the selection the
    editor starts with does not keep its holders as they were: the
    holders saved are the identifiers the listed names stand for that
    were among the old holders, in the order of the list of names.  A
    holder that no listed name stands for - a member deleted since, or a
    member hidden behind a namesake - is dropped. *)
Theorem unchanged_edit_keeps_only_the_holders_that_are_listed
        (float_ok date_ok : string -> bool)
        (save_callback : string -> dict -> option string -> M unit)
        (store initial_data : json) (h : string) (w0 : Basic.RecordEditorWindow.window)
        (section_title : string) (record_id : option string)
        (mm : dict) (hs : list json) (typed : string -> string) (st : app) :
  names_holders h = true ->
  Basic.RecordEditorWindow.member_map store = Ok mm ->
  NoDup (dict_keys mm) ->
  py_get initial_data "holders" (JList []) = Ok (JList hs) ->
  numbers_parse float_ok
    (map (fun kt => (fst kt, typed (fst kt))) (Basic.RecordEditorWindow.entries w0))
  = true ->
  exists sel warnings,
    Basic.RecordEditorWindow.init_column store initial_data (Ok w0) (JStr h)
    = Ok (Basic.RecordEditorWindow.mkWindow
            (Basic.RecordEditorWindow.entries w0) (Some (mm, dict_keys mm, sel))) /\
    Basic.RecordEditorWindow.save float_ok date_ok save_callback section_title record_id
      (Basic.RecordEditorWindow.mkWindow
         (Basic.RecordEditorWindow.entries w0) (Some (mm, dict_keys mm, sel)))
      typed sel st
    = save_callback section_title
        (dict_set "holders" (JList (filter (among hs) (dict_values mm)))
                  (map (fun kt => (fst kt, JStr (typed (fst kt))))
                       (Basic.RecordEditorWindow.entries w0)))
        record_id (with_dialogs st warnings) /\
    (forall id, In id (filter (among hs) (dict_values mm)) ->
                In id (dict_values mm) /\ among hs id = true).
Proof.
  intros Hh Hmap Hnd Hholders Hpass.
  destruct (selection_set_names mm hs [] (dict_keys mm)) as [sel [Hsel [Hnames _]]].
  cbn [List.app List.length] in Hsel, Hnames.
  destruct (validate_result float_ok date_ok
              (map (fun kt => (fst kt, typed (fst kt)))
                   (Basic.RecordEditorWindow.entries w0)) st)
    as [warnings [_ Hrun]].
  exists sel, warnings. split; [|split].
  - unfold Basic.RecordEditorWindow.init_column. cbn [rbind].
    rewrite is_holder_column_str, Hh. cbn [rbind]. rewrite Hmap. cbn [rbind].
    rewrite Hholders. cbn [rbind]. rewrite Hsel. reflexivity.
  - unfold Basic.RecordEditorWindow.save.
    cbn [Basic.RecordEditorWindow.entries Basic.RecordEditorWindow.holder_listbox].
    unfold bind at 1. rewrite Hrun, Hpass. cbn [negb]. unfold bind, lift.
    rewrite Hnames, lookup_names.
    + rewrite (map_filter_comm (stands_for mm) (among hs)).
      rewrite (stands_for_values mm Hnd), app_nil_r, map_map. reflexivity.
    + intros n Hn. apply filter_In in Hn. tauto.
  - intros id Hid. apply filter_In in Hid. exact Hid.
Qed.

Lemma unchanged_edit_witness :
  exists sel warnings,
    Basic.RecordEditorWindow.save (fun _ => true) (fun _ => true)
      (fun section new_data id =>
         Basic.save_asset sample_uuid4 tk_rows_ok section new_data id None)
      "bank_accounts" (Some "a1")
      (Basic.RecordEditorWindow.mkWindow
         [] (Some ([("Ravi", JStr "m2")], ["Ravi"], sel)))
      (fun _ => "") sel (app_with store_after_delete)
    = Basic.save_asset sample_uuid4 tk_rows_ok "bank_accounts"
        [("holders", JList [JStr "m2"])] (Some "a1") None
        (with_dialogs (app_with store_after_delete) warnings).
Proof.
  destruct (unchanged_edit_keeps_only_the_holders_that_are_listed
              (fun _ => true) (fun _ => true)
              (fun section new_data id =>
                 Basic.save_asset sample_uuid4 tk_rows_ok section new_data id None)
              store_after_delete (JDict (account "a1" "1001" ["m1"; "m2"])) "Holders"
              (Basic.RecordEditorWindow.mkWindow [] None)
              "bank_accounts" (Some "a1") [("Ravi", JStr "m2")]
              [JStr "m1"; JStr "m2"] (fun _ => "") (app_with store_after_delete))
    as [sel [warnings [_ [Hsave _]]]].
  - reflexivity.
  - reflexivity.
  - repeat constructor; cbn; intuition.
  - reflexivity.
  - reflexivity.
  - exists sel, warnings. exact Hsave.
Defined.

(** *** A record made in the editor *)

Lemma set_entry_fresh (c t : string) (es : list (string * string)) :
  ~ In c (map fst es) ->
  Basic.RecordEditorWindow.set_entry c t es = es ++ [(c, t)].
Proof.
  induction es as [|[k x] es IH]; intros H; [reflexivity|].
  cbn [Basic.RecordEditorWindow.set_entry map fst In] in *.
  destruct (String.eqb_spec c k) as [->|_]; [tauto|].
  cbn [List.app]. f_equal. apply IH. tauto.
Qed.

Lemma init_plain_columns (store : json) (fields : list string)
      (es : list (string * string))
      (lb : option (dict * list string * list nat)) :
  NoDup (map fst es ++ fields) ->
  (forall c, In c fields -> names_holders c = false) ->
  fold_left (Basic.RecordEditorWindow.init_column store (JDict []))
            (map JStr fields) (Ok (Basic.RecordEditorWindow.mkWindow es lb))
  = Ok (Basic.RecordEditorWindow.mkWindow (es ++ map (fun c => (c, "")) fields) lb).
Proof.
  revert es. induction fields as [|c fields IH]; intros es Hnd Hplain.
  - cbn. now rewrite app_nil_r.
  - cbn [map fold_left].
    assert (Hstep : Basic.RecordEditorWindow.init_column store (JDict [])
                      (Ok (Basic.RecordEditorWindow.mkWindow es lb)) (JStr c)
                    = Ok (Basic.RecordEditorWindow.mkWindow (es ++ [(c, "")]) lb)).
    { unfold Basic.RecordEditorWindow.init_column. cbn [rbind].
      rewrite is_holder_column_str, (Hplain c (or_introl eq_refl)).
      cbn [rbind py_get_any dict_get Basic.RecordEditorWindow.entry_text
           Basic.RecordEditorWindow.entries Basic.RecordEditorWindow.holder_listbox].
      rewrite set_entry_fresh; [reflexivity|].
      apply NoDup_remove_2 in Hnd. intros Hin. apply Hnd.
      apply in_or_app. now left. }
    rewrite Hstep. rewrite IH.
    + now rewrite <- app_assoc.
    + rewrite map_app. cbn [map fst]. rewrite <- app_assoc. exact Hnd.
    + intros c' Hc'. apply Hplain. now right.
Qed.

Lemma selection_set_none (mm : dict) (names : list string) (idx : nat) :
  Basic.RecordEditorWindow.selection_set mm (JList []) idx names = Ok [].
Proof.
  revert idx. induction names as [|n names IH]; intros idx; [reflexivity|].
  cbn [Basic.RecordEditorWindow.selection_set].
  assert (Hget : py_get (JDict mm) n JNull = Ok (stands_for mm n)).
  { unfold py_get, stands_for. now destruct (dict_get n mm). }
  rewrite Hget. cbn [rbind py_in existsb]. now rewrite IH.
Qed.

Lemma dict_get_typed (typed : string -> string) (fields : list string) (c : string) :
  dict_get c (map (fun k => (k, JStr (typed k))) fields)
  = if existsb (String.eqb c) fields then Some (JStr (typed c)) else None.
Proof.
  induction fields as [|k fields IH]; [reflexivity|].
  cbn [map dict_get existsb]. destruct (String.eqb_spec c k) as [->|]; [reflexivity|].
  exact IH.
Qed.

Lemma existsb_eqb_false (c : string) (l : list string) :
  ~ In c l -> existsb (String.eqb c) l = false.
Proof.
  intros H. destruct (existsb (String.eqb c) l) eqn:E; [|reflexivity].
  apply existsb_exists in E as [x [Hx Hc]]. apply String.eqb_eq in Hc. now subst.
Qed.

Lemma save_asset_new
      (uuid4 : nat -> string) (refresh : json -> string -> json -> result unit)
      (st : app) (d sec : dict) (section : string) (records : list json)
      (new_data : dict) (selected : option string) :
  data_store st = JDict d ->
  dict_get section d = Some (JDict sec) ->
  dict_get "data" sec = Some (JList records) ->
  data_store (snd (Basic.save_asset uuid4 refresh section new_data None selected st))
  = JDict (dict_set section
             (JDict (dict_set "data"
                       (JList (records ++
                               [JDict (dict_set "id" (JStr (uuid4 (uuid_calls st)))
                                                new_data)]))
                       sec)) d).
Proof.
  intros Hstore Hsec Hdata. unfold Basic.save_asset. cbn [id_given].
  rewrite snd_bind_reader by (intros; apply views_read).
  unfold bind, lift, put_store, append_record, set_data. cbn [data_store].
  rewrite Hstore. cbn [py_getitem]. rewrite Hsec. cbn [rbind py_getitem].
  rewrite Hdata. reflexivity.
Qed.

Lemma row_of_plain_columns (store : json) (cols : list string) (r : dict) :
  (forall c, In c cols -> names_holders c = false) ->
  Basic.row_values store (columns cols) (JDict r) = Ok (map (stored r) cols).
Proof.
  intros Hplain. unfold Basic.row_values, columns. cbn [py_iter rbind].
  induction cols as [|c cols IH]; [reflexivity|].
  cbn [map rmap]. rewrite is_holder_column_str, (Hplain c (or_introl eq_refl)).
  cbn [rbind]. rewrite IH by (intros c' Hc'; apply Hplain; now right).
  reflexivity.
Qed.

(** A new asset made in the editor of the basic variant, in a section
    whose schema is a holder column followed by other columns: the
    editor has one entry box for each of the other columns, and "Save"
    appends to the section a record with those columns in schema order,
    each with the text typed, then [holders] with the identifiers the
    selected names stand for, then a fresh [id].  The tree shows the
    texts as they were typed. *)
Theorem editor_makes_a_record_of_the_typed_texts
        (float_ok date_ok : string -> bool) (uuid4 : nat -> string)
        (refresh : json -> string -> json -> result unit)
        (st : app) (d sec : dict) (section h : string) (fields : list string)
        (records : list json) (mm : dict) (typed : string -> string)
        (selected : list nat) (member_selected : option string) :
  data_store st = JDict d ->
  dict_get section d = Some (JDict sec) ->
  dict_get "columns" sec = Some (columns (h :: fields)) ->
  dict_get "data" sec = Some (JList records) ->
  names_holders h = true ->
  (forall c, In c fields -> names_holders c = false) ->
  NoDup fields -> ~ In "holders" fields -> ~ In "id" fields ->
  Basic.RecordEditorWindow.member_map (JDict d) = Ok mm ->
  Forall (fun i => i < List.length (dict_keys mm)) selected ->
  numbers_parse float_ok (map (fun c => (c, typed c)) fields) = true ->
  exists w r,
    Basic.RecordEditorWindow.__init__ (JDict d) section JNull = Ok w /\
    Basic.RecordEditorWindow.entries w = map (fun c => (c, "")) fields /\
    r = map (fun c => (c, JStr (typed c))) fields
        ++ [("holders",
             JList (map (fun i => stands_for mm (nth i (dict_keys mm) "")) selected));
            ("id", JStr (uuid4 (uuid_calls st)))] /\
    data_store
      (snd (Basic.RecordEditorWindow.save float_ok date_ok
              (fun s new_data id =>
                 Basic.save_asset uuid4 refresh s new_data id member_selected)
              section None w typed selected st))
    = JDict (dict_set section
               (JDict (dict_set "data" (JList (records ++ [JDict r])) sec)) d) /\
    dict_keys r = fields ++ ["holders"; "id"] /\
    (forall store, Basic.row_values store (columns fields) (JDict r)
                   = Ok (map (fun c => JStr (typed c)) fields)).
Proof.
  intros Hst Hsec Hcols Hdata Hh Hplain Hnd Hnoh Hnoid Hmap Hsel Hpass.
  set (w := Basic.RecordEditorWindow.mkWindow
              (map (fun c => (c, "")) fields) (Some (mm, dict_keys mm, []))).
  set (new_data := map (fun c => (c, JStr (typed c))) fields).
  set (ids := map (fun i => stands_for mm (nth i (dict_keys mm) "")) selected).
  set (r := new_data ++ [("holders", JList ids); ("id", JStr (uuid4 (uuid_calls st)))]).
  assert (Hget : forall c, dict_get c new_data
                           = if existsb (String.eqb c) fields
                             then Some (JStr (typed c)) else None)
    by (intros c; apply dict_get_typed).
  assert (Hholders : dict_set "holders" (JList ids) new_data
                     = new_data ++ [("holders", JList ids)]).
  { apply dict_set_absent. rewrite Hget. now rewrite existsb_eqb_false. }
  assert (Hid : dict_set "id" (JStr (uuid4 (uuid_calls st)))
                         (new_data ++ [("holders", JList ids)]) = r).
  { rewrite dict_set_absent.
    - unfold r. now rewrite <- app_assoc.
    - rewrite dict_get_app, Hget, existsb_eqb_false by assumption. reflexivity. }
  exists w, r. split; [|split; [reflexivity|split; [reflexivity|split; [|split]]]].
  - unfold Basic.RecordEditorWindow.__init__. cbn [py_truthy py_getitem].
    rewrite Hsec. cbn [rbind py_getitem]. rewrite Hcols. cbn [rbind].
    unfold columns. cbn [py_iter rbind map fold_left].
    assert (Hfirst : Basic.RecordEditorWindow.init_column (JDict d) (JDict [])
                       (Ok (Basic.RecordEditorWindow.mkWindow [] None)) (JStr h)
                     = Ok (Basic.RecordEditorWindow.mkWindow
                             [] (Some (mm, dict_keys mm, [])))).
    { unfold Basic.RecordEditorWindow.init_column. cbn [rbind].
      rewrite is_holder_column_str, Hh. cbn [rbind]. rewrite Hmap.
      cbn [rbind py_get dict_get]. now rewrite selection_set_none. }
    rewrite Hfirst. now rewrite init_plain_columns.
  - unfold Basic.RecordEditorWindow.save.
    cbn [Basic.RecordEditorWindow.entries Basic.RecordEditorWindow.holder_listbox w].
    rewrite !map_map. cbn [fst snd].
    destruct (validate_result float_ok date_ok (map (fun c => (c, typed c)) fields) st)
      as [warnings [_ Hrun]].
    unfold bind at 1. rewrite Hrun, Hpass. cbn [negb]. unfold bind at 1. unfold lift.
    rewrite lookup_names.
    + rewrite map_map. fold ids. fold new_data. cbn [rbind]. rewrite Hholders.
      rewrite (save_asset_new uuid4 refresh (with_dialogs st (warnings ++ []))
                 d sec section records _ member_selected Hst Hsec Hdata).
      cbn [with_dialogs uuid_calls]. now rewrite Hid.
    + intros n Hn. apply in_map_iff in Hn as [i [<- Hi]].
      rewrite Forall_forall in Hsel. apply nth_In. now apply Hsel.
  - unfold r, dict_keys. rewrite map_app. unfold new_data. rewrite map_map.
    cbn [map fst]. now rewrite map_id.
  - intros store. rewrite (row_of_plain_columns store fields r Hplain).
    f_equal. apply map_ext_in. intros c Hc. unfold stored, r.
    rewrite dict_get_app, Hget.
    assert (He : existsb (String.eqb c) fields = true).
    { apply existsb_exists. exists c. split; [exact Hc | apply String.eqb_refl]. }
    now rewrite He.
Qed.

Lemma editor_makes_a_record_witness :
  exists w,
    Basic.RecordEditorWindow.__init__ sample_store "bank_accounts" JNull = Ok w /\
    record_at
      (data_store
         (snd (Basic.RecordEditorWindow.save (fun _ => true) (fun _ => true)
                 (fun s new_data id =>
                    Basic.save_asset sample_uuid4 tk_rows_ok s new_data id None)
                 "bank_accounts" None w
                 (fun c => if String.eqb c "BANK NAME" then "HDFC"
                           else if String.eqb c "ACCOUNT NO" then "2002" else "Current")
                 [1] (app_with sample_store))))
      "bank_accounts" 1
    = Some (JDict [("Account Type", JStr "Current"); ("BANK NAME", JStr "HDFC");
                   ("ACCOUNT NO", JStr "2002"); ("holders", JList [JStr "m2"]);
                   ("id", JStr "uuid-0")]).
Proof.
  destruct (editor_makes_a_record_of_the_typed_texts
              (fun _ => true) (fun _ => true) sample_uuid4 tk_rows_ok
              (app_with sample_store)
              (dict_update initialize_data_structures
                 [("family_info",
                   JDict [("columns", columns ["Name"; "Aadhar No."; "PAN no"; "Voter id no"]);
                          ("data", JList two_members)]);
                  ("bank_accounts", accounts_section [JDict (account "a1" "1001" ["m1"; "m2"])])])
              [("columns", account_columns);
               ("data", JList [JDict (account "a1" "1001" ["m1"; "m2"])])]
              "bank_accounts" "Holders" ["Account Type"; "BANK NAME"; "ACCOUNT NO"]
              [JDict (account "a1" "1001" ["m1"; "m2"])]
              [("Asha", JStr "m1"); ("Ravi", JStr "m2")]
              (fun c => if String.eqb c "BANK NAME" then "HDFC"
                        else if String.eqb c "ACCOUNT NO" then "2002" else "Current")
              [1] None)
    as [w [r [Hinit [_ [Hr [Hstore _]]]]]].
  - reflexivity.
  - reflexivity.
  - reflexivity.
  - reflexivity.
  - reflexivity.
  - intros c Hc. cbn in Hc. repeat (destruct Hc as [<-|Hc]; [reflexivity|]). destruct Hc.
  - repeat constructor; cbn; intuition discriminate.
  - cbn. intuition discriminate.
  - cbn. intuition discriminate.
  - reflexivity.
  - repeat constructor.
  - reflexivity.
  - exists w. split; [exact Hinit|]. rewrite Hstore, Hr. vm_compute. reflexivity.
Defined.
